(** * CRE Research Agent: the research orchestration core

    A shallow embedding of the backend of the CRE research agent
    (query categorisation, the source adapters, the session tracker,
    the research handler and the synthesis step) together with the
    properties of its specification.

    Conventions of the embedding.
    - JavaScript strings are [string]; queries are taken to be ASCII
      text, so [toLowerCase] only moves [A-Z].
    - A property that may be [undefined] is an [option].
    - [global.researchStatus] and [global.researchComplete] are plain
      objects: finite maps for the properties of their own, read
      through their prototype chain, so that a session identifier that
      names an inherited property ([constructor], [__proto__], ...)
      behaves as it does in the program (module [Session]).
    - A request is served from beginning to end before another one
      touches the session maps.
    - Code that may throw lives in the monad [M]: a state transformer
      whose result is either a value or the message of the exception.
    - Whatever comes from outside the process (the clock, environment
      variables, the answers of remote providers) is read from [Env].

    Beyond the orchestration core the development embeds the query
    processors of the services with their searches, the citation
    manager, the document analysis and upload handler, and the report
    store; what these read from outside is in [Sources], in
    [Documents] and in the arguments of the report handlers. *)

From Stdlib Require Import ZArith Bool Ascii String List Permutation Sorted.
From Stdlib Require Import Floats.SpecFloat.
From stdpp Require Import base option list sorting gmap strings pretty.

Local Open Scope string_scope.
Local Open Scope list_scope.

(** ** JavaScript string primitives *)

Module Js.

(** [String.prototype.toLowerCase], on ASCII code units. *)
Definition lower_ascii (c : ascii) : ascii :=
  let n := nat_of_ascii c in
  if (65 <=? n)%nat && (n <=? 90)%nat then ascii_of_nat (n + 32) else c.

Fixpoint toLowerCase (s : string) : string :=
  match s with
  | EmptyString => EmptyString
  | String c s' => String (lower_ascii c) (toLowerCase s')
  end.

(** [s.includes(sub)]: [sub] occurs in [s] as a contiguous substring. *)
Fixpoint includes (s sub : string) : bool :=
  if String.prefix sub s then true
  else match s with
       | EmptyString => false
       | String _ s' => includes s' sub
       end.

(** [s.split(' ')]: the pieces between single spaces; never empty. *)
Fixpoint split_space_aux (cur : string) (s : string) : list string :=
  match s with
  | EmptyString => [cur]
  | String c s' =>
      if Ascii.eqb c " "%char then cur :: split_space_aux EmptyString s'
      else split_space_aux (cur +:+ String c EmptyString) s'
  end.

Definition split_space (s : string) : list string :=
  split_space_aux EmptyString s.

(** Truthiness of a possibly missing string: [undefined], [null] and
    the empty string are falsy. *)
Definition truthy (v : option string) : bool :=
  match v with
  | Some s => negb (String.eqb s "")
  | None => false
  end.

(** [a || b] on possibly missing strings. *)
Definition or_else (a b : option string) : option string :=
  if truthy a then a else b.

(** [s.trim()], on ASCII white space. *)
Definition is_space (c : ascii) : bool :=
  let n := nat_of_ascii c in
  (n =? 32)%nat || ((9 <=? n)%nat && (n <=? 13)%nat).

Fixpoint trimStart (s : string) : string :=
  match s with
  | EmptyString => EmptyString
  | String c s' => if is_space c then trimStart s' else s
  end.

Fixpoint trimEnd (s : string) : string :=
  match s with
  | EmptyString => EmptyString
  | String c s' =>
      match trimEnd s' with
      | EmptyString => if is_space c then EmptyString else String c EmptyString
      | rest => String c rest
      end
  end.

Definition trim (s : string) : string := trimEnd (trimStart s).

(** [parts.join(sep)] *)
Fixpoint join (sep : string) (parts : list string) : string :=
  match parts with
  | [] => EmptyString
  | [x] => x
  | x :: rest => x +:+ sep +:+ join sep rest
  end.

End Js.

(** ** Query categorisation *)


(** [QueryCategorizer]: the stand-alone categoriser of
    [services/QueryCategorizer.js]. *)
Module QueryCategorizer.

Definition sustainabilityKeywords : list string :=
  [ "sustainability"; "sustainable"; "green"; "eco"; "environmental"; "energy";
    "efficiency"; "leed"; "certification"; "carbon"; "footprint"; "renewable";
    "solar"; "climate"; "emissions"; "energy star" ].

Definition leasingKeywords : list string :=
  [ "lease"; "leasing"; "rent"; "rental"; "tenant"; "landlord"; "occupancy";
    "vacancy"; "square foot"; "sq ft"; "commercial space"; "office space";
    "retail space"; "industrial space"; "warehouse"; "contract"; "agreement" ].

Definition marketTrendsKeywords : list string :=
  [ "market"; "trend"; "analysis"; "forecast"; "outlook"; "prediction";
    "projection"; "growth"; "decline"; "demand"; "supply"; "investment";
    "cap rate"; "yield"; "return"; "value"; "price"; "pricing"; "economic" ].

(** [keywords.reduce((count, keyword) => count + (query.includes(keyword) ? 1 : 0), 0)] *)
Definition countKeywordMatches (query : string) (keywords : list string) : nat :=
  fold_left
    (fun count keyword =>
       (count + (if Js.includes query keyword then 1 else 0))%nat)
    keywords 0%nat.

Definition categorize (query : string) : string :=
  let queryLower := Js.toLowerCase query in
  let sustainabilityScore := countKeywordMatches queryLower sustainabilityKeywords in
  let leasingScore := countKeywordMatches queryLower leasingKeywords in
  let marketScore := countKeywordMatches queryLower marketTrendsKeywords in
  if (leasingScore <? sustainabilityScore)%nat
     && (marketScore <? sustainabilityScore)%nat then "sustainability"
  else if (sustainabilityScore <? leasingScore)%nat
          && (marketScore <? leasingScore)%nat then "leasing"
  else if (sustainabilityScore <? marketScore)%nat
          && (leasingScore <? marketScore)%nat then "market_trends"
  else "general".

End QueryCategorizer.

(** ** Data model *)

(** A research record as the adapters build it.  The same object type
    carries the document entry of the handler, which only has [source]
    and [data]. *)
Record JsRecord := mkRecord {
  title : option string;
  authors : option string;
  date : option string;
  source : option string;
  link : option string;
  summary : option string;
  type : option string;
  data : option string
}.

(** One element of [researchResults]: the array an adapter returned, or
    a single pushed value.  A value is an object or something falsy. *)
Inductive JsEntry :=
| EArray (items : list (option JsRecord))
| EItem (item : option JsRecord).

Record Citation := mkCitation {
  cite_title : option string;
  cite_authors : option string;
  cite_source : option string;
  cite_link : option string;
  cite_date : option string
}.

Record SynthesizedResponse := mkSynthesized {
  response : string;
  citations : list Citation
}.

(** An entry of a session's progress log. *)
Record Event := mkEvent {
  step : string;
  event_source : option string;
  timestamp : string
}.

(** What the process does to the outside world, in order: the adapter
    methods the handler invokes and the HTTP requests that are sent. *)
Inductive Effect :=
| Invoke (adapter : string)
| Http (provider : string).

(** The process-wide state: the two global session maps, and the trace
    of effects. *)
Record State := mkState {
  researchStatus : gmap string (list Event);
  researchComplete : gmap string bool;
  effects : list Effect
}.

Inductive Result (A : Type) :=
| Ok (a : A)
| Throw (message : string).
Arguments Ok {A} a.
Arguments Throw {A} message.

(** The prompt handed to the model provider: the query, the numbered
    records in prompt order, and the document block when there is one.
    The surrounding fixed text is not represented. *)
Record Prompt := mkPrompt {
  prompt_query : string;
  prompt_sources : list JsRecord;
  prompt_document : option string
}.

Inductive Message :=
| SystemMessage
| UserMessage (content : Prompt).

(** An entry of the parsed arXiv feed. [entry_author] is missing, one
    author or an array of authors, each given by its name; [entry_pdf] is
    the address of the link titled [pdf] when [entry.link] is an array
    that has one. *)
Inductive AuthorField :=
| NoAuthor
| OneAuthor (name : string)
| ManyAuthors (names : list string).

Record ArxivEntry := mkArxivEntry {
  entry_title : option string;
  entry_author : AuthorField;
  entry_pdf : option string;
  entry_id : option string;
  entry_published : string;
  entry_summary : option string
}.

(** An item of a parsed RSS or Atom feed. [item_link] is missing, a
    text, or an element whose attributes may carry an [href];
    [item_author_name] is [item.author?.name]. *)
Inductive LinkField :=
| LinkMissing
| LinkText (text : string)
| LinkHref (href : option string).

Record RssItem := mkRssItem {
  item_title : option string;
  item_description : option string;
  item_summary : option string;
  item_pubDate : option string;
  item_published : option string;
  item_link : LinkField;
  item_author_name : option string;
  item_creator : option string
}.

(** Everything read from outside the process.
    - [now] is [new Date().toISOString()] and [today] is
      [new Date().toLocaleDateString()]; [toLocaleDateString s] is
      [new Date(s).toLocaleDateString()].
    - [AI_PROVIDER], [OPENAI_API_KEY] and [ANTHROPIC_API_KEY] are the
      variables of [process.env].
    - [arxiv_feed query] is the outcome of the arXiv request for the
      query and of parsing its answer: the entries of the feed, none
      when the feed has no entry, or the exception. [rss_feed url] is
      the same for the feed at [url] and its items.
    - [openai_completion] and [anthropic_completion] are the outcome of
      the provider request: the text of the answer, or the exception.
      [local_completion] is the text [getLocalResponse] builds.
    - [array_method name] tells that [Array.prototype] of the running
      engine has a property of that name. *)
Record Env := mkEnv {
  now : string;
  today : string;
  toLocaleDateString : string -> string;
  AI_PROVIDER : option string;
  OPENAI_API_KEY : option string;
  ANTHROPIC_API_KEY : option string;
  arxiv_feed : string -> Result (list ArxivEntry);
  rss_feed : string -> Result (list RssItem);
  openai_completion : list Message -> Result string;
  anthropic_completion : list Message -> Result string;
  local_completion : list Message -> string;
  array_method : string -> bool
}.

(** ** The monad of stateful code that may throw *)

Definition M (A : Type) : Type := State -> State * Result A.

Definition ret {A} (a : A) : M A := fun st => (st, Ok a).

Definition throw {A} (message : string) : M A := fun st => (st, Throw message).

Definition bind {A B} (m : M A) (k : A -> M B) : M B :=
  fun st =>
    match m st with
    | (st', Ok a) => k a st'
    | (st', Throw message) => (st', Throw message)
    end.

(** [try { m } catch (error) { handler(error.message) }] *)
Definition try_catch {A} (m : M A) (handler : string -> M A) : M A :=
  fun st =>
    match m st with
    | (st', Ok a) => (st', Ok a)
    | (st', Throw message) => handler message st'
    end.

Definition lift {A} (r : Result A) : M A := fun st => (st, r).

Notation "'do' x <- m ; k" := (bind m (fun x => k))
  (at level 10, x name, m at level 100, k at level 200).
Notation "m ;; k" := (bind m (fun _ => k))
  (at level 100, k at level 200, right associativity).

(** [l.map(f)] for an [f] that may throw: the first exception ends it. *)
Fixpoint mapR {A B} (f : A -> Result B) (l : list A) : Result (list B) :=
  match l with
  | [] => Ok []
  | x :: l' =>
      match f x with
      | Throw message => Throw message
      | Ok y =>
          match mapR f l' with
          | Throw message => Throw message
          | Ok ys => Ok (y :: ys)
          end
      end
  end.

Definition effect (e : Effect) : M unit :=
  fun st =>
    (mkState (researchStatus st) (researchComplete st) (effects st ++ [e]), Ok tt).

(** ** Research session tracker *)

Module Session.

(** The two session maps are plain objects, so a property that is not
    their own is looked up in their prototype.
    - [researchStatus] holds the own properties of its object and,
      under the key ["__proto__"], which is never an own property, the
      array that was last assigned to it: assigning an array to
      [__proto__] makes that array the prototype of the object, and
      what is pushed to it afterwards is pushed to the prototype.
      Without that entry the prototype is [Object.prototype].
    - Assigning a boolean to [__proto__] does nothing, so the prototype
      of [researchComplete] is always [Object.prototype]; an entry
      under ["__proto__"] is never written there and never read. *)

(** The property names of [Object.prototype], apart from [__proto__]. *)
Definition objectPrototypeNames : list string :=
  [ "constructor"; "hasOwnProperty"; "isPrototypeOf"; "propertyIsEnumerable";
    "toLocaleString"; "toString"; "valueOf"; "__defineGetter__";
    "__defineSetter__"; "__lookupGetter__"; "__lookupSetter__" ].

Definition inherited (name : string) : bool :=
  existsb (String.eqb name) objectPrototypeNames.

(** What reading a property of a session map gives: [undefined], an
    array of events, an element of the prototype array, its length, a
    built-in function, [Object.prototype] itself, or a boolean. *)
Inductive Property :=
| Absent
| Log (events : list Event)
| Entry (event : Event)
| Count (n : nat)
| Method (name : string)
| Root
| Flag (b : bool).

Definition truthy (p : Property) : bool :=
  match p with
  | Absent => false
  | Count n => negb (n =? 0)%nat
  | Flag b => b
  | Log _ | Entry _ | Method _ | Root => true
  end.

(** A property read through a prototype that is an array: its length,
    its elements under their indices, and what [Array.prototype] and
    [Object.prototype] define. *)
Definition throughArray (env : Env) (elements : list Event) (name : string)
  : Property :=
  if String.eqb name "length" then Count (length elements)
  else
    match List.find (fun i : nat => String.eqb (pretty i) name)
                    (seq 0 (length elements)) with
    | Some i =>
        match elements !! i with
        | Some element => Entry element
        | None => Absent
        end
    | None =>
        if array_method env name || inherited name then Method name else Absent
    end.

(** [global.researchStatus[sessionId]] *)
Definition status (env : Env) (st : State) (sessionId : string) : Property :=
  match researchStatus st !! sessionId with
  | Some log => Log log
  | None =>
      if String.eqb sessionId "__proto__" then Root
      else
        match researchStatus st !! "__proto__" with
        | Some elements => throughArray env elements sessionId
        | None => if inherited sessionId then Method sessionId else Absent
        end
  end.

(** [global.researchComplete[sessionId]] *)
Definition flag (st : State) (sessionId : string) : Property :=
  if String.eqb sessionId "__proto__" then Root
  else
    match researchComplete st !! sessionId with
    | Some b => Flag b
    | None => if inherited sessionId then Method sessionId else Absent
    end.

(** [global.researchStatus[sessionId] = []]: a new own property, or
    with [__proto__] a new prototype. *)
Definition resetStatus (sessionId : string) : M unit :=
  fun st =>
    (mkState (<[sessionId := []]> (researchStatus st)) (researchComplete st)
             (effects st), Ok tt).

(** The own properties of [researchComplete] after
    [researchComplete[sessionId] = flag]: a boolean assigned to
    [__proto__] is dropped. *)
Definition assign (sessionId : string) (flag : bool) (flags : gmap string bool)
  : gmap string bool :=
  if String.eqb sessionId "__proto__" then flags else <[sessionId := flag]> flags.

(** [global.researchComplete[sessionId] = flag] *)
Definition setComplete (sessionId : string) (flag : bool) : M unit :=
  fun st =>
    (mkState (researchStatus st) (assign sessionId flag (researchComplete st))
             (effects st), Ok tt).

(** [global.researchStatus[sessionId].push(event)]: a [TypeError] when
    the property is not an array, with the message Node gives it. *)
Definition push (env : Env) (sessionId : string) (event : Event) : M unit :=
  fun st =>
    match status env st sessionId with
    | Log log =>
        (mkState (<[sessionId := log ++ [event]]> (researchStatus st))
                 (researchComplete st) (effects st), Ok tt)
    | Absent =>
        (st, Throw "Cannot read properties of undefined (reading 'push')")
    | _ =>
        (st, Throw "global.researchStatus[sessionId].push is not a function")
    end.

(** [if (sessionId && global.researchStatus[sessionId]) { ....push(event) }] *)
Definition log (env : Env) (sessionId : string) (event : Event) : M unit :=
  fun st =>
    if Js.truthy (Some sessionId) && truthy (status env st sessionId)
    then push env sessionId event st
    else (st, Ok tt).

(** What [getResearchStatus] reports: [researchStatus[id] || []] and
    [researchComplete[id] || false]. *)
Definition steps (env : Env) (st : State) (sessionId : string) : Property :=
  let researchSteps := status env st sessionId in
  if truthy researchSteps then researchSteps else Log [].

Definition complete (st : State) (sessionId : string) : Property :=
  let complete := flag st sessionId in
  if truthy complete then complete else Flag false.

End Session.

(** [{ step, source, timestamp: new Date().toISOString() }] *)
Definition event (env : Env) (s : string) (src : option string) : Event :=
  mkEvent s src (now env).

(** ** Source adapters *)

Module SustainabilityService.

(** The record built from one arXiv entry; reading a property of a
    missing title or of the first of no authors throws. *)
Definition convertEntry (env : Env) (entry : ArxivEntry) : Result JsRecord :=
  match
    match entry_author entry with
    | NoAuthor => Ok "Unknown Author"
    | OneAuthor name => Ok name
    | ManyAuthors [] => Throw "Cannot read properties of undefined (reading 'name')"
    | ManyAuthors (name :: _) => Ok name
    end
  with
  | Throw message => Throw message
  | Ok firstAuthor =>
      let authorsArray :=
        match entry_author entry with
        | ManyAuthors names => names
        | _ => [firstAuthor]
        end in
      let authors := Js.join ", " authorsArray in
      let link := Js.or_else (entry_pdf entry) (entry_id entry) in
      match entry_title entry with
      | None => Throw "Cannot read properties of undefined (reading 'trim')"
      | Some t =>
          Ok {| title := Some (Js.trim t);
                authors := Some authors;
                date := Some (toLocaleDateString env (entry_published entry));
                source := Some "arXiv";
                link := link;
                summary := Some (if Js.truthy (entry_summary entry)
                                 then Js.trim (default "" (entry_summary entry))
                                 else "No summary available");
                type := Some "academic_paper";
                data := None |}
      end
  end.

(** The answer of the arXiv request turned into records: an exception
    of the request, of the parse or of a conversion is an exception of
    the whole. *)
Definition fetchArXiv (env : Env) (query : string) : Result (list JsRecord) :=
  match arxiv_feed env query with
  | Throw message => Throw message
  | Ok entries => mapR (convertEntry env) entries
  end.

(** [searchArXiv]: one HTTP request; every failure inside is caught and
    yields no record. *)
Definition searchArXiv (env : Env) (query : string) : M (list JsRecord) :=
  try_catch
    (effect (Http "arXiv") ;; lift (fetchArXiv env query))
    (fun _ => ret []).

(** The record [searchLEED] returns. *)
Definition leedRecord (env : Env) : JsRecord :=
  {| title := Some "LEED Certification Data (Placeholder)";
     authors := Some "U.S. Green Building Council";
     date := Some (today env);
     source := Some "LEED Database";
     link := Some "https://www.usgbc.org/projects";
     summary := Some "This is a placeholder for LEED certification data. In a production implementation, this would contain actual data from the LEED API.";
     type := Some "certification_data";
     data := None |}.

(** [searchLEED]: a placeholder, no request is made. *)
Definition searchLEED (env : Env) (query : string) : M (list JsRecord) :=
  ret [ leedRecord env ].

(** The body of [getResearch], over the two provider methods it calls
    through [this]. A guarded [push] that throws changes nothing, so
    the guard of the handler that catches it throws again; the value
    that [results] has in the inner handler is therefore returned only
    when the exception is that of [searchLEED], which comes before
    [results] is extended. *)
Definition getResearchWith
    (searchArXiv searchLEED : string -> M (list JsRecord))
    (env : Env) (query sessionId : string) : M (list JsRecord) :=
  Session.log env sessionId
    (event env "Searching academic papers on sustainability" (Some "arXiv")) ;;
  try_catch
    (do arXivResults <- searchArXiv query;
     do results <-
       (if (0 <? length arXivResults)%nat then
          Session.log env sessionId
            (event env ("Found " +:+ pretty (length arXivResults)
                        +:+ " relevant academic papers on sustainability")
                   (Some "arXiv")) ;;
          ret arXivResults
        else ret []);
     if (length results <? 3)%nat then
       try_catch
         (Session.log env sessionId
            (event env "Searching LEED certification databases"
                   (Some "USGBC LEED Database")) ;;
          do leedResults <- searchLEED query;
          if (0 <? length leedResults)%nat then
            Session.log env sessionId
              (event env "Retrieved LEED certification data"
                     (Some "USGBC LEED Database")) ;;
            ret (results ++ leedResults)
          else ret results)
         (fun message =>
            Session.log env sessionId
              (event env ("LEED data search failed: " +:+ message)
                     (Some "USGBC LEED Database")) ;;
            ret results)
     else ret results)
    (fun message =>
       Session.log env sessionId
         (event env ("Error in sustainability research: " +:+ message)
                (Some "Sustainability Service")) ;;
       ret []).

Definition getResearch (env : Env) (query sessionId : string) : M (list JsRecord) :=
  getResearchWith (searchArXiv env) (searchLEED env) env query sessionId.

End SustainabilityService.

Module LeasingService.

(** The record [getResearch] returns. *)
Definition sampleRecord (env : Env) (query : string) : JsRecord :=
  {| title := Some "Commercial Lease Rate Data";
     authors := Some "Leasing Research Team";
     date := Some (today env);
     source := Some "Leasing Database";
     link := Some "https://example.com/leasing";
     summary := Some ("Sample leasing data for the query: " +:+ query);
     type := Some "market_report";
     data := None |}.

Definition getResearch (env : Env) (query sessionId : string) : M (list JsRecord) :=
  Session.log env sessionId
    (event env "Searching for leasing market information" (Some "Leasing Service")) ;;
  try_catch
    (ret [ sampleRecord env query ])
    (fun message =>
       Session.log env sessionId
         (event env ("Error in leasing research: " +:+ message)
                (Some "Leasing Service")) ;;
       ret []).

End LeasingService.

Module MarketService.

(** The record [getResearch] returns. *)
Definition sampleRecord (env : Env) (query : string) : JsRecord :=
  {| title := Some "Market Trends Analysis";
     authors := Some "Market Research Team";
     date := Some (today env);
     source := Some "Market Database";
     link := Some "https://example.com/market";
     summary := Some ("Sample market data for the query: " +:+ query);
     type := Some "market_report";
     data := None |}.

Definition getResearch (env : Env) (query sessionId : string) : M (list JsRecord) :=
  Session.log env sessionId
    (event env "Analyzing market trend information" (Some "Market Service")) ;;
  try_catch
    (ret [ sampleRecord env query ])
    (fun message =>
       Session.log env sessionId
         (event env ("Error in market research: " +:+ message)
                (Some "Market Service")) ;;
       ret []).

End MarketService.

Module FallbackService.

(** The record [getResearch] returns. *)
Definition sampleRecord (env : Env) (query : string) : JsRecord :=
  {| title := Some "General Information";
     authors := Some "Research Team";
     date := Some (today env);
     source := Some "General Database";
     link := Some "https://example.com/general";
     summary := Some ("Sample fallback data for the query: " +:+ query);
     type := Some "web_content";
     data := None |}.

Definition getResearch (env : Env) (query sessionId : string) : M (list JsRecord) :=
  Session.log env sessionId
    (event env "Searching general knowledge sources" (Some "Fallback Service")) ;;
  try_catch
    (ret [ sampleRecord env query ])
    (fun message =>
       Session.log env sessionId
         (event env ("Error in fallback research: " +:+ message)
                (Some "Fallback Service")) ;;
       ret []).

End FallbackService.

(** ** Citation / synthesis pipeline *)

Module AIService.

(** [researchResults.flat()]: one level of arrays is spliced. *)
Definition flat (researchResults : list JsEntry) : list (option JsRecord) :=
  flat_map
    (fun entry =>
       match entry with
       | EArray items => items
       | EItem item => [item]
       end)
    researchResults.

(** [.filter(Boolean)]: falsy values are dropped; objects are truthy. *)
Fixpoint filterBoolean (items : list (option JsRecord)) : list JsRecord :=
  match items with
  | [] => []
  | Some r :: rest => r :: filterBoolean rest
  | None :: rest => filterBoolean rest
  end.

Definition citationOf (result : JsRecord) : Citation :=
  {| cite_title := title result;
     cite_authors := authors result;
     cite_source := source result;
     cite_link := link result;
     cite_date := date result |}.

Definition prepareMessages (query : string) (researchResults : list JsRecord)
    (documentAnalysis : option string) : list Message :=
  [ SystemMessage;
    UserMessage {| prompt_query := query;
                   prompt_sources := researchResults;
                   prompt_document :=
                     if Js.truthy documentAnalysis then documentAnalysis else None |} ].

Definition getApiKey (env : Env) (provider : string) : option string :=
  let p := Js.toLowerCase provider in
  if String.eqb p "openai" then OPENAI_API_KEY env
  else if String.eqb p "anthropic" then ANTHROPIC_API_KEY env
  else if String.eqb p "local" then Some "mock-key"
  else None.

Definition callOpenAI (env : Env) (messages : list Message) : M string :=
  effect (Http "openai") ;; lift (openai_completion env messages).

Definition callAnthropic (env : Env) (messages : list Message) : M string :=
  effect (Http "anthropic") ;; lift (anthropic_completion env messages).

Definition getLocalResponse (env : Env) (messages : list Message) : string :=
  local_completion env messages.

(** The [source] of the two provider events. *)
Definition providerLabel (provider : string) : string :=
  if String.eqb provider "openai" then "OpenAI"
  else if String.eqb provider "anthropic" then "Anthropic"
  else provider.

Definition processResearch (env : Env) (query : string)
    (researchResults : list JsEntry) (documentAnalysis : option string)
    (sessionId : string) : M SynthesizedResponse :=
  try_catch
    (Session.log env sessionId
       (event env "Summarizing research findings" (Some "AI Service")) ;;
     let flattenedResults := filterBoolean (flat researchResults) in
     Session.log env sessionId
       (event env ("Found " +:+ pretty (length flattenedResults)
                   +:+ " relevant sources for research")
              (Some "Research Aggregator")) ;;
     let messages := prepareMessages query flattenedResults documentAnalysis in
     let provider := default "openai" (Js.or_else (AI_PROVIDER env) (Some "openai")) in
     let apiKey := getApiKey env provider in
     if negb (Js.truthy apiKey) then
       throw ("AI provider API key not configured for " +:+ provider)
     else
       Session.log env sessionId
         (event env ("Querying AI model (" +:+ provider +:+ ")")
                (Some (providerLabel provider))) ;;
       do response <-
         (let p := Js.toLowerCase provider in
          if String.eqb p "openai" then callOpenAI env messages
          else if String.eqb p "anthropic" then callAnthropic env messages
          else if String.eqb p "local" then ret (getLocalResponse env messages)
          else throw ("Unsupported AI provider: " +:+ provider));
       Session.log env sessionId
         (event env "AI analysis complete, generating final response"
                (Some (providerLabel provider))) ;;
       ret {| response := response;
              citations := map citationOf flattenedResults |})
    (fun message =>
       Session.log env sessionId
         (event env ("Error in AI processing: " +:+ message) (Some "AI Service")) ;;
       throw ("Failed to process research with AI: " +:+ message)).

End AIService.

(** ** Research orchestrator *)

Module QueryController.

(** The fields of [req.body]. *)
Record Request := mkRequest {
  query : option string;
  sessionId : option string;
  documentContext : option string
}.

Inductive Body :=
| MessageBody (message : string)
| ErrorBody (error : string)
| FailureBody (message error : string)
| ResearchBody (aiResponse : SynthesizedResponse).

Record Response := mkResponse {
  status : nat;
  body : Body
}.

Definition sustainabilityKeywords : list string :=
  [ "sustainability"; "sustainable"; "green"; "energy efficiency";
    "renewable"; "leed"; "carbon"; "net zero"; "esg"; "environmental" ].

Definition leasingKeywords : list string :=
  [ "lease"; "leasing"; "tenant"; "landlord"; "rent"; "rental";
    "occupancy"; "vacancy"; "square footage"; "office space" ].

Definition marketKeywords : list string :=
  [ "market"; "trend"; "forecast"; "growth"; "investment"; "cap rate";
    "yield"; "return"; "appreciation"; "property value"; "price" ].

(** [keywords.forEach(keyword => { if (queryLower.includes(keyword)) matches++ })]
    with [matches] starting at 0. *)
Definition countMatches (queryLower : string) (keywords : list string) : nat :=
  fold_left
    (fun matches keyword =>
       if Js.includes queryLower keyword then S matches else matches)
    keywords 0%nat.

Definition categorizeQuery (query : string) : string :=
  let queryLower := Js.toLowerCase query in
  let sustainabilityMatches := countMatches queryLower sustainabilityKeywords in
  let leasingMatches := countMatches queryLower leasingKeywords in
  let marketMatches := countMatches queryLower marketKeywords in
  if (leasingMatches <? sustainabilityMatches)%nat
     && (marketMatches <? sustainabilityMatches)%nat then "sustainability"
  else if (sustainabilityMatches <? leasingMatches)%nat
          && (marketMatches <? leasingMatches)%nat then "leasing"
  else if (0 <? marketMatches)%nat then "market"
  else "general".

(** The entry pushed for the document context. *)
Definition documentEntry (documentContext : option string) : JsRecord :=
  {| title := None; authors := None; date := None;
     source := Some "Document Analysis";
     link := None; summary := None; type := None;
     data := documentContext |}.

Definition asEntry (records : list JsRecord) : JsEntry :=
  EArray (map Some records).

(** The adapter calls of the handler: each topical adapter when the
    category is its own or [general], then the fallback adapter. The
    result is [researchResults] as it stands after the fallback call. *)
Definition callAdapters (env : Env) (category query sessionId : string)
  : M (list JsEntry) :=
  let researchResults := [] in
  do researchResults <-
    (if String.eqb category "sustainability" || String.eqb category "general" then
       Session.push env sessionId
         (event env "Gathering sustainability research data"
                (Some "Sustainability databases")) ;;
       effect (Invoke "SustainabilityService") ;;
       do sustainabilityData <- SustainabilityService.getResearch env query sessionId;
       ret (researchResults ++ [asEntry sustainabilityData])
     else ret researchResults);
  do researchResults <-
    (if String.eqb category "leasing" || String.eqb category "general" then
       Session.push env sessionId
         (event env "Analyzing leasing market information"
                (Some "Leasing databases")) ;;
       effect (Invoke "LeasingService") ;;
       do leasingData <- LeasingService.getResearch env query sessionId;
       ret (researchResults ++ [asEntry leasingData])
     else ret researchResults);
  do researchResults <-
    (if String.eqb category "market" || String.eqb category "general" then
       Session.push env sessionId
         (event env "Retrieving market trend data"
                (Some "Market analytics providers")) ;;
       effect (Invoke "MarketService") ;;
       do marketData <- MarketService.getResearch env query sessionId;
       ret (researchResults ++ [asEntry marketData])
     else ret researchResults);
  Session.push env sessionId
    (event env "Searching general knowledge sources"
           (Some "Wikipedia and general databases")) ;;
  effect (Invoke "FallbackService") ;;
  do fallbackData <- FallbackService.getResearch env query sessionId;
  ret (researchResults ++ [asEntry fallbackData]).

(** The document step: the entry is pushed after the adapter outputs. *)
Definition addDocument (env : Env) (researchResults : list JsEntry)
    (documentContext : option string) (sessionId : string) : M (list JsEntry) :=
  if Js.truthy documentContext then
    Session.push env sessionId
      (event env "Analyzing uploaded document context" None) ;;
    ret (researchResults ++ [EItem (Some (documentEntry documentContext))])
  else ret researchResults.

(** The handler after validation, up to the synthesis step: the value
    is [researchResults] as it is passed to [processResearch]. *)
Definition gather (env : Env) (query sessionId : string)
    (documentContext : option string) : M (list JsEntry) :=
  Session.resetStatus sessionId ;;
  Session.setComplete sessionId false ;;
  Session.push env sessionId
    (event env "Starting research query categorization" None) ;;
  let category := categorizeQuery query in
  Session.push env sessionId
    (event env ("Query categorized as: " +:+ category) None) ;;
  do researchResults <- callAdapters env category query sessionId;
  addDocument env researchResults documentContext sessionId.

(** The handler after validation, up to the value passed to [res.json]. *)
Definition research (env : Env) (query sessionId : string)
    (documentContext : option string) : M SynthesizedResponse :=
  do researchResults <- gather env query sessionId documentContext;
  Session.push env sessionId
    (event env "Processing research with AI analysis" (Some "OpenAI")) ;;
  do aiResponse <-
    AIService.processResearch env query researchResults documentContext sessionId;
  Session.setComplete sessionId true ;;
  ret aiResponse.

Definition handleResearchQuery (env : Env) (req : Request) (st : State)
  : State * Response :=
  if negb (Js.truthy (query req)) then
    (st, mkResponse 400 (MessageBody "Query is required"))
  else if negb (Js.truthy (sessionId req)) then
    (st, mkResponse 400 (ErrorBody "Session ID is required"))
  else
    match research env (default "" (query req)) (default "" (sessionId req))
                   (documentContext req) st with
    | (st', Ok aiResponse) => (st', mkResponse 200 (ResearchBody aiResponse))
    | (st', Throw message) =>
        (st', mkResponse 500 (FailureBody "Error processing query" message))
    end.

(** [getResearchStatus], for a session identifier taken from the route. *)
Definition getResearchStatus (env : Env) (sessionId : string) (st : State)
  : string * Session.Property * Session.Property :=
  (sessionId, Session.steps env st sessionId, Session.complete st sessionId).

End QueryController.

(** ** News feeds *)

Module RSSFeedService.

Record FeedSource := mkFeedSource {
  feed_name : string;
  feed_url : string;
  feed_source : string
}.

Definition feedSources : list FeedSource :=
  [ mkFeedSource "Commercial Property Executive"
      "https://www.commercialsearch.com/news/feed/" "CPE";
    mkFeedSource "GlobeSt" "https://www.globest.com/feed/" "GlobeSt";
    mkFeedSource "NAIOP" "https://www.naiop.org/feed" "NAIOP" ].

Definition queryTermsOf (query : string) : list string :=
  Js.split_space (Js.toLowerCase query).

Definition scoreRelevance (queryTerms : list string) (title description : string)
  : nat :=
  let text := Js.toLowerCase (title +:+ " " +:+ description) in
  let score :=
    fold_left
      (fun score term => if Js.includes text term then (score + 1)%nat else score)
      queryTerms 0%nat in
  if Js.includes text "commercial real estate" || Js.includes text "cre"
  then (score + 2)%nat else score.

(** [{ item, score }] *)
Definition Scored : Type := RssItem * nat.

Definition scoreItem (queryTerms : list string) (item : RssItem) : Scored :=
  let title := default "" (Js.or_else (item_title item) (Some "")) in
  let description :=
    default ""
      (Js.or_else (Js.or_else (item_description item) (item_summary item))
                  (Some "")) in
  (item, scoreRelevance queryTerms title description).

(** [scoredItems.sort((a, b) => b.score - a.score)]: the sort is stable,
    so an element goes behind every element that does not score less. *)
Fixpoint insertByScore (x : Scored) (sorted : list Scored) : list Scored :=
  match sorted with
  | [] => [x]
  | y :: rest =>
      if (snd y <? snd x)%nat then x :: y :: rest
      else y :: insertByScore x rest
  end.

Definition sortByScore (scoredItems : list Scored) : list Scored :=
  fold_left (fun sorted x => insertByScore x sorted) scoredItems [].

Definition scoredItemsOf (queryTerms : list string) (items : list RssItem)
  : list Scored :=
  filter (fun s => (0 < snd s)%nat) (map (scoreItem queryTerms) items).

(** [scoredItems.slice(0, 2)] after the sort. *)
Definition topItems (queryTerms : list string) (items : list RssItem)
  : list Scored :=
  take 2 (sortByScore (scoredItemsOf queryTerms items)).

Definition formatItem (env : Env) (feed : FeedSource) (item : RssItem) : JsRecord :=
  let pubDate :=
    default (now env)
      (Js.or_else (Js.or_else (item_pubDate item) (item_published item))
                  (Some (now env))) in
  let link :=
    match item_link item with
    | LinkHref href => if Js.truthy href then default "#" href else "#"
    | LinkText text => if Js.truthy (Some text) then text else "#"
    | LinkMissing => "#"
    end in
  let authors :=
    default (feed_name feed)
      (Js.or_else (Js.or_else (item_author_name item) (item_creator item))
                  (Some (feed_name feed))) in
  {| title := item_title item;
     authors := Some authors;
     date := Some (toLocaleDateString env pubDate);
     source := Some (feed_source feed);
     link := Some link;
     summary :=
       Js.or_else (Js.or_else (item_description item) (item_summary item))
                  (Some "No description available");
     type := Some "news_article";
     data := None |}.

(** What one feed adds to [results]; a feed whose request or parse
    throws adds nothing. *)
Definition feedContribution (env : Env) (query : string) (feed : FeedSource)
  : list JsRecord :=
  match rss_feed env (feed_url feed) with
  | Throw _ => []
  | Ok items =>
      map (fun s => formatItem env feed (fst s)) (topItems (queryTermsOf query) items)
  end.

(** The loop over the feeds, with [results] as it stands: one request
    for each feed, whatever the feeds before it gave. *)
Fixpoint searchFeeds (env : Env) (query : string) (feeds : list FeedSource)
    (results : list JsRecord) : M (list JsRecord) :=
  match feeds with
  | [] => ret results
  | feed :: rest =>
      effect (Http (feed_source feed)) ;;
      searchFeeds env query rest (results ++ feedContribution env query feed)
  end.

Definition searchNews (env : Env) (query : string) : M (list JsRecord) :=
  try_catch (searchFeeds env query feedSources []) (fun _ => ret []).

End RSSFeedService.

(** ** Economic indicators *)

Module FREDService.

(** JavaScript numbers are IEEE 754 binary64 values. *)
Definition number : Type := spec_float.

Definition ofZ (z : Z) : number := binary_normalize 53 1024 z 0 false.
Definition sub (x y : number) : number := SFsub 53 1024 x y.
Definition div (x y : number) : number := SFdiv 53 1024 x y.
Definition mul (x y : number) : number := SFmul 53 1024 x y.
(** [x > y] is [gt x y]; [x < y] is [lt x y]; both are false on NaN. *)
Definition lt (x y : number) : bool := SFltb x y.
Definition gt (x y : number) : bool := SFltb y x.
Definition isNaN (x : number) : bool :=
  match x with S754_nan => true | _ => false end.
(** [x !== 0] *)
Definition nonzero (x : number) : bool :=
  match x with S754_zero _ => false | _ => true end.

Record Observation := mkObservation {
  obs_value : string;
  obs_date : string
}.

Section Trend.

(** [parseFloat], the number read from the head of a string, NaN when
    there is none. *)
Variable parseFloat : string -> number.

Definition percentChange (latest previous : number) : number :=
  mul (div (sub latest previous) previous) (ofZ 100).

(** The chain of comparisons on the percent change. *)
Definition trendOfChange (percentChange : number) : string :=
  if gt percentChange (ofZ 10) then "significantly increased"
  else if gt percentChange (ofZ 2) then "increased"
  else if lt percentChange (ofZ (-10)) then "significantly decreased"
  else if lt percentChange (ofZ (-2)) then "decreased"
  else "stable".

(** The trend of a series: [observations] is what the provider returned,
    most recent first, at most 12 of them. *)
Definition trendOf (observations : list Observation) : string :=
  let trend := "stable" in
  if (1 <? length observations)%nat then
    match head observations, last observations with
    | Some first, Some oldest =>
        let latest := parseFloat (obs_value first) in
        let previous := parseFloat (obs_value oldest) in
        if negb (isNaN latest) && negb (isNaN previous) && nonzero previous then
          trendOfChange (percentChange latest previous)
        else trend
    | _, _ => trend
    end
  else trend.

(** The record of one indicator; reading [observations[0]] of an empty
    sequence throws. *)
Definition indicatorRecord (env : Env) (seriesTitle keyword seriesId : string)
    (observations : list Observation) : Result JsRecord :=
  let trend := trendOf observations in
  match head observations with
  | None => Throw "Cannot read properties of undefined (reading 'value')"
  | Some first =>
      let latestValue := obs_value first in
      let latestDate := toLocaleDateString env (obs_date first) in
      let summary :=
        seriesTitle +:+ " has " +:+ trend +:+ " to " +:+ latestValue
        +:+ " as of " +:+ latestDate +:+ ". "
        +:+ "This indicator is relevant to commercial real estate " +:+ keyword
        +:+ " trends and provides insight into current market conditions." in
      Ok {| title := Some seriesTitle;
            authors := Some "Federal Reserve Economic Data (FRED)";
            date := Some (today env);
            source := Some "FRED";
            link := Some ("https://fred.stlouisfed.org/series/" +:+ seriesId);
            summary := Some summary;
            type := Some "economic_data";
            data := None |}
  end.

End Trend.

(** A reading of [parseFloat] on optionally signed decimal integers,
    enough to run the trend on concrete series. *)
Fixpoint digitsValue (acc : Z) (s : string) : option Z :=
  match s with
  | EmptyString => Some acc
  | String c s' =>
      let n := nat_of_ascii c in
      if (48 <=? n)%nat && (n <=? 57)%nat
      then digitsValue (10 * acc + Z.of_nat (n - 48)) s'
      else None
  end.

Definition parseInteger (s : string) : number :=
  match s with
  | EmptyString => S754_nan
  | String "-" (String c s') =>
      match digitsValue 0 (String c s') with
      | Some z => SFopp (ofZ z)
      | None => S754_nan
      end
  | _ =>
      match digitsValue 0 s with
      | Some z => ofZ z
      | None => S754_nan
      end
  end.

End FREDService.

(** ** Readings used by the statements *)

(** The query, lower-cased, contains a keyword of the set. *)
Definition mentions (query : string) (keywords : list string) : bool :=
  existsb (Js.includes (Js.toLowerCase query)) keywords.

(** A request passes validation when both fields are truthy. *)
Definition valid (req : QueryController.Request) : bool :=
  Js.truthy (QueryController.query req) && Js.truthy (QueryController.sessionId req).

(** The records [SustainabilityService.getResearch] returns: the arXiv
    records, and the LEED placeholder when there are fewer than three. *)
Definition arxivRecords (env : Env) (query : string) : list JsRecord :=
  match SustainabilityService.fetchArXiv env query with
  | Ok records => records
  | Throw _ => []
  end.

Definition sustainabilityRecords (env : Env) (query : string) : list JsRecord :=
  let records := arxivRecords env query in
  if (length records <? 3)%nat
  then records ++ [SustainabilityService.leedRecord env]
  else records.

Definition runs (category topic : string) : bool :=
  String.eqb category topic || String.eqb category "general".

(** The records of the adapters the handler invokes for a category, in
    invocation order. *)
Definition adapterRecords (env : Env) (category query : string) : list JsRecord :=
  (if runs category "sustainability" then sustainabilityRecords env query else [])
  ++ (if runs category "leasing" then [LeasingService.sampleRecord env query] else [])
  ++ (if runs category "market" then [MarketService.sampleRecord env query] else [])
  ++ [FallbackService.sampleRecord env query].


(** The entries and the effects of [callAdapters] for a category. *)
Definition adapterEntries (env : Env) (category query : string) : list JsEntry :=
  (if runs category "sustainability"
   then [QueryController.asEntry (sustainabilityRecords env query)] else [])
  ++ (if runs category "leasing"
      then [QueryController.asEntry [LeasingService.sampleRecord env query]] else [])
  ++ (if runs category "market"
      then [QueryController.asEntry [MarketService.sampleRecord env query]] else [])
  ++ [QueryController.asEntry [FallbackService.sampleRecord env query]].

Definition adapterEffects (category : string) : list Effect :=
  (if runs category "sustainability"
   then [Invoke "SustainabilityService"; Http "arXiv"] else [])
  ++ (if runs category "leasing" then [Invoke "LeasingService"] else [])
  ++ (if runs category "market" then [Invoke "MarketService"] else [])
  ++ [Invoke "FallbackService"].

(** [wp m st Q]: running [m] from [st] ends in a state and a result
    that satisfy [Q]. *)
Definition wp {A} (m : M A) (st : State) (Q : State -> Result A -> Prop) : Prop :=
  Q (fst (m st)) (snd (m st)).

(** [advances es st st']: [st'] differs from [st] by the effects [es]
    and by entries appended to logs that exist; no session is created
    or removed and no completion flag changes. *)
Definition advances (es : list Effect) (st st' : State) : Prop :=
  researchComplete st' = researchComplete st
  /\ effects st' = effects st ++ es
  /\ forall s, is_Some (researchStatus st' !! s) <-> is_Some (researchStatus st !! s).

(** The state right after the two assignments that begin a session. *)
Definition began (sessionId : string) (st : State) : State :=
  mkState (<[sessionId := []]> (researchStatus st))
          (Session.assign sessionId false (researchComplete st))
          (effects st).

(** A session identifier is plain in a state when the guard of the
    adapters finds a log under it or finds nothing: it names an entry
    of [researchStatus], or what is read under it is falsy. *)
Definition plain (env : Env) (st : State) (sessionId : string) : Prop :=
  is_Some (researchStatus st !! sessionId)
  \/ Session.truthy (Session.status env st sessionId) = false.


(** An adapter call that returns a sequence. *)
Definition returns (m : M (list JsRecord)) (st : State) : Prop :=
  exists records, snd (m st) = Ok records.

(** The outcome of the provider call of [processResearch], apart from
    the state: the key check, then the call of the selected provider. *)
Definition completion (env : Env) (messages : list Message) : Result string :=
  let provider := default "openai" (Js.or_else (AI_PROVIDER env) (Some "openai")) in
  if negb (Js.truthy (AIService.getApiKey env provider)) then
    Throw ("AI provider API key not configured for " +:+ provider)
  else
    let p := Js.toLowerCase provider in
    if String.eqb p "openai" then openai_completion env messages
    else if String.eqb p "anthropic" then anthropic_completion env messages
    else if String.eqb p "local" then Ok (AIService.getLocalResponse env messages)
    else Throw ("Unsupported AI provider: " +:+ provider).

(** The result of [processResearch], apart from the state. *)
Definition synthesis (env : Env) (query : string) (researchResults : list JsEntry)
    (documentAnalysis : option string) : Result SynthesizedResponse :=
  let flattenedResults := AIService.filterBoolean (AIService.flat researchResults) in
  match completion env
          (AIService.prepareMessages query flattenedResults documentAnalysis) with
  | Ok response =>
      Ok {| response := response;
            citations := map AIService.citationOf flattenedResults |}
  | Throw message => Throw ("Failed to process research with AI: " +:+ message)
  end.

(** The entries the handler passes to [processResearch]. *)
Definition gathered (env : Env) (query : string) (documentContext : option string)
  : list JsEntry :=
  let entries := adapterEntries env (QueryController.categorizeQuery query) query in
  if Js.truthy documentContext
  then entries ++ [EItem (Some (QueryController.documentEntry documentContext))]
  else entries.

(** A process that has served no request, and an environment without
    network and with the local provider. *)
Definition freshState : State := mkState ∅ ∅ [].

(** The property names of [Array.prototype] in a current engine. *)
Definition arrayPrototypeNames : list string :=
  [ "at"; "concat"; "constructor"; "copyWithin"; "entries"; "every"; "fill";
    "filter"; "find"; "findIndex"; "findLast"; "findLastIndex"; "flat";
    "flatMap"; "forEach"; "includes"; "indexOf"; "join"; "keys"; "lastIndexOf";
    "map"; "pop"; "push"; "reduce"; "reduceRight"; "reverse"; "shift"; "slice";
    "some"; "sort"; "splice"; "toLocaleString"; "toReversed"; "toSorted";
    "toSpliced"; "toString"; "unshift"; "values"; "with" ].

Definition offlineEnv : Env :=
  {| now := "2024-05-01T12:00:00.000Z";
     today := "5/1/2024";
     toLocaleDateString := fun s => s;
     AI_PROVIDER := Some "local";
     OPENAI_API_KEY := None;
     ANTHROPIC_API_KEY := None;
     arxiv_feed := fun _ => Throw "connect ECONNREFUSED";
     rss_feed := fun _ => Throw "connect ECONNREFUSED";
     openai_completion := fun _ => Throw "Request failed with status code 401";
     anthropic_completion := fun _ => Throw "Request failed with status code 401";
     local_completion := fun _ => "# Research";
     array_method := fun name => existsb (String.eqb name) arrayPrototypeNames |}.

(** The same environment with an arXiv that answers with one paper. *)
Definition onePaper : ArxivEntry :=
  {| entry_title := Some "Energy retrofits of office buildings";
     entry_author := OneAuthor "A. Author";
     entry_pdf := None;
     entry_id := Some "http://arxiv.org/abs/0000.00000";
     entry_published := "2023-01-01T00:00:00Z";
     entry_summary := Some "A study." |}.

Definition onePaperEnv : Env :=
  {| now := now offlineEnv;
     today := today offlineEnv;
     toLocaleDateString := toLocaleDateString offlineEnv;
     AI_PROVIDER := AI_PROVIDER offlineEnv;
     OPENAI_API_KEY := None;
     ANTHROPIC_API_KEY := None;
     arxiv_feed := fun _ => Ok [onePaper];
     rss_feed := rss_feed offlineEnv;
     openai_completion := openai_completion offlineEnv;
     anthropic_completion := anthropic_completion offlineEnv;
     local_completion := local_completion offlineEnv;
     array_method := array_method offlineEnv |}.

(** C2 as stated, at one request: the citations of a successful answer
    are as many as the adapter records and none of them comes from the
    document entry. *)
Definition citesAdaptersOnly (env : Env) (req : QueryController.Request)
    (st : State) : Prop :=
  forall st' aiResponse,
    QueryController.handleResearchQuery env req st
    = (st', QueryController.mkResponse 200 (QueryController.ResearchBody aiResponse)) ->
    length (citations aiResponse)
    = length (adapterRecords env
                (QueryController.categorizeQuery
                   (default "" (QueryController.query req)))
                (default "" (QueryController.query req)))
    /\ Forall (fun c => cite_source c <> Some "Document Analysis")
              (citations aiResponse).

(** C7 as stated, at one query without document context: exactly four
    records reach the synthesis step. *)
Definition fourRecords (env : Env) (query sessionId : string) (st : State) : Prop :=
  forall st' researchResults,
    QueryController.gather env query sessionId None st = (st', Ok researchResults) ->
    length (AIService.filterBoolean (AIService.flat researchResults)) = 4%nat.

(** C4 as stated, at one request that validation rejects: the flag of
    its session is false afterwards. *)
Definition leftFalse (env : Env) (req : QueryController.Request) (st : State)
  : Prop :=
  valid req = false ->
  Session.complete (fst (QueryController.handleResearchQuery env req st))
    (default "" (QueryController.sessionId req))
  = Session.Flag false.

(** The records of the news search, feed after feed, and the requests
    it sends. *)
Definition newsRecords (env : Env) (query : string) : list JsRecord :=
  flat_map (RSSFeedService.feedContribution env query) RSSFeedService.feedSources.

Definition newsRequests : list Effect :=
  map (fun feed => Http (RSSFeedService.feed_source feed)) RSSFeedService.feedSources.

(** Descending order of score. *)
Definition byScore (a b : RSSFeedService.Scored) : Prop := (snd b <= snd a)%nat.

(** An environment whose first feed carries four items. *)
Definition newsItem (t d : string) : RssItem :=
  {| item_title := Some t;
     item_description := Some d;
     item_summary := None;
     item_pubDate := Some "Wed, 01 May 2024 08:00:00 GMT";
     item_published := None;
     item_link := LinkText "https://www.commercialsearch.com/news/item";
     item_author_name := None;
     item_creator := Some "Staff" |}.

Definition newsItems : list RssItem :=
  [ newsItem "Office leasing slows" "Vacancy is up downtown";
    newsItem "Retail rebounds" "Shoppers return";
    newsItem "Office vacancy hits record" "Commercial real estate lenders react";
    newsItem "Office vacancy eases" "Tenants come back" ].

Definition newsEnv : Env :=
  {| now := now offlineEnv;
     today := today offlineEnv;
     toLocaleDateString := toLocaleDateString offlineEnv;
     AI_PROVIDER := AI_PROVIDER offlineEnv;
     OPENAI_API_KEY := None;
     ANTHROPIC_API_KEY := None;
     arxiv_feed := arxiv_feed offlineEnv;
     rss_feed := fun url =>
       if String.eqb url "https://www.commercialsearch.com/news/feed/"
       then Ok newsItems else Throw "timeout of 5000ms exceeded";
     openai_completion := openai_completion offlineEnv;
     anthropic_completion := anthropic_completion offlineEnv;
     local_completion := local_completion offlineEnv;
     array_method := array_method offlineEnv |}.








(** ** The progress log of a request *)

(** The events the sustainability adapter appends to a live session. *)
Definition sustainabilityEvents (env : Env) (query : string) : list Event :=
  let found := arxivRecords env query in
  [ event env "Searching academic papers on sustainability" (Some "arXiv") ]
  ++ (if (0 <? length found)%nat
      then [ event env ("Found " +:+ pretty (length found)
                        +:+ " relevant academic papers on sustainability")
                   (Some "arXiv") ]
      else [])
  ++ (if (length found <? 3)%nat
      then [ event env "Searching LEED certification databases"
                   (Some "USGBC LEED Database");
             event env "Retrieved LEED certification data"
                   (Some "USGBC LEED Database") ]
      else []).

(** The events of the adapter calls of the handler, for a category. *)
Definition adapterEvents (env : Env) (category query : string) : list Event :=
  (if runs category "sustainability"
   then event env "Gathering sustainability research data"
              (Some "Sustainability databases")
        :: sustainabilityEvents env query
   else [])
  ++ (if runs category "leasing"
      then [ event env "Analyzing leasing market information"
                   (Some "Leasing databases");
             event env "Searching for leasing market information"
                   (Some "Leasing Service") ]
      else [])
  ++ (if runs category "market"
      then [ event env "Retrieving market trend data"
                   (Some "Market analytics providers");
             event env "Analyzing market trend information"
                   (Some "Market Service") ]
      else [])
  ++ [ event env "Searching general knowledge sources"
             (Some "Wikipedia and general databases");
       event env "Searching general knowledge sources" (Some "Fallback Service") ].

(** The provider [processResearch] selects. *)
Definition selectedProvider (env : Env) : string :=
  default "openai" (Js.or_else (AI_PROVIDER env) (Some "openai")).

(** The events of the synthesis step. *)
Definition synthesisEvents (env : Env) (query : string)
    (researchResults : list JsEntry) (documentAnalysis : option string)
  : list Event :=
  let flattenedResults := AIService.filterBoolean (AIService.flat researchResults) in
  let provider := selectedProvider env in
  [ event env "Summarizing research findings" (Some "AI Service");
    event env ("Found " +:+ pretty (length flattenedResults)
               +:+ " relevant sources for research")
          (Some "Research Aggregator") ]
  ++ (if negb (Js.truthy (AIService.getApiKey env provider))
      then [ event env ("Error in AI processing: "
                        +:+ "AI provider API key not configured for " +:+ provider)
                   (Some "AI Service") ]
      else
        event env ("Querying AI model (" +:+ provider +:+ ")")
              (Some (AIService.providerLabel provider))
        :: match completion env
                   (AIService.prepareMessages query flattenedResults
                      documentAnalysis) with
           | Ok _ =>
               [ event env "AI analysis complete, generating final response"
                       (Some (AIService.providerLabel provider)) ]
           | Throw message =>
               [ event env ("Error in AI processing: " +:+ message)
                       (Some "AI Service") ]
           end).

(** The requests the synthesis step sends. *)
Definition synthesisEffects (env : Env) : list Effect :=
  let provider := selectedProvider env in
  if negb (Js.truthy (AIService.getApiKey env provider)) then []
  else if String.eqb (Js.toLowerCase provider) "openai" then [Http "openai"]
  else if String.eqb (Js.toLowerCase provider) "anthropic" then [Http "anthropic"]
  else [].

(** The whole log of a validated request. *)
Definition requestEvents (env : Env) (query : string)
    (documentContext : option string) : list Event :=
  [ event env "Starting research query categorization" None;
    event env ("Query categorized as: " +:+ QueryController.categorizeQuery query)
          None ]
  ++ adapterEvents env (QueryController.categorizeQuery query) query
  ++ (if Js.truthy documentContext
      then [ event env "Analyzing uploaded document context" None ] else [])
  ++ [ event env "Processing research with AI analysis" (Some "OpenAI") ]
  ++ synthesisEvents env query (gathered env query documentContext) documentContext.

(** [logs sid evs es st st']: [st'] is [st] with the events [evs]
    appended to the log of the live session [sid] and the effects [es]
    appended to the trace; nothing else differs. *)
Definition logs (sessionId : string) (evs : list Event) (es : list Effect)
    (st st' : State) : Prop :=
  exists log,
    researchStatus st !! sessionId = Some log
    /\ researchStatus st' = <[sessionId := log ++ evs]> (researchStatus st)
    /\ researchComplete st' = researchComplete st
    /\ effects st' = effects st ++ es.

(** The offline environment with the given provider variable and OpenAI
    key, where the OpenAI request answers. *)
Definition withProvider (provider key : option string) : Env :=
  {| now := now offlineEnv;
     today := today offlineEnv;
     toLocaleDateString := toLocaleDateString offlineEnv;
     AI_PROVIDER := provider;
     OPENAI_API_KEY := key;
     ANTHROPIC_API_KEY := None;
     arxiv_feed := arxiv_feed offlineEnv;
     rss_feed := rss_feed offlineEnv;
     openai_completion := fun _ => Ok "# Answer";
     anthropic_completion := anthropic_completion offlineEnv;
     local_completion := local_completion offlineEnv;
     array_method := array_method offlineEnv |}.

(** ** Further sources of research records *)

(** A page of the web search and a page of the knowledge base, as the
    providers answer them. *)
Record WebPage := mkWebPage {
  page_name : option string;
  page_displayUrl : option string;
  page_url : option string;
  page_snippet : option string
}.

Record WikiPage := mkWikiPage {
  wiki_title : option string;
  wiki_extract : option string;
  wiki_fullurl : option string
}.

(** What the other services read from outside the process.
    - The keys are the variables of [process.env].
    - [zillow_search query] is the outcome of the Zillow request and of
      parsing its answer, whose content is not used.
    - [bing_search q] is [response.data.webPages.value], no page when
      it is absent, or the exception; [url_hostname u] is
      [new URL(u).hostname], which throws on an invalid address.
    - [wikipedia_search q] is the page identifiers of
      [data.query.search], none when it is absent, or the exception;
      [wikipedia_page id] is [data.query.pages[id]].
    - [fred_series id] is the title of [data.seriess[0]] and
      [fred_observations id] is [data.observations], each absent when
      the answer lacks it.
    - [trends_interest keyword] and [trends_related keyword] are the
      texts the two Google Trends requests answer, or the exception.
      [parse_timeline] reads the timeline of the first text, one number
      per point ([parseInt(point.value[0])]), and [parse_related] the
      queries of the first ranked list of the second; both are empty
      when the text lacks them and throw when it cannot be read. *)
Record Sources := mkSources {
  ZILLOW_API_KEY : option string;
  zillow_search : string -> Result unit;
  BING_SEARCH_API_KEY : option string;
  bing_search : string -> Result (list WebPage);
  url_hostname : option string -> Result string;
  wikipedia_search : string -> Result (list string);
  wikipedia_page : string -> Result (option WikiPage);
  QUANDL_API_KEY : option string;
  FRED_API_KEY : option string;
  fred_series : string -> Result (option string);
  fred_observations : string -> Result (option (list FREDService.Observation));
  trends_interest : string -> Result string;
  trends_related : string -> Result string;
  parse_timeline : string -> Result (list FREDService.number);
  parse_related : string -> Result (list string);
  encodeURIComponent : string -> string
}.

(** [try { const found = await search; if (found.length > 0) results.push(...found) }
    catch { }], as the new value of [results]. *)
Definition attempt (search : M (list JsRecord)) (results : list JsRecord)
  : M (list JsRecord) :=
  try_catch
    (do found <- search;
     if (0 <? length found)%nat then ret (results ++ found) else ret results)
    (fun _ => ret results).

Module WikipediaService.

(** [summary.length > 1000 ? summary.substring(0, 997) + '...' : summary] *)
Definition clip (extract : string) : string :=
  if (1000 <? String.length extract)%nat
  then String.substring 0 997 extract +:+ "..."
  else extract.

Definition searchWikipedia (env : Env) (src : Sources) (query : string)
  : M (list JsRecord) :=
  try_catch
    (let enhancedQuery := query +:+ " commercial real estate" in
     effect (Http "wikipedia") ;;
     do searchResults <- lift (wikipedia_search src enhancedQuery);
     match searchResults with
     | [] => ret []
     | pageId :: _ =>
         effect (Http "wikipedia") ;;
         do page <- lift (wikipedia_page src pageId);
         match page with
         | None => ret []
         | Some page =>
             if negb (Js.truthy (wiki_extract page)) then ret []
             else
               let summary := clip (default "" (wiki_extract page)) in
               ret [ {| title := wiki_title page;
                        authors := Some "Wikipedia Contributors";
                        date := Some (today env);
                        source := Some "Wikipedia";
                        link := wiki_fullurl page;
                        summary := Some summary;
                        type := Some "knowledge_base";
                        data := None |} ]
         end
     end)
    (fun _ => ret []).

End WikipediaService.

(** [FallbackService.processQuery] and the methods it calls. *)
Module FallbackQuery.

Definition webSearch (env : Env) (src : Sources) (query : string)
  : M (list JsRecord) :=
  try_catch
    (if negb (Js.truthy (BING_SEARCH_API_KEY src)) then
       throw "Bing Search API key not configured"
     else
       let searchQuery := query +:+ " commercial real estate" in
       effect (Http "bing") ;;
       do pages <- lift (bing_search src searchQuery);
       lift (mapR (fun page =>
                     match url_hostname src (page_url page) with
                     | Throw message => Throw message
                     | Ok hostname =>
                         Ok {| title := page_name page;
                               authors := page_displayUrl page;
                               date := Some (today env);
                               source := Some hostname;
                               link := page_url page;
                               summary := page_snippet page;
                               type := Some "web_content";
                               data := None |}
                     end) pages))
    (fun _ => ret []).

Definition scrapedRecord (env : Env) : JsRecord :=
  {| title := Some "Latest Commercial Real Estate Market Insights";
     authors := Some "NAR Commercial Research";
     date := Some (today env);
     source := Some "National Association of Realtors";
     link := Some "https://www.nar.realtor/commercial-market-insights";
     summary := Some "Recent market analysis from NAR shows that commercial real estate transaction volumes decreased 21% year-over-year in Q1 2023 due to higher financing costs. However, certain sectors like multifamily and industrial continue to show strong fundamentals with rent growth outpacing inflation in many markets.";
     type := Some "web_content";
     data := None |}.

Definition webScrape (env : Env) (query : string) : M (list JsRecord) :=
  ret [ scrapedRecord env ].

Definition getGeneralInfo (env : Env) : JsRecord :=
  {| title := Some "General Commercial Real Estate Information";
     authors := Some "CRE Research Team";
     date := Some (today env);
     source := Some "Internal Database";
     link := Some "#";
     summary := Some "Commercial real estate encompasses a range of property types including office, retail, industrial, multifamily, and specialty sectors. Each property type has unique characteristics, investment considerations, and market dynamics. Investment decisions typically consider factors such as location, tenant quality, lease terms, property condition, and broader economic trends.";
     type := Some "web_content";
     data := None |}.

Definition processQuery (env : Env) (src : Sources) (query : string)
  : M (list JsRecord) :=
  try_catch
    (let results := [] in
     do results <- attempt (WikipediaService.searchWikipedia env src query) results;
     do results <-
       (if Js.truthy (BING_SEARCH_API_KEY src) && (length results <? 3)%nat
        then attempt (webSearch env src query) results
        else ret results);
     do results <-
       (if (length results <? 3)%nat
        then attempt (webScrape env query) results
        else ret results);
     let results :=
       if (length results =? 0)%nat then results ++ [getGeneralInfo env]
       else results in
     ret results)
    (fun message => throw ("Failed to perform general research: " +:+ message)).

End FallbackQuery.

(** [LeasingService.processQuery] and the methods it calls. *)
Module LeasingQuery.

Definition zillowRecord (env : Env) : JsRecord :=
  {| title := Some "Commercial Lease Rate Data";
     authors := Some "Zillow Research";
     date := Some (today env);
     source := Some "Zillow";
     link := Some "https://www.zillow.com/research/";
     summary := Some "Based on Zillow data...";
     type := Some "market_report";
     data := None |}.

Definition searchZillow (env : Env) (src : Sources) (query : string)
  : M (list JsRecord) :=
  try_catch
    (if negb (Js.truthy (ZILLOW_API_KEY src)) then
       throw "Zillow API key not configured"
     else
       effect (Http "zillow") ;;
       do _ <- lift (zillow_search src query);
       ret [ zillowRecord env ])
    (fun _ => ret []).

Definition coStarRecord (env : Env) : JsRecord :=
  {| title := Some "Office Space Vacancy Report Q2 2023 (Mock CoStar Data)";
     authors := Some "CoStar Market Analytics";
     date := Some (today env);
     source := Some "CoStar";
     link := Some "https://www.costar.com/";
     summary := Some "The Q2 2023 report indicates that office vacancy rates have stabilized at 18.3% nationally, showing the first signs of recovery since the pandemic. Class A properties in prime locations are leading the recovery with increasing tour activity and letter of intent submissions.";
     type := Some "market_report";
     data := None |}.

Definition searchCoStar (env : Env) (query : string) : M (list JsRecord) :=
  ret [ coStarRecord env ].

Definition getGeneralLeasingInfo (env : Env) : JsRecord :=
  {| title := Some "Current Commercial Real Estate Leasing Trends";
     authors := Some "CRE Research Team";
     date := Some (today env);
     source := Some "Internal Analysis";
     link := Some "#";
     summary := Some "Commercial real estate leasing continues to evolve with several key trends: flexible lease terms are becoming more common, especially for smaller tenants; sustainability features now command premium rates; and technology-enabled spaces with strong connectivity infrastructure are in higher demand across all market segments.";
     type := Some "market_report";
     data := None |}.

Definition processQuery (env : Env) (src : Sources) (query : string)
  : M (list JsRecord) :=
  try_catch
    (let results := [] in
     do results <- attempt (searchZillow env src query) results;
     do results <-
       (if (length results <? 3)%nat
        then attempt (searchCoStar env query) results
        else ret results);
     let results :=
       if (length results =? 0)%nat then results ++ [getGeneralLeasingInfo env]
       else results in
     ret results)
    (fun message => throw ("Failed to perform leasing research: " +:+ message)).

End LeasingQuery.

(** The records a search yields: none when it throws. *)
Definition yield (r : Result (list JsRecord)) : list JsRecord :=
  match r with
  | Ok records => records
  | Throw _ => []
  end.

(** Sources without keys and without network. *)
Definition noSources : Sources :=
  {| ZILLOW_API_KEY := None;
     zillow_search := fun _ => Throw "connect ECONNREFUSED";
     BING_SEARCH_API_KEY := None;
     bing_search := fun _ => Throw "connect ECONNREFUSED";
     url_hostname := fun u => Ok (default "" u);
     wikipedia_search := fun _ => Throw "connect ECONNREFUSED";
     wikipedia_page := fun _ => Throw "connect ECONNREFUSED";
     QUANDL_API_KEY := None;
     FRED_API_KEY := None;
     fred_series := fun _ => Throw "connect ECONNREFUSED";
     fred_observations := fun _ => Throw "connect ECONNREFUSED";
     trends_interest := fun _ => Throw "connect ECONNREFUSED";
     trends_related := fun _ => Throw "connect ECONNREFUSED";
     parse_timeline := fun _ => Throw "Unexpected end of JSON input";
     parse_related := fun _ => Throw "Unexpected end of JSON input";
     encodeURIComponent := fun s => s |}.

(** ** Economic data search and the market query processor *)

(** The double quote, for the texts that quote the query. *)
Definition dquote : string := String "034"%char EmptyString.

Definition quoted (s : string) : string := dquote +:+ s +:+ dquote.

(** [FREDService.searchEconomicData]. *)
Module FREDSearch.

(** [creIndicators], in the order of [Object.entries]. *)
Definition creIndicators : list (string * string) :=
  [ ("office", "OFFVACUSQ176N");
    ("retail", "RETAILIRSA");
    ("industrial", "INDPRO");
    ("construction", "TTLCONS");
    ("mortgage", "MORTGAGE30US");
    ("commercial mortgage", "DRTSCIS");
    ("property price", "BOGZ1FL075035503Q") ].

Definition relevantIndicators (query : string) : list (string * string) :=
  let relevantIndicators :=
    List.filter (fun entry => Js.includes (Js.toLowerCase query) (fst entry))
                creIndicators in
  if (length relevantIndicators =? 0)%nat
  then [ ("office", "OFFVACUSQ176N"); ("construction", "TTLCONS") ]
  else relevantIndicators.

(** The record returned when no key is configured. *)
Definition mockRecord (env : Env) (query : string) : JsRecord :=
  {| title := Some "Commercial Real Estate Economic Indicators";
     authors := Some "Federal Reserve Economic Data (FRED)";
     date := Some (today env);
     source := Some "FRED";
     link := Some "https://fred.stlouisfed.org/";
     summary :=
       Some ("Economic indicators relevant to " +:+ quoted query
             +:+ " in commercial real estate show varied trends. Without a FRED API key, we can't provide real-time data. Register for a free API key at https://fred.stlouisfed.org/docs/api/api_key.html to enable this functionality.");
     type := Some "economic_data";
     data := None |}.

Section Search.

Variable parseFloat : string -> FREDService.number.
Variable env : Env.
Variable src : Sources.

(** The loop over the relevant indicators, with [results] as it stands:
    a missing series or missing observations skip the indicator, an
    exception leaves the loop. *)
Fixpoint fetchIndicators (indicators : list (string * string))
    (results : list JsRecord) : M (list JsRecord) :=
  match indicators with
  | [] => ret results
  | (keyword, seriesId) :: rest =>
      effect (Http "fred") ;;
      do seriesResponse <- lift (fred_series src seriesId);
      match seriesResponse with
      | None => fetchIndicators rest results
      | Some seriesTitle =>
          effect (Http "fred") ;;
          do observationsResponse <- lift (fred_observations src seriesId);
          match observationsResponse with
          | None => fetchIndicators rest results
          | Some observations =>
              do record <-
                lift (FREDService.indicatorRecord parseFloat env seriesTitle
                        keyword seriesId observations);
              fetchIndicators rest (results ++ [record])
          end
      end
  end.

Definition searchEconomicData (query : string) : M (list JsRecord) :=
  try_catch
    (let apiKey := FRED_API_KEY src in
     let relevantIndicators := relevantIndicators query in
     if negb (Js.truthy apiKey) then ret [ mockRecord env query ]
     else fetchIndicators relevantIndicators [])
    (fun _ => ret []).

End Search.

End FREDSearch.

(** [MarketService.processQuery] and the methods it calls. *)
Module MarketQuery.

Import FREDService.

(** [values.reduce((a, b) => a + b, 0) / values.length] *)
Definition add (x y : number) : number := SFadd 53 1024 x y.

Definition average (values : list number) : number :=
  div (fold_left add values (ofZ 0)) (ofZ (Z.of_nat (length values))).

(** [timelineData.slice(-12)] and [timelineData.slice(-24, -12)] *)
Definition recentWindow (timeline : list number) : list number :=
  drop (length timeline - 12) timeline.

Definition olderWindow (timeline : list number) : list number :=
  drop (length timeline - 24) (take (length timeline - 12) timeline).

Definition directionOfChange (percentChange : number) : string :=
  if gt percentChange (ofZ 15) then "strongly increasing"
  else if gt percentChange (ofZ 5) then "moderately increasing"
  else if lt percentChange (ofZ (-15)) then "strongly decreasing"
  else if lt percentChange (ofZ (-5)) then "moderately decreasing"
  else "stable".

(** The direction computed from a timeline that is not empty. *)
Definition trendDirection (timeline : list number) : string :=
  let recentAvg := average (recentWindow timeline) in
  let olderAvg := average (olderWindow timeline) in
  let percentChange := mul (div (sub recentAvg olderAvg) olderAvg) (ofZ 100) in
  directionOfChange percentChange.

Definition trendsSummary (query : string) (timeline : list number)
    (related : list string) : string :=
  let enhancedQuery := query +:+ " commercial real estate" in
  let summary := "Analysis of Google Trends data shows " in
  let summary :=
    if (0 <? length timeline)%nat
    then summary +:+ "that interest in " +:+ quoted enhancedQuery
         +:+ " has been " +:+ trendDirection timeline +:+ " over the past year. "
    else summary in
  let summary :=
    if (0 <? length related)%nat
    then summary +:+ "Top related search queries include: "
         +:+ Js.join ", " (map quoted (take 5 related)) +:+ ". "
    else summary in
  summary +:+ "This trend data provides insight into current market interest and potential emerging topics in the commercial real estate sector related to "
  +:+ quoted query +:+ ".".

Definition searchGoogleTrends (env : Env) (src : Sources) (query : string)
  : M (list JsRecord) :=
  try_catch
    (let enhancedQuery := query +:+ " commercial real estate" in
     effect (Http "trends") ;;
     do interestOverTime <- lift (trends_interest src enhancedQuery);
     effect (Http "trends") ;;
     do relatedQueries <- lift (trends_related src enhancedQuery);
     do timeline <- lift (parse_timeline src interestOverTime);
     do related <- lift (parse_related src relatedQueries);
     ret [ {| title := Some ("Google Trends Analysis: " +:+ query
                             +:+ " in Commercial Real Estate");
              authors := Some "Google Trends";
              date := Some (today env);
              source := Some "Google Trends";
              link := Some ("https://trends.google.com/trends/explore?q="
                            +:+ encodeURIComponent src enhancedQuery +:+ "&geo=US");
              summary := Some (trendsSummary query timeline related);
              type := Some "market_report";
              data := None |} ])
    (fun _ => ret []).

Definition getGeneralMarketInfo (env : Env) : JsRecord :=
  {| title := Some "Current Commercial Real Estate Market Overview";
     authors := Some "CRE Market Analysis Team";
     date := Some (today env);
     source := Some "Internal Analysis";
     link := Some "#";
     summary := Some "The commercial real estate market continues to adapt to post-pandemic realities with notable sector-specific trends. Industrial and logistics properties remain the strongest performers with record-low cap rates and continued rent growth. Multifamily remains resilient with strong demand in suburban and sunbelt markets. Office continues to face challenges with high vacancy rates but is seeing selective recovery in Class A properties and amenity-rich developments. Retail is witnessing a bifurcation with grocery-anchored and experiential retail outperforming traditional mall spaces.";
     type := Some "market_report";
     data := None |}.

Definition processQuery (parseFloat : string -> number) (env : Env) (src : Sources)
    (query : string) : M (list JsRecord) :=
  try_catch
    (let results := [] in
     do results <- attempt (searchGoogleTrends env src query) results;
     do results <-
       (if (length results <? 4)%nat
        then attempt (RSSFeedService.searchNews env query) results
        else ret results);
     do results <-
       (if Js.truthy (QUANDL_API_KEY src) && (length results <? 5)%nat
        then attempt (FREDSearch.searchEconomicData parseFloat env src query) results
        else ret results);
     let results :=
       if (length results =? 0)%nat then results ++ [getGeneralMarketInfo env]
       else results in
     ret results)
    (fun message => throw ("Failed to perform market research: " +:+ message)).

End MarketQuery.

(** ** Readings of the economic data search *)

(** An indicator fails when one of its two requests throws, or when its
    series comes without any observation, so that [observations[0]] is
    undefined. *)
Definition failing (src : Sources) (entry : string * string) : bool :=
  match fred_series src (snd entry) with
  | Throw _ => true
  | Ok None => false
  | Ok (Some _) =>
      match fred_observations src (snd entry) with
      | Throw _ => true
      | Ok None => false
      | Ok (Some observations) => (length observations =? 0)%nat
      end
  end.

(** An indicator is reported when its series and its observations are
    both there. *)
Definition reported (src : Sources) (entry : string * string) : bool :=
  match fred_series src (snd entry), fred_observations src (snd entry) with
  | Ok (Some _), Ok (Some _) => true
  | _, _ => false
  end.

Definition seriesLink (entry : string * string) : option string :=
  Some ("https://fred.stlouisfed.org/series/" +:+ snd entry).

(** What every record of the economic data search carries. *)
Definition fredRecord (r : JsRecord) : Prop :=
  source r = Some "FRED" /\ type r = Some "economic_data"
  /\ authors r = Some "Federal Reserve Economic Data (FRED)".

(** Sources with both economic keys, where only the office vacancy and
    the construction series exist, and only the series [observed] has
    an observation. *)
Definition fredSources (observed : string) : Sources :=
  {| ZILLOW_API_KEY := None;
     zillow_search := fun _ => Throw "connect ECONNREFUSED";
     BING_SEARCH_API_KEY := None;
     bing_search := fun _ => Throw "connect ECONNREFUSED";
     url_hostname := fun u => Ok (default "" u);
     wikipedia_search := fun _ => Throw "connect ECONNREFUSED";
     wikipedia_page := fun _ => Throw "connect ECONNREFUSED";
     QUANDL_API_KEY := Some "quandl-key";
     FRED_API_KEY := Some "fred-key";
     fred_series := fun seriesId =>
       if String.eqb seriesId "OFFVACUSQ176N" then Ok (Some "Office Vacancy Rate")
       else if String.eqb seriesId "TTLCONS"
            then Ok (Some "Total Construction Spending")
            else Ok None;
     fred_observations := fun seriesId =>
       if String.eqb seriesId observed
       then Ok (Some [ FREDService.mkObservation "12" "2024-01-01" ])
       else Ok (Some []);
     trends_interest := fun _ => Throw "connect ECONNREFUSED";
     trends_related := fun _ => Throw "connect ECONNREFUSED";
     parse_timeline := fun _ => Throw "Unexpected end of JSON input";
     parse_related := fun _ => Throw "Unexpected end of JSON input";
     encodeURIComponent := fun s => s |}.

(** ** Citation manager *)

(** The line feed of the response texts. *)
Definition newline : string := String "010"%char EmptyString.

Module CitationManager.








End CitationManager.


(** ** Documents and reports *)

Module DocumentAnalyzer.

Definition is_line_feed (c : ascii) : bool := (nat_of_ascii c =? 10)%nat.

(** The maximal runs of white space that begin in [s]; [inRun] tells
    that the character before [s] is white space. *)
Fixpoint spaceRuns (inRun : bool) (s : string) : nat :=
  match s with
  | EmptyString => 0
  | String c s' =>
      if Js.is_space c
      then ((if inRun then 0 else 1) + spaceRuns true s')%nat
      else spaceRuns false s'
  end.

(** The matches of [/\n\s*\n/] in [s]. A match starts at the first line
    feed of a run of white space and, the star being greedy, ends at
    the last line feed of the run; so a run gives one match when it
    holds two line feeds, at its second one, and no other. [lineFeeds]
    counts the line feeds of the current run before [s]. *)
Fixpoint paragraphBreaks (lineFeeds : nat) (s : string) : nat :=
  match s with
  | EmptyString => 0
  | String c s' =>
      if is_line_feed c
      then ((if (lineFeeds =? 1)%nat then 1 else 0) + paragraphBreaks (S lineFeeds) s')%nat
      else if Js.is_space c then paragraphBreaks lineFeeds s'
      else paragraphBreaks 0 s'
  end.

Definition extractTopics (text : string) : list string :=
  let textLower := Js.toLowerCase text in
  let topics := [] in
  let topics :=
    if Js.includes textLower "sustainability" || Js.includes textLower "green"
       || Js.includes textLower "energy efficiency"
       || Js.includes textLower "environmental" || Js.includes textLower "leed"
    then topics ++ ["Sustainability"] else topics in
  let topics :=
    if Js.includes textLower "lease" || Js.includes textLower "tenant"
       || Js.includes textLower "landlord" || Js.includes textLower "rental"
       || Js.includes textLower "occupancy"
    then topics ++ ["Leasing"] else topics in
  let topics :=
    if Js.includes textLower "market" || Js.includes textLower "trend"
       || Js.includes textLower "forecast" || Js.includes textLower "growth"
       || Js.includes textLower "investment"
    then topics ++ ["Market Trends"] else topics in
  topics.

Record Analysis := mkAnalysis {
  summary : string;
  wordCount : nat;
  paragraphCount : nat;
  topics : list string
}.

(** [analyze]; [text] is [None] when the extraction gave no text, and
    then [text.split] throws and the handler rethrows. A split gives one
    more piece than there are matches of the separator. *)
Definition analyze (text : option string) : Result Analysis :=
  match text with
  | None => Throw "Failed to analyze document content"
  | Some text =>
      let wordCount := S (spaceRuns false text) in
      let paragraphs := S (paragraphBreaks 0 text) in
      let topics := extractTopics text in
      let summaryLength := Nat.min 500 (String.length text) in
      let summary := String.substring 0 summaryLength text in
      let summary :=
        if (summaryLength <? String.length text)%nat then summary +:+ "..."
        else summary in
      Ok {| summary := summary;
            wordCount := wordCount;
            paragraphCount := paragraphs;
            topics := topics |}
  end.

End DocumentAnalyzer.

(** [processDocument] of the document controller. *)
Module DocumentController.

(** What the handler reads from the libraries.
    - [extname p] is [path.extname(p)].
    - [pdf_pages p] is the text items of each page of the PDF at [p],
      or the exception of the extraction.
    - [docx_text p] is [result.value] of the raw text extraction, or
      its exception. *)
Record Documents := mkDocuments {
  extname : string -> string;
  pdf_pages : string -> Result (list (list string));
  docx_text : string -> Result (option string)
}.

Inductive Body :=
| ErrorBody (error : string)
| FailureBody (error details : string)
| AnalysisBody (message : string) (analysis : DocumentAnalyzer.Analysis).

Record Response := mkResponse {
  status : nat;
  body : Body
}.

(** The text of the document, [None] for a format that is not
    supported. *)
Definition extractText (docs : Documents) (filePath : string)
  : option (Result (option string)) :=
  let fileExtension := Js.toLowerCase (extname docs filePath) in
  if String.eqb fileExtension ".pdf" then
    Some match pdf_pages docs filePath with
         | Ok pages => Ok (Some (Js.join newline (map (Js.join " ") pages)))
         | Throw message => Throw message
         end
  else if String.eqb fileExtension ".docx" || String.eqb fileExtension ".doc" then
    Some (docx_text docs filePath)
  else None.

(** [processDocument]: [file] is [req.file.path], [None] without an
    upload; [uploads] are the files of the upload directory, from which
    [fs.unlink] removes one. *)
Definition processDocument (docs : Documents) (file : option string)
    (uploads : gset string) : gset string * Response :=
  match file with
  | None => (uploads, mkResponse 400 (ErrorBody "No document uploaded"))
  | Some filePath =>
      match extractText docs filePath with
      | None => (uploads, mkResponse 400 (ErrorBody "Unsupported file format"))
      | Some (Throw message) =>
          (uploads,
           mkResponse 500
             (FailureBody "An error occurred while processing your document" message))
      | Some (Ok extractedText) =>
          match DocumentAnalyzer.analyze extractedText with
          | Throw message =>
              (uploads,
               mkResponse 500
                 (FailureBody "An error occurred while processing your document"
                    message))
          | Ok analysis =>
              (uploads ∖ {[ filePath ]},
               mkResponse 200 (AnalysisBody "Document processed successfully" analysis))
          end
      end
  end.

End DocumentController.

(** [generateReport] and [downloadReport] of the report controller. *)
Module ReportController.

Record ReportBody := mkReportBody {
  queryResults : option string;
  documentAnalysis : option string;
  citations : option (list string)
}.

(** [reportStore], and the deletions that [setTimeout] has scheduled,
    each with the time in milliseconds from which it is due. *)
Record Store := mkStore {
  reportStore : gmap string (list Byte.byte);
  timers : list (Z * string)
}.

Inductive Body :=
| ErrorBody (error : string)
| FailureBody (error details : string)
| GeneratedBody (message reportId : string)
| Download (contentType contentDisposition : string) (contentLength : nat)
           (pdfBytes : list Byte.byte).

Record Response := mkResponse {
  status : nat;
  body : Body
}.

(** [generateReport]. [render] is the document drawn from the body and
    saved, or the exception of the PDF library; [reportId] is what
    [crypto.randomUUID()] draws and [now] the time of the call. *)
Definition generateReport (render : ReportBody -> Result (list Byte.byte))
    (reportId : string) (now : Z) (req : ReportBody) (st : Store)
  : Store * Response :=
  if negb (Js.truthy (queryResults req)) && negb (Js.truthy (documentAnalysis req))
  then (st, mkResponse 400 (ErrorBody "No content provided for report generation"))
  else
    match render req with
    | Throw message =>
        (st,
         mkResponse 500
           (FailureBody "An error occurred while generating the report" message))
    | Ok pdfBytes =>
        (mkStore (<[reportId := pdfBytes]> (reportStore st))
                 (timers st ++ [ ((now + 30 * 60 * 1000)%Z, reportId) ]),
         mkResponse 200 (GeneratedBody "Report generated successfully" reportId))
    end.

(** The timers due at [now] run: each deletes its report. *)
Definition runTimers (now : Z) (st : Store) : Store :=
  let due := List.filter (fun timer => (fst timer <=? now)%Z) (timers st) in
  let pending := List.filter (fun timer => negb (fst timer <=? now)%Z) (timers st) in
  mkStore (fold_left (fun store timer => delete (snd timer) store) due (reportStore st))
          pending.

Definition downloadReport (id : string) (st : Store) : Store * Response :=
  match reportStore st !! id with
  | None => (st, mkResponse 404 (ErrorBody "Report not found or expired"))
  | Some pdfBytes =>
      (st,
       mkResponse 200
         (Download "application/pdf"
            ("attachment; filename=" +:+ quoted "cre-research-report.pdf")
            (length pdfBytes) pdfBytes))
  end.

End ReportController.

(** Libraries that read one PDF of two pages and refuse the rest. *)
Definition sampleDocuments : DocumentController.Documents :=
  {| DocumentController.extname := fun p =>
       if String.eqb p "uploads/1-lease.PDF" then ".PDF"
       else if String.eqb p "uploads/2-notes.txt" then ".txt" else ".docx";
     DocumentController.pdf_pages := fun _ =>
       Ok [ ["Lease"; "terms"]; ["Tenant"; "duties"] ];
     DocumentController.docx_text := fun _ => Throw "Could not find file" |}.

(** Every stored report has a deletion scheduled. *)
Definition scheduled (st : ReportController.Store) : Prop :=
  forall id,
    is_Some (ReportController.reportStore st !! id) ->
    exists due, In (due, id) (ReportController.timers st).

(** A renderer that answers three bytes, and the body it is given. *)
Definition sampleRender (req : ReportController.ReportBody)
  : Result (list Byte.byte) :=
  Ok [ Byte.x25; Byte.x50; Byte.x44 ].

Definition sampleReport : ReportController.ReportBody :=
  {| ReportController.queryResults := Some "Vacancy is falling.";
     ReportController.documentAnalysis := None;
     ReportController.citations := None |}.

Definition emptyStore : ReportController.Store :=
  ReportController.mkStore ∅ [].

(** Sources in which only Wikipedia answers: every search finds the
    page identifiers ["42"; "7"], and every page request gives [page]. *)
Definition wikiSources (page : WikiPage) : Sources :=
  {| ZILLOW_API_KEY := None;
     zillow_search := zillow_search noSources;
     BING_SEARCH_API_KEY := None;
     bing_search := bing_search noSources;
     url_hostname := url_hostname noSources;
     wikipedia_search := fun _ => Ok ["42"; "7"];
     wikipedia_page := fun _ => Ok (Some page);
     QUANDL_API_KEY := None;
     FRED_API_KEY := None;
     fred_series := fred_series noSources;
     fred_observations := fred_observations noSources;
     trends_interest := trends_interest noSources;
     trends_related := trends_related noSources;
     parse_timeline := parse_timeline noSources;
     parse_related := parse_related noSources;
     encodeURIComponent := encodeURIComponent noSources |}.

(** The record [searchWikipedia] builds from a page and its extract. *)
Definition wikipediaRecord (env : Env) (page : WikiPage) (extract : string)
  : JsRecord :=
  {| title := wiki_title page;
     authors := Some "Wikipedia Contributors";
     date := Some (today env);
     source := Some "Wikipedia";
     link := wiki_fullurl page;
     summary := Some (WikipediaService.clip extract);
     type := Some "knowledge_base";
     data := None |}.

(** * Properties *)

(** ** Keyword counting *)

Section Counting.

Variable P : string -> bool.

Lemma fold_count_forEach (keywords : list string) (n : nat) :
  fold_left (fun matches keyword => if P keyword then S matches else matches)
            keywords n
  = (n + length (List.filter P keywords))%nat.
Proof.
  revert n. induction keywords as [|k ks IH]; intros n; simpl.
  - lia.
  - rewrite IH. destruct (P k); simpl; lia.
Qed.

Lemma fold_count_reduce (keywords : list string) (n : nat) :
  fold_left (fun count keyword => (count + (if P keyword then 1 else 0))%nat)
            keywords n
  = (n + length (List.filter P keywords))%nat.
Proof.
  revert n. induction keywords as [|k ks IH]; intros n; simpl.
  - lia.
  - rewrite IH. destruct (P k); simpl; lia.
Qed.

Lemma hits_positive (keywords : list string) :
  existsb P keywords = true <-> (0 < length (List.filter P keywords))%nat.
Proof.
  induction keywords as [|k ks IH]; simpl.
  - split; [discriminate | lia].
  - destruct (P k); simpl; [split; [lia | reflexivity] | exact IH].
Qed.

Lemma hits_zero (keywords : list string) :
  existsb P keywords = false <-> length (List.filter P keywords) = 0%nat.
Proof.
  destruct (existsb P keywords) eqn:E.
  - apply hits_positive in E. split; [discriminate | lia].
  - split; [intros _ | reflexivity].
    destruct (length (List.filter P keywords)) eqn:L; [reflexivity|].
    assert (H : existsb P keywords = true) by (apply hits_positive; lia).
    congruence.
Qed.

End Counting.

Lemma countMatches_hits (queryLower : string) (keywords : list string) :
  QueryController.countMatches queryLower keywords
  = length (List.filter (Js.includes queryLower) keywords).
Proof. unfold QueryController.countMatches. now rewrite fold_count_forEach. Qed.

Lemma countKeywordMatches_hits (queryLower : string) (keywords : list string) :
  QueryCategorizer.countKeywordMatches queryLower keywords
  = length (List.filter (Js.includes queryLower) keywords).
Proof.
  unfold QueryCategorizer.countKeywordMatches. now rewrite fold_count_reduce.
Qed.

Lemma mentions_countMatches (query : string) (keywords : list string) :
  (mentions query keywords = true
   <-> (0 < QueryController.countMatches (Js.toLowerCase query) keywords)%nat)
  /\ (mentions query keywords = false
      <-> QueryController.countMatches (Js.toLowerCase query) keywords = 0%nat).
Proof.
  unfold mentions. rewrite countMatches_hits.
  split; [apply hits_positive | apply hits_zero].
Qed.

Lemma mentions_countKeywordMatches (query : string) (keywords : list string) :
  (mentions query keywords = true
   <-> (0 < QueryCategorizer.countKeywordMatches (Js.toLowerCase query) keywords)%nat)
  /\ (mentions query keywords = false
      <-> QueryCategorizer.countKeywordMatches (Js.toLowerCase query) keywords = 0%nat).
Proof.
  unfold mentions. rewrite countKeywordMatches_hits.
  split; [apply hits_positive | apply hits_zero].
Qed.

Ltac ltb_cases :=
  repeat match goal with
         | |- context [(?a <? ?b)%nat] => destruct (Nat.ltb_spec a b)
         end;
  simpl; try reflexivity; try lia.

(** ** The categoriser of the handler *)

(** The shape of [categorizeQuery] on the three counts. *)
Lemma categorizeQuery_cases (query : string) :
  let q := Js.toLowerCase query in
  let s := QueryController.countMatches q QueryController.sustainabilityKeywords in
  let l := QueryController.countMatches q QueryController.leasingKeywords in
  let m := QueryController.countMatches q QueryController.marketKeywords in
  (l < s /\ m < s /\ QueryController.categorizeQuery query = "sustainability")%nat
  \/ (s < l /\ m < l /\ QueryController.categorizeQuery query = "leasing")%nat
  \/ (~ (l < s /\ m < s) /\ ~ (s < l /\ m < l) /\ 0 < m
      /\ QueryController.categorizeQuery query = "market")%nat
  \/ (s = l /\ m = 0 /\ QueryController.categorizeQuery query = "general")%nat.
Proof.
  intros q s l m. unfold QueryController.categorizeQuery.
  fold q. fold s. fold l. fold m.
  ltb_cases; try (left; repeat split; (lia || reflexivity));
    try (right; left; repeat split; (lia || reflexivity));
    try (right; right; left; repeat split; (lia || reflexivity));
    try (right; right; right; repeat split; (lia || reflexivity)).
Qed.

(** [categorizeQuery] answers [general] exactly when no market keyword
    occurs and the two other counts are equal. *)
Lemma categorizeQuery_general_iff (query : string) :
  let q := Js.toLowerCase query in
  QueryController.categorizeQuery query = "general"
  <-> (QueryController.countMatches q QueryController.sustainabilityKeywords
       = QueryController.countMatches q QueryController.leasingKeywords
       /\ QueryController.countMatches q QueryController.marketKeywords = 0)%nat.
Proof.
  intros q.
  destruct (categorizeQuery_cases query) as [H|[H|[H|H]]]; fold q in H;
    destruct H as (H1 & H2 & H3); try destruct H3 as (H3 & H4).
  - rewrite H3. split; [discriminate | lia].
  - rewrite H3. split; [discriminate | lia].
  - rewrite H4. split; [discriminate | lia].
  - rewrite H3. split; [intros _; split; assumption | reflexivity].
Qed.

(** The stand-alone categoriser follows the tie rule: without a strict
    winner among the three scores the answer is [general]. *)
Lemma categorize_tie_general (query : string) :
  let q := Js.toLowerCase query in
  let s := QueryCategorizer.countKeywordMatches q QueryCategorizer.sustainabilityKeywords in
  let l := QueryCategorizer.countKeywordMatches q QueryCategorizer.leasingKeywords in
  let m := QueryCategorizer.countKeywordMatches q QueryCategorizer.marketTrendsKeywords in
  (~ (l < s /\ m < s) -> ~ (s < l /\ m < l) -> ~ (s < m /\ l < m) ->
   QueryCategorizer.categorize query = "general")%nat.
Proof.
  intros q s l m H1 H2 H3. unfold QueryCategorizer.categorize.
  fold q. fold s. fold l. fold m. ltb_cases.
Qed.

(** C1, at two queries whose top score is tied. In ["green market"] one
    sustainability keyword and one market keyword occur and no leasing
    keyword; in ["sustainable green lease tenant trend"] two
    sustainability and two leasing keywords occur and one market
    keyword. The tie rule asks for [general] on both; the categoriser
    of the handler answers [market], in the second case the category
    with the lowest score. The stand-alone categoriser answers
    [general] on the first query. *)
Theorem categorizeQuery_market_tie :
  let count q := QueryController.countMatches (Js.toLowerCase q) in
  let q1 := "green market" in
  let q2 := "sustainable green lease tenant trend" in
  (count q1 QueryController.sustainabilityKeywords = 1
   /\ count q1 QueryController.leasingKeywords = 0
   /\ count q1 QueryController.marketKeywords = 1
   /\ QueryController.categorizeQuery q1 = "market"
   /\ QueryCategorizer.categorize q1 = "general")%nat
  /\ (count q2 QueryController.sustainabilityKeywords = 2
      /\ count q2 QueryController.leasingKeywords = 2
      /\ count q2 QueryController.marketKeywords = 1
      /\ QueryController.categorizeQuery q2 = "market")%nat.
Proof. vm_compute. repeat split. Qed.

(** C8: a query that contains a keyword of exactly one category and of
    no other is given that category, and a query that contains no
    keyword at all is [general]; this holds for the categoriser of the
    handler and, with its own keyword sets and its [market_trends]
    label, for the stand-alone categoriser. *)
Theorem categorize_single_topic (query : string) :
  let S1 := QueryController.sustainabilityKeywords in
  let L1 := QueryController.leasingKeywords in
  let M1 := QueryController.marketKeywords in
  let S2 := QueryCategorizer.sustainabilityKeywords in
  let L2 := QueryCategorizer.leasingKeywords in
  let M2 := QueryCategorizer.marketTrendsKeywords in
  (mentions query S1 = true -> mentions query L1 = false -> mentions query M1 = false ->
   QueryController.categorizeQuery query = "sustainability")
  /\ (mentions query S1 = false -> mentions query L1 = true -> mentions query M1 = false ->
      QueryController.categorizeQuery query = "leasing")
  /\ (mentions query S1 = false -> mentions query L1 = false -> mentions query M1 = true ->
      QueryController.categorizeQuery query = "market")
  /\ (mentions query S1 = false -> mentions query L1 = false -> mentions query M1 = false ->
      QueryController.categorizeQuery query = "general")
  /\ (mentions query S2 = true -> mentions query L2 = false -> mentions query M2 = false ->
      QueryCategorizer.categorize query = "sustainability")
  /\ (mentions query S2 = false -> mentions query L2 = true -> mentions query M2 = false ->
      QueryCategorizer.categorize query = "leasing")
  /\ (mentions query S2 = false -> mentions query L2 = false -> mentions query M2 = true ->
      QueryCategorizer.categorize query = "market_trends")
  /\ (mentions query S2 = false -> mentions query L2 = false -> mentions query M2 = false ->
      QueryCategorizer.categorize query = "general").
Proof.
  intros S1 L1 M1 S2 L2 M2.
  repeat split; intros Hs Hl Hm.
  1-4: apply mentions_countMatches in Hs, Hl, Hm;
       unfold QueryController.categorizeQuery; fold S1 L1 M1; ltb_cases.
  all: apply mentions_countKeywordMatches in Hs, Hl, Hm;
       unfold QueryCategorizer.categorize; fold S2 L2 M2; ltb_cases.
Qed.

Lemma categorize_single_topic_witness :
  QueryController.categorizeQuery "Green roofs in Boston" = "sustainability"
  /\ QueryController.categorizeQuery "tenant improvements" = "leasing"
  /\ QueryController.categorizeQuery "cap rate compression" = "market"
  /\ QueryController.categorizeQuery "hello there" = "general"
  /\ QueryCategorizer.categorize "Green roofs in Boston" = "sustainability"
  /\ QueryCategorizer.categorize "tenant improvements" = "leasing"
  /\ QueryCategorizer.categorize "cap rate compression" = "market_trends"
  /\ QueryCategorizer.categorize "hello there" = "general".
Proof.
  pose proof (categorize_single_topic "Green roofs in Boston") as (H1 & _ & _ & _ & H5 & _).
  pose proof (categorize_single_topic "tenant improvements") as (_ & H2 & _ & _ & _ & H6 & _).
  pose proof (categorize_single_topic "cap rate compression") as (_ & _ & H3 & _ & _ & _ & H7 & _).
  pose proof (categorize_single_topic "hello there") as (_ & _ & _ & H4 & _ & _ & _ & H8).
  repeat match goal with |- _ /\ _ => split end;
    [ apply H1 | apply H2 | apply H3 | apply H4
    | apply H5 | apply H6 | apply H7 | apply H8 ]; vm_compute; reflexivity.
Defined.

(** ** Reasoning about the monad *)

Lemma advances_refl (st : State) : advances [] st st.
Proof.
  unfold advances. rewrite app_nil_r. repeat split; auto.
Qed.

Lemma advances_trans (es1 es2 : list Effect) (st1 st2 st3 : State) :
  advances es1 st1 st2 -> advances es2 st2 st3 -> advances (es1 ++ es2) st1 st3.
Proof.
  intros (C1 & E1 & D1) (C2 & E2 & D2). unfold advances.
  rewrite C2, C1, E2, E1, app_assoc. repeat split; auto.
  - intros H. apply D1, D2, H.
  - intros H. apply D2, D1, H.
Qed.

Lemma wp_ret {A} (a : A) (st : State) (Q : State -> Result A -> Prop) :
  Q st (Ok a) -> wp (ret a) st Q.
Proof. intros H; exact H. Qed.

Lemma wp_throw {A} (message : string) (st : State) (Q : State -> Result A -> Prop) :
  Q st (Throw message) -> wp (throw message) st Q.
Proof. intros H; exact H. Qed.

Lemma wp_lift {A} (r : Result A) (st : State) (Q : State -> Result A -> Prop) :
  Q st r -> wp (lift r) st Q.
Proof. intros H; exact H. Qed.

Lemma wp_bind {A B} (m : M A) (k : A -> M B) (st : State)
    (Q : State -> Result B -> Prop) :
  wp m st (fun st' r =>
             match r with
             | Ok a => wp (k a) st' Q
             | Throw message => Q st' (Throw message)
             end) ->
  wp (bind m k) st Q.
Proof.
  unfold wp, bind. destruct (m st) as [st' [a|message]]; simpl; auto.
Qed.

Lemma wp_try_catch {A} (m : M A) (handler : string -> M A) (st : State)
    (Q : State -> Result A -> Prop) :
  wp m st (fun st' r =>
             match r with
             | Ok a => Q st' (Ok a)
             | Throw message => wp (handler message) st' Q
             end) ->
  wp (try_catch m handler) st Q.
Proof.
  unfold wp, try_catch. destruct (m st) as [st' [a|message]]; simpl; auto.
Qed.

Lemma wp_mono {A} (m : M A) (st : State) (Q Q' : State -> Result A -> Prop) :
  wp m st Q -> (forall st' r, Q st' r -> Q' st' r) -> wp m st Q'.
Proof. unfold wp. auto. Qed.

Lemma wp_run {A} (m : M A) (st : State) (Q : State -> Result A -> Prop) :
  wp m st Q -> forall st' r, m st = (st', r) -> Q st' r.
Proof. unfold wp. intros H st' r E. now rewrite E in H. Qed.

Lemma wp_effect (e : Effect) (st : State) (Q : State -> Result unit -> Prop) :
  (forall st', advances [e] st st' -> Q st' (Ok tt)) -> wp (effect e) st Q.
Proof.
  intros H. unfold wp, effect; simpl. apply H.
  unfold advances; simpl. repeat split; auto.
Qed.

(** ** The session tracker *)

Lemma status_live (env : Env) (sessionId : string) (st : State) (log : list Event) :
  researchStatus st !! sessionId = Some log ->
  Session.status env st sessionId = Session.Log log.
Proof. intros H. unfold Session.status. now rewrite H. Qed.

Lemma push_live (env : Env) (sessionId : string) (ev : Event) (st : State)
    (log : list Event) :
  researchStatus st !! sessionId = Some log ->
  Session.push env sessionId ev st
  = (mkState (<[sessionId := log ++ [ev]]> (researchStatus st))
             (researchComplete st) (effects st), Ok tt).
Proof. intros H. unfold Session.push. now rewrite (status_live _ _ _ _ H). Qed.

Lemma log_live (env : Env) (sessionId : string) (ev : Event) (st : State)
    (log : list Event) :
  Js.truthy (Some sessionId) = true ->
  researchStatus st !! sessionId = Some log ->
  Session.log env sessionId ev st = Session.push env sessionId ev st.
Proof.
  intros T H. unfold Session.log. now rewrite T, (status_live _ _ _ _ H).
Qed.

(** Without an entry, a guard that reads something falsy skips the
    push; so does the guard of the empty identifier. *)
Lemma log_quiet (env : Env) (sessionId : string) (ev : Event) (st : State) :
  Js.truthy (Some sessionId) = false
  \/ Session.truthy (Session.status env st sessionId) = false ->
  Session.log env sessionId ev st = (st, Ok tt).
Proof.
  intros [H|H]; unfold Session.log; rewrite H; [reflexivity|].
  now rewrite andb_false_r.
Qed.

Lemma advances_append (sessionId : string) (ev : Event) (st : State)
    (log : list Event) :
  researchStatus st !! sessionId = Some log ->
  advances [] st
    (mkState (<[sessionId := log ++ [ev]]> (researchStatus st))
             (researchComplete st) (effects st)).
Proof.
  intros H. unfold advances; simpl. rewrite app_nil_r.
  repeat split; auto; intros Hs.
  - destruct (decide (sessionId = s)) as [->|Hne].
    + rewrite H. eauto.
    + now rewrite lookup_insert_ne in Hs.
  - destruct (decide (sessionId = s)) as [->|Hne].
    + rewrite lookup_insert_eq. eauto.
    + now rewrite lookup_insert_ne.
Qed.

Lemma wp_push (env : Env) (sessionId : string) (ev : Event) (st : State)
    (Q : State -> Result unit -> Prop) :
  is_Some (researchStatus st !! sessionId) ->
  (forall st', advances [] st st' -> Q st' (Ok tt)) ->
  wp (Session.push env sessionId ev) st Q.
Proof.
  intros [log Hl] H. unfold wp. rewrite (push_live _ _ _ _ _ Hl); simpl.
  apply H. now apply advances_append.
Qed.

(** The guarded form does not throw on a session that has a log. *)
Lemma wp_log (env : Env) (sessionId : string) (ev : Event) (st : State)
    (Q : State -> Result unit -> Prop) :
  is_Some (researchStatus st !! sessionId) ->
  (forall st', advances [] st st' -> Q st' (Ok tt)) ->
  wp (Session.log env sessionId ev) st Q.
Proof.
  intros [log Hl] H. unfold wp.
  destruct (Js.truthy (Some sessionId)) eqn:T.
  - rewrite (log_live _ _ _ _ _ T Hl), (push_live _ _ _ _ _ Hl); simpl.
    apply H. now apply advances_append.
  - rewrite log_quiet by now left. simpl. apply H, advances_refl.
Qed.

Lemma advances_live (es : list Effect) (st st' : State) (sessionId : string) :
  advances es st st' ->
  is_Some (researchStatus st !! sessionId) ->
  is_Some (researchStatus st' !! sessionId).
Proof. intros (_ & _ & D) H. now apply D. Qed.

(** Chains [advances] facts from the current state back to the first. *)
Ltac adv_chain :=
  match goal with
  | |- advances _ ?a ?a => apply advances_refl
  | H : advances _ ?a ?b |- advances _ ?a ?b => exact H
  | H : advances _ ?b ?c |- advances _ ?a ?c =>
      refine (advances_trans _ _ a b c _ H); adv_chain
  end.

Ltac adv :=
  match goal with
  | |- advances ?es ?a ?c =>
      let H := fresh in
      eassert (H : advances _ a c) by adv_chain;
      refine (eq_rect _ (fun x => advances x a c) H es _);
      simpl; rewrite ?app_nil_r; reflexivity
  end.

(** ** The adapters *)

(** What is read under a session identifier depends on [researchStatus]
    only. *)
Lemma plain_same (env : Env) (sessionId : string) (st st' : State) :
  researchStatus st' = researchStatus st ->
  plain env st sessionId -> plain env st' sessionId.
Proof.
  unfold plain, Session.status. intros ->. auto.
Qed.

(** The guarded form does not throw on a plain identifier, and the
    identifier stays plain. *)
Lemma wp_log_plain (env : Env) (sessionId : string) (ev : Event) (st : State)
    (Q : State -> Result unit -> Prop) :
  plain env st sessionId ->
  (forall st', advances [] st st' -> plain env st' sessionId -> Q st' (Ok tt)) ->
  wp (Session.log env sessionId ev) st Q.
Proof.
  intros [L|F] H.
  - apply wp_log; [exact L|]. intros st' A. apply H; [exact A|].
    left. now apply (advances_live _ _ _ _ A).
  - unfold wp. rewrite log_quiet by now right. simpl.
    apply H; [apply advances_refl | now right].
Qed.

Lemma leasing_getResearch_spec (env : Env) (query sessionId : string) (st : State)
    (Q : State -> Result (list JsRecord) -> Prop) :
  plain env st sessionId ->
  (forall st', advances [] st st' ->
               Q st' (Ok [LeasingService.sampleRecord env query])) ->
  wp (LeasingService.getResearch env query sessionId) st Q.
Proof.
  intros P H. unfold LeasingService.getResearch.
  apply wp_bind, wp_log_plain; [exact P|]. intros st1 A1 _.
  apply wp_try_catch, wp_ret. apply H. adv.
Qed.

Lemma market_getResearch_spec (env : Env) (query sessionId : string) (st : State)
    (Q : State -> Result (list JsRecord) -> Prop) :
  plain env st sessionId ->
  (forall st', advances [] st st' ->
               Q st' (Ok [MarketService.sampleRecord env query])) ->
  wp (MarketService.getResearch env query sessionId) st Q.
Proof.
  intros P H. unfold MarketService.getResearch.
  apply wp_bind, wp_log_plain; [exact P|]. intros st1 A1 _.
  apply wp_try_catch, wp_ret. apply H. adv.
Qed.

Lemma fallback_getResearch_spec (env : Env) (query sessionId : string) (st : State)
    (Q : State -> Result (list JsRecord) -> Prop) :
  plain env st sessionId ->
  (forall st', advances [] st st' ->
               Q st' (Ok [FallbackService.sampleRecord env query])) ->
  wp (FallbackService.getResearch env query sessionId) st Q.
Proof.
  intros P H. unfold FallbackService.getResearch.
  apply wp_bind, wp_log_plain; [exact P|]. intros st1 A1 _.
  apply wp_try_catch, wp_ret. apply H. adv.
Qed.

Lemma searchArXiv_spec (env : Env) (query : string) (st : State)
    (Q : State -> Result (list JsRecord) -> Prop) :
  (forall st', advances [Http "arXiv"] st st' ->
               researchStatus st' = researchStatus st ->
               Q st' (Ok (arxivRecords env query))) ->
  wp (SustainabilityService.searchArXiv env query) st Q.
Proof.
  unfold SustainabilityService.searchArXiv, arxivRecords.
  destruct (SustainabilityService.fetchArXiv env query) as [records|message];
    intros H; apply wp_try_catch, wp_bind; unfold wp at 1; simpl; apply wp_lift.
  - apply H; [|reflexivity]. unfold advances; simpl. repeat split; auto.
  - apply wp_ret, H; [|reflexivity]. unfold advances; simpl. repeat split; auto.
Qed.


Lemma sustainability_getResearch_spec (env : Env) (query sessionId : string)
    (st : State) (Q : State -> Result (list JsRecord) -> Prop) :
  plain env st sessionId ->
  (forall st', advances [Http "arXiv"] st st' ->
               Q st' (Ok (sustainabilityRecords env query))) ->
  wp (SustainabilityService.getResearch env query sessionId) st Q.
Proof.
  intros P H. unfold sustainabilityRecords in H. cbv zeta in H.
  unfold SustainabilityService.getResearch, SustainabilityService.getResearchWith.
  apply wp_bind, wp_log_plain; [exact P|]. intros st1 A1 P1.
  apply wp_try_catch, wp_bind, searchArXiv_spec. intros st2 A2 S2.
  pose proof (plain_same env sessionId st1 st2 S2 P1) as P2.
  apply wp_bind.
  apply wp_mono with
    (Q := fun st' r => advances [Http "arXiv"] st st'
                       /\ plain env st' sessionId
                       /\ r = Ok (arxivRecords env query)).
  - destruct (0 <? length (arxivRecords env query))%nat eqn:E.
    + apply wp_bind, wp_log_plain; [exact P2|]. intros st3 A3 P3. apply wp_ret.
      split; [adv | split; [exact P3 | reflexivity]].
    + apply wp_ret. split; [adv|]. split; [exact P2|].
      apply Nat.ltb_ge in E.
      destruct (arxivRecords env query); [reflexivity | simpl in E; lia].
  - intros st3 r (A3 & P3 & ->).
    destruct (length (arxivRecords env query) <? 3)%nat.
    + apply wp_try_catch, wp_bind, wp_log_plain; [exact P3|]. intros st4 A4 P4.
      apply wp_bind. unfold SustainabilityService.searchLEED at 1. apply wp_ret.
      simpl. apply wp_bind, wp_log_plain; [exact P4|]. intros st5 A5 _.
      apply wp_ret, H. adv.
    + apply wp_ret, H. adv.
Qed.

(** ** The handler, step by step *)

Ltac live :=
  match goal with
  | H : is_Some (researchStatus ?a !! ?s) |- is_Some (researchStatus ?a !! ?s) =>
      exact H
  | A : advances _ ?a ?b |- is_Some (researchStatus ?b !! ?s) =>
      apply (advances_live _ a b s A); live
  end.

Ltac step :=
  cbv beta iota;
  lazymatch goal with
  | |- wp (ret _) _ _ => apply wp_ret
  | |- wp (bind _ _) _ _ => apply wp_bind
  | |- wp (Session.push _ _ _) _ _ => apply wp_push; [ live | intros ? ? ]
  | |- wp (Session.log _ _ _) _ _ => apply wp_log; [ live | intros ? ? ]
  | |- wp (effect _) _ _ => apply wp_effect; intros ? ?
  | |- wp (SustainabilityService.getResearch _ _ _) _ _ =>
      apply sustainability_getResearch_spec; [ left; live | intros ? ? ]
  | |- wp (LeasingService.getResearch _ _ _) _ _ =>
      apply leasing_getResearch_spec; [ left; live | intros ? ? ]
  | |- wp (MarketService.getResearch _ _ _) _ _ =>
      apply market_getResearch_spec; [ left; live | intros ? ? ]
  | |- wp (FallbackService.getResearch _ _ _) _ _ =>
      apply fallback_getResearch_spec; [ left; live | intros ? ? ]
  end.

Lemma callAdapters_spec (env : Env) (category query sessionId : string)
    (st : State) (Q : State -> Result (list JsEntry) -> Prop) :
  is_Some (researchStatus st !! sessionId) ->
  (forall st', advances (adapterEffects category) st st' ->
               Q st' (Ok (adapterEntries env category query))) ->
  wp (QueryController.callAdapters env category query sessionId) st Q.
Proof.
  intros L H.
  unfold adapterEffects, adapterEntries, runs in H.
  unfold QueryController.callAdapters.
  destruct (String.eqb category "sustainability" || String.eqb category "general");
    destruct (String.eqb category "leasing" || String.eqb category "general");
    destruct (String.eqb category "market" || String.eqb category "general");
    repeat step; apply H; adv.
Qed.

Lemma addDocument_spec (env : Env) (researchResults : list JsEntry)
    (documentContext : option string) (sessionId : string) (st : State)
    (Q : State -> Result (list JsEntry) -> Prop) :
  is_Some (researchStatus st !! sessionId) ->
  (forall st', advances [] st st' ->
     Q st' (Ok (if Js.truthy documentContext
                then researchResults
                     ++ [EItem (Some (QueryController.documentEntry documentContext))]
                else researchResults))) ->
  wp (QueryController.addDocument env researchResults documentContext sessionId) st Q.
Proof.
  intros L H. unfold QueryController.addDocument.
  destruct (Js.truthy documentContext); repeat step; apply H; adv.
Qed.

Lemma began_live (sessionId : string) (st : State) :
  is_Some (researchStatus (began sessionId st) !! sessionId).
Proof. unfold began; simpl. rewrite lookup_insert_eq. eauto. Qed.

(** The first phase of the handler always reaches the synthesis step:
    it hands over the entries of the invoked adapters, followed by the
    document entry when a document context was supplied. *)
Lemma gather_spec (env : Env) (query sessionId : string)
    (documentContext : option string) (st : State)
    (Q : State -> Result (list JsEntry) -> Prop) :
  (forall st',
     advances (adapterEffects (QueryController.categorizeQuery query))
              (began sessionId st) st' ->
     Q st' (Ok (gathered env query documentContext))) ->
  wp (QueryController.gather env query sessionId documentContext) st Q.
Proof.
  intros H. unfold gathered in H. cbv zeta in H. unfold QueryController.gather.
  apply wp_bind. unfold wp at 1. simpl.
  apply wp_bind. unfold wp at 1. simpl.
  fold (began sessionId st).
  pose proof (began_live sessionId st) as L.
  do 5 step.
  apply callAdapters_spec; [live|]. intros st3 A3.
  apply addDocument_spec; [live|]. intros st4 A4.
  apply H. adv.
Qed.

(** ** The synthesis step *)

Lemma filterBoolean_Some (records : list JsRecord) :
  AIService.filterBoolean (map Some records) = records.
Proof. induction records as [|r rs IH]; simpl; congruence. Qed.

Lemma filterBoolean_app (xs ys : list (option JsRecord)) :
  AIService.filterBoolean (xs ++ ys)
  = AIService.filterBoolean xs ++ AIService.filterBoolean ys.
Proof.
  induction xs as [|[r|] xs IH]; simpl; [reflexivity | now rewrite IH | exact IH].
Qed.

Lemma flat_app (xs ys : list JsEntry) :
  AIService.flat (xs ++ ys) = AIService.flat xs ++ AIService.flat ys.
Proof. unfold AIService.flat. apply flat_map_app. Qed.

(** Flattening the entries of the adapters gives their records. *)
Lemma flatten_adapterEntries (env : Env) (category query : string) :
  AIService.filterBoolean (AIService.flat (adapterEntries env category query))
  = adapterRecords env category query.
Proof.
  unfold adapterEntries, adapterRecords.
  rewrite !flat_app, !filterBoolean_app.
  destruct (runs category "sustainability"), (runs category "leasing"),
    (runs category "market"); simpl; rewrite ?app_nil_r, ?filterBoolean_Some;
    reflexivity.
Qed.

(** [processResearch] computes [synthesis]; on its way it appends to
    existing logs and sends at most the provider request. *)
Lemma processResearch_spec (env : Env) (query : string)
    (researchResults : list JsEntry) (documentAnalysis : option string)
    (sessionId : string) (st : State) :
  is_Some (researchStatus st !! sessionId) ->
  wp (AIService.processResearch env query researchResults documentAnalysis sessionId)
     st
     (fun st' r =>
        (exists es, advances es st st')
        /\ r = synthesis env query researchResults documentAnalysis).
Proof.
  intros L. unfold AIService.processResearch, synthesis, completion.
  apply wp_try_catch. do 4 step. cbv zeta.
  destruct (negb (Js.truthy (AIService.getApiKey env
              (default "openai" (Js.or_else (AI_PROVIDER env) (Some "openai")))))).
  { apply wp_throw. do 2 step. apply wp_throw.
    split; [eexists; adv | reflexivity]. }
  do 3 step.
  destruct (String.eqb _ "openai").
  { unfold AIService.callOpenAI. do 2 step. apply wp_lift.
    destruct (openai_completion env _) as [text|message].
    - do 3 step. split; [eexists; adv | reflexivity].
    - do 2 step. apply wp_throw. split; [eexists; adv | reflexivity]. }
  destruct (String.eqb _ "anthropic").
  { unfold AIService.callAnthropic. do 2 step. apply wp_lift.
    destruct (anthropic_completion env _) as [text|message].
    - do 3 step. split; [eexists; adv | reflexivity].
    - do 2 step. apply wp_throw. split; [eexists; adv | reflexivity]. }
  destruct (String.eqb _ "local").
  { do 4 step. split; [eexists; adv | reflexivity]. }
  apply wp_throw. do 2 step. apply wp_throw.
  split; [eexists; adv | reflexivity].
Qed.

(** ** The handler as a whole *)

Lemma assign_lookup (sessionId : string) (flag : bool) (flags : gmap string bool) :
  sessionId <> "__proto__" ->
  Session.assign sessionId flag flags !! sessionId = Some flag.
Proof.
  intros N. unfold Session.assign.
  destruct (String.eqb_spec sessionId "__proto__"); [contradiction|].
  apply lookup_insert_eq.
Qed.

Lemma assign_assign (sessionId : string) (a b : bool) (flags : gmap string bool) :
  Session.assign sessionId a (Session.assign sessionId b flags)
  = Session.assign sessionId a flags.
Proof.
  unfold Session.assign. destruct (String.eqb sessionId "__proto__"); [reflexivity|].
  apply insert_insert_eq.
Qed.

Lemma assign_lookup_ne (sessionId s : string) (flag : bool)
    (flags : gmap string bool) :
  s <> sessionId -> Session.assign sessionId flag flags !! s = flags !! s.
Proof.
  intros N. unfold Session.assign.
  destruct (String.eqb sessionId "__proto__"); [reflexivity|].
  now rewrite lookup_insert_ne by congruence.
Qed.

(** What a validated request does: the adapters of the category are
    invoked, the answer is that of the synthesis step on the gathered
    entries, and the completion flag of the session ends [true] when
    the synthesis succeeds and [false] when it throws. *)
Lemma research_spec (env : Env) (query sessionId : string)
    (documentContext : option string) (st : State) :
  wp (QueryController.research env query sessionId documentContext) st
     (fun st' r =>
        (exists es, effects st'
                    = effects st
                      ++ adapterEffects (QueryController.categorizeQuery query) ++ es)
        /\ (forall s, s <> sessionId ->
                      researchComplete st' !! s = researchComplete st !! s)
        /\ r = synthesis env query (gathered env query documentContext) documentContext
        /\ (sessionId <> "__proto__" ->
            researchComplete st' !! sessionId
            = Some (match r with Ok _ => true | Throw _ => false end))).
Proof.
  unfold QueryController.research.
  step. apply gather_spec. intros st1 A1.
  pose proof (began_live sessionId st) as L.
  do 3 step.
  eapply wp_mono; [apply processResearch_spec; live|].
  intros st3 r [[es A3] ->].
  assert (A : advances (adapterEffects (QueryController.categorizeQuery query) ++ es)
                       (began sessionId st) st3) by adv.
  destruct A as (C & E & _). simpl in C, E.
  destruct (synthesis env query (gathered env query documentContext) documentContext)
    as [aiResponse|message].
  - apply wp_bind. unfold wp, Session.setComplete; simpl.
    repeat split.
    + exists es. exact E.
    + intros s Hs. rewrite assign_lookup_ne by exact Hs.
      rewrite C. now rewrite assign_lookup_ne by exact Hs.
    + intros N. now apply assign_lookup.
  - repeat split.
    + exists es. exact E.
    + intros s Hs. rewrite C. now rewrite assign_lookup_ne by exact Hs.
    + intros N. rewrite C. now apply assign_lookup.
Qed.

Lemma valid_fields (req : QueryController.Request) :
  valid req = true ->
  Js.truthy (QueryController.query req) = true
  /\ Js.truthy (QueryController.sessionId req) = true.
Proof. unfold valid. intros H. now apply andb_true_iff in H. Qed.

(** The answer of the handler to a validated request. *)
Lemma handleResearchQuery_valid (env : Env) (req : QueryController.Request)
    (st : State) :
  valid req = true ->
  let query := default "" (QueryController.query req) in
  let sessionId := default "" (QueryController.sessionId req) in
  let documentContext := QueryController.documentContext req in
  let st' := fst (QueryController.handleResearchQuery env req st) in
  let res := snd (QueryController.handleResearchQuery env req st) in
  match synthesis env query (gathered env query documentContext) documentContext with
  | Ok aiResponse =>
      res = QueryController.mkResponse 200 (QueryController.ResearchBody aiResponse)
      /\ (sessionId <> "__proto__" -> researchComplete st' !! sessionId = Some true)
  | Throw message =>
      res = QueryController.mkResponse 500
              (QueryController.FailureBody "Error processing query" message)
      /\ (sessionId <> "__proto__" -> researchComplete st' !! sessionId = Some false)
  end.
Proof.
  intros V. destruct (valid_fields req V) as [Vq Vs].
  cbv zeta. unfold QueryController.handleResearchQuery. rewrite Vq, Vs. simpl negb.
  cbv iota.
  pose proof (research_spec env (default "" (QueryController.query req))
                (default "" (QueryController.sessionId req))
                (QueryController.documentContext req) st) as H.
  unfold wp in H.
  destruct (QueryController.research env _ _ _ st) as [st' r]. simpl in H.
  destruct H as (_ & _ & -> & Hc).
  destruct (synthesis env _ _ _); simpl; auto.
Qed.

(** ** Validation *)

(** C5: a request whose query or session identifier is missing is
    answered at once with status 400; the two session maps are left as
    they were, so no session entry is created or reset, and the trace
    of effects is unchanged, so no adapter is invoked and no request is
    sent. *)
Theorem invalid_request_rejected (env : Env) (req : QueryController.Request)
    (st : State) :
  valid req = false ->
  let st' := fst (QueryController.handleResearchQuery env req st) in
  let res := snd (QueryController.handleResearchQuery env req st) in
  QueryController.status res = 400%nat
  /\ (QueryController.body res = QueryController.MessageBody "Query is required"
      \/ QueryController.body res = QueryController.ErrorBody "Session ID is required")
  /\ researchStatus st' = researchStatus st
  /\ researchComplete st' = researchComplete st
  /\ effects st' = effects st.
Proof.
  unfold valid, QueryController.handleResearchQuery. intros V.
  destruct (Js.truthy (QueryController.query req)); simpl in *.
  - rewrite V. simpl. repeat split; auto.
  - repeat split; auto.
Qed.

Lemma invalid_request_rejected_witness :
  let req := QueryController.mkRequest (Some "office vacancy") None None in
  let out := QueryController.handleResearchQuery offlineEnv req freshState in
  QueryController.status (snd out) = 400%nat
  /\ researchStatus (fst out) = ∅
  /\ researchComplete (fst out) = ∅
  /\ effects (fst out) = [].
Proof.
  intros req out.
  destruct (invalid_request_rejected offlineEnv req freshState eq_refl)
    as (H1 & _ & H2 & H3 & H4).
  repeat split; assumption.
Defined.

(** ** Completion *)

Lemma complete_own (st : State) (sessionId : string) (b : bool) :
  sessionId <> "__proto__" ->
  researchComplete st !! sessionId = Some b ->
  Session.complete st sessionId = Session.Flag b.
Proof.
  intros N H. unfold Session.complete, Session.flag. cbv zeta.
  destruct (String.eqb_spec sessionId "__proto__"); [contradiction|].
  rewrite H. now destruct b.
Qed.

(** C4 as stated fails: validation touches nothing, so a request that
    it rejects on a session that had completed leaves the flag of that
    session [true]. *)
Lemma rejected_keeps_flag :
  let served := QueryController.mkRequest (Some "office vacancy") (Some "s1") None in
  let rejected := QueryController.mkRequest None (Some "s1") None in
  ~ leftFalse offlineEnv rejected
      (fst (QueryController.handleResearchQuery offlineEnv served freshState)).
Proof.
  intros served rejected H. specialize (H eq_refl).
  vm_compute in H. discriminate H.
Qed.

(** C4, amended: when a validated request reaches the completion step,
    that is when the synthesis step returns and the handler answers
    200, the completion flag of its session is [true] in the final
    state, for every session identifier other than [__proto__]; a
    request rejected by validation leaves the state as it was: every
    session reports the flag it reported before and the session maps
    have the entries they had. *)
Theorem completion_flag (env : Env) (req : QueryController.Request) (st : State) :
  let query := default "" (QueryController.query req) in
  let sessionId := default "" (QueryController.sessionId req) in
  let documentContext := QueryController.documentContext req in
  let st' := fst (QueryController.handleResearchQuery env req st) in
  let res := snd (QueryController.handleResearchQuery env req st) in
  (valid req = true ->
   (QueryController.status res = 200%nat
    <-> exists aiResponse,
          synthesis env query (gathered env query documentContext) documentContext
          = Ok aiResponse)
   /\ (sessionId <> "__proto__" ->
       QueryController.status res = 200%nat ->
       Session.complete st' sessionId = Session.Flag true))
  /\ (valid req = false ->
      st' = st
      /\ (forall s, Session.complete st' s = Session.complete st s)
      /\ (forall s, researchStatus st' !! s = researchStatus st !! s)
      /\ (forall s, researchComplete st' !! s = researchComplete st !! s)).
Proof.
  cbv zeta. split; intros V.
  - pose proof (handleResearchQuery_valid env req st V) as H. cbv zeta in H.
    destruct (synthesis env _ _ _) as [aiResponse|message];
      destruct H as [-> Hc]; simpl.
    + split; [split; eauto|]. intros N _. now apply complete_own; [|apply Hc].
    + split; [split; [discriminate | intros [a Ha]; discriminate]|]. discriminate.
  - assert (E : fst (QueryController.handleResearchQuery env req st) = st).
    { unfold valid in V. unfold QueryController.handleResearchQuery.
      destruct (Js.truthy (QueryController.query req)); simpl in *;
        [rewrite V|]; reflexivity. }
    rewrite E. auto.
Qed.

Lemma completion_flag_witness :
  let served := QueryController.mkRequest (Some "office vacancy") (Some "s1") None in
  let rejected := QueryController.mkRequest None (Some "s2") None in
  let st1 := fst (QueryController.handleResearchQuery offlineEnv served freshState) in
  let st2 := fst (QueryController.handleResearchQuery offlineEnv rejected freshState) in
  Session.complete st1 "s1" = Session.Flag true
  /\ Session.complete st2 "s2" = Session.Flag false
  /\ researchStatus st2 !! "s2" = None.
Proof.
  intros served rejected st1 st2.
  destruct (completion_flag offlineEnv served freshState) as [[_ H1] _];
    [reflexivity|].
  destruct (completion_flag offlineEnv rejected freshState) as [_ (_ & H2 & H3 & _)];
    [reflexivity|].
  split; [apply H1; [discriminate | vm_compute; reflexivity]|].
  split; [rewrite H2; reflexivity | rewrite H3; reflexivity].
Defined.

(** A validated request whose synthesis throws is answered 500 and its
    session is left incomplete. *)
Lemma failed_synthesis_incomplete (env : Env) (req : QueryController.Request)
    (st : State) (message : string) :
  valid req = true ->
  default "" (QueryController.sessionId req) <> "__proto__" ->
  synthesis env (default "" (QueryController.query req))
    (gathered env (default "" (QueryController.query req))
       (QueryController.documentContext req))
    (QueryController.documentContext req) = Throw message ->
  QueryController.status (snd (QueryController.handleResearchQuery env req st))
  = 500%nat
  /\ Session.complete (fst (QueryController.handleResearchQuery env req st))
       (default "" (QueryController.sessionId req)) = Session.Flag false.
Proof.
  intros V N E. pose proof (handleResearchQuery_valid env req st V) as H.
  cbv zeta in H. rewrite E in H. destruct H as [-> Hc]. simpl.
  split; [reflexivity|]. apply complete_own; [exact N | apply Hc, N].
Qed.

(** ** Citations *)

Lemma wp_any {A} (m : M A) (st : State) (Q : State -> Result A -> Prop) :
  (forall st' r, Q st' r) -> wp m st Q.
Proof. intros H. apply H. Qed.

(** Whatever the session maps hold, a response of [processResearch]
    carries the citations of the flattened records. *)
Lemma processResearch_citations (env : Env) (query : string)
    (researchResults : list JsEntry) (documentAnalysis : option string)
    (sessionId : string) (st : State) :
  wp (AIService.processResearch env query researchResults documentAnalysis sessionId)
     st
     (fun _ r =>
        forall aiResponse,
          r = Ok aiResponse ->
          citations aiResponse
          = map AIService.citationOf
              (AIService.filterBoolean (AIService.flat researchResults))).
Proof.
  assert (T : forall (m : M unit) (message : string) (st1 : State),
             wp (bind m (fun _ => throw message)) st1
                (fun _ (r : Result SynthesizedResponse) =>
                   forall aiResponse,
                     r = Ok aiResponse ->
                     citations aiResponse
                     = map AIService.citationOf
                         (AIService.filterBoolean (AIService.flat researchResults)))).
  { intros m message st1. apply wp_bind, wp_any. intros st2 [[]|m2].
    - apply wp_throw. discriminate.
    - discriminate. }
  unfold AIService.processResearch.
  apply wp_try_catch, wp_bind, wp_any. intros st1 [[]|m1]; [|apply T].
  apply wp_bind, wp_any. intros st2 [[]|m2]; [|apply T].
  cbv zeta.
  destruct (negb (Js.truthy _)); [apply wp_throw, T|].
  apply wp_bind, wp_any. intros st3 [[]|m3]; [|apply T].
  apply wp_bind, wp_any. intros st4 [response|m4]; [|apply T].
  apply wp_bind, wp_any. intros st5 [[]|m5]; [|apply T].
  apply wp_ret. intros aiResponse [= <-]. reflexivity.
Qed.

(** C6: the citations of a synthesized response are the projections
    [{title, authors, source, link, date}] of the records handed to the
    synthesis step, one per record, at the position of the record: the
    citation at an index has the title, the authors, the source, the
    link and the date of the record at that index. *)
Theorem citations_positional (env : Env) (query : string)
    (researchResults : list JsEntry) (documentAnalysis : option string)
    (sessionId : string) (st st' : State) (aiResponse : SynthesizedResponse) :
  AIService.processResearch env query researchResults documentAnalysis sessionId st
  = (st', Ok aiResponse) ->
  let records := AIService.filterBoolean (AIService.flat researchResults) in
  citations aiResponse = map AIService.citationOf records
  /\ length (citations aiResponse) = length records
  /\ (forall i, citations aiResponse !! i = AIService.citationOf <$> records !! i)
  /\ (forall i record,
        records !! i = Some record ->
        exists citation,
          citations aiResponse !! i = Some citation
          /\ cite_title citation = title record
          /\ cite_authors citation = authors record
          /\ cite_source citation = source record
          /\ cite_link citation = link record
          /\ cite_date citation = date record).
Proof.
  intros E records.
  pose proof (wp_run _ _ _ (processResearch_citations env query researchResults
                              documentAnalysis sessionId st) _ _ E _ eq_refl) as H.
  fold records in H. rewrite H.
  split; [reflexivity|]. split; [apply length_map|].
  split; [intros i; apply list_lookup_fmap|].
  intros i record R. exists (AIService.citationOf record).
  rewrite list_lookup_fmap, R. repeat split.
Qed.

Lemma citations_positional_witness :
  let a := LeasingService.sampleRecord offlineEnv "rent" in
  let b := FallbackService.sampleRecord offlineEnv "rent" in
  let out := AIService.processResearch offlineEnv "rent"
               [EArray [Some a; None]; EArray [Some b]] None "s1" freshState in
  exists aiResponse,
    snd out = Ok aiResponse
    /\ citations aiResponse = [AIService.citationOf a; AIService.citationOf b]
    /\ exists citation,
         citations aiResponse !! 1%nat = Some citation
         /\ cite_title citation = Some "General Information"
         /\ cite_authors citation = Some "Research Team"
         /\ cite_source citation = Some "General Database"
         /\ cite_link citation = Some "https://example.com/general"
         /\ cite_date citation = Some "5/1/2024".
Proof.
  intros a b out.
  destruct out as [st' [aiResponse|message]] eqn:E; [|vm_compute in E; discriminate].
  exists aiResponse. split; [reflexivity|].
  destruct (citations_positional offlineEnv "rent" _ None "s1" freshState
              st' aiResponse E) as (H1 & _ & _ & H4).
  split; [exact H1|]. exact (H4 1%nat b eq_refl).
Defined.

(** ** Document context *)

Lemma flatten_gathered (env : Env) (query : string) (documentContext : option string) :
  AIService.filterBoolean (AIService.flat (gathered env query documentContext))
  = adapterRecords env (QueryController.categorizeQuery query) query
    ++ (if Js.truthy documentContext
        then [QueryController.documentEntry documentContext] else []).
Proof.
  unfold gathered. cbv zeta. destruct (Js.truthy documentContext).
  - rewrite flat_app, filterBoolean_app, flatten_adapterEntries. reflexivity.
  - now rewrite flatten_adapterEntries, app_nil_r.
Qed.

(** The first phase of the handler returns [gathered] from any state. *)
Lemma gather_run (env : Env) (query sessionId : string)
    (documentContext : option string) (st : State) :
  snd (QueryController.gather env query sessionId documentContext st)
  = Ok (gathered env query documentContext).
Proof.
  apply (gather_spec env query sessionId documentContext st
           (fun _ r => r = Ok (gathered env query documentContext))).
  reflexivity.
Qed.

(** C2, as stated, fails on a request with a document context: the
    answer carries five citations for four adapter records, the last
    with source [Document Analysis]. *)
Lemma document_entry_cited :
  ~ citesAdaptersOnly offlineEnv
      (QueryController.mkRequest (Some "hello") (Some "s1")
         (Some "Summary of the uploaded lease"))
      freshState.
Proof.
  unfold citesAdaptersOnly. intros H.
  destruct (QueryController.handleResearchQuery offlineEnv
              (QueryController.mkRequest (Some "hello") (Some "s1")
                 (Some "Summary of the uploaded lease")) freshState)
    as [st' res] eqn:E.
  vm_compute in E. injection E as _ <-.
  specialize (H _ _ eq_refl). destruct H as [H _].
  vm_compute in H. discriminate H.
Qed.

(** C2, amended: for a validated request with a document context, the
    records handed to the synthesis step are the adapter records
    followed by one [Document Analysis] entry, and a successful answer
    cites every one of them in that order: the citations of the adapter
    records, then one citation for the document entry, which has the
    source [Document Analysis] and no title, authors, link or date; so
    there is one citation more than adapter records. *)
Theorem document_entry_last (env : Env) (req : QueryController.Request)
    (st : State) (aiResponse : SynthesizedResponse) :
  valid req = true ->
  Js.truthy (QueryController.documentContext req) = true ->
  snd (QueryController.handleResearchQuery env req st)
  = QueryController.mkResponse 200 (QueryController.ResearchBody aiResponse) ->
  let query := default "" (QueryController.query req) in
  let sessionId := default "" (QueryController.sessionId req) in
  let documentContext := QueryController.documentContext req in
  let records := adapterRecords env (QueryController.categorizeQuery query) query in
  exists researchResults,
    snd (QueryController.gather env query sessionId documentContext st)
    = Ok researchResults
    /\ AIService.filterBoolean (AIService.flat researchResults)
       = records ++ [QueryController.documentEntry documentContext]
    /\ citations aiResponse
       = map AIService.citationOf records
         ++ [ mkCitation None None (Some "Document Analysis") None None ]
    /\ length (citations aiResponse) = S (length records).
Proof.
  intros V D E. cbv zeta.
  exists (gathered env (default "" (QueryController.query req))
            (QueryController.documentContext req)).
  split; [apply gather_run|].
  pose proof (flatten_gathered env (default "" (QueryController.query req))
                (QueryController.documentContext req)) as F.
  rewrite D in F. split; [exact F|].
  pose proof (handleResearchQuery_valid env req st V) as H. cbv zeta in H.
  unfold synthesis in H. rewrite F in H.
  destruct (completion env _) as [text|message]; destruct H as [H _];
    rewrite H in E; [|discriminate].
  injection E as <-. simpl.
  rewrite map_app. simpl. split; [reflexivity|].
  rewrite length_app, length_map. simpl. lia.
Qed.

Lemma document_entry_last_witness :
  let req := QueryController.mkRequest (Some "hello") (Some "s1")
               (Some "Summary of the uploaded lease") in
  exists aiResponse,
    snd (QueryController.handleResearchQuery offlineEnv req freshState)
    = QueryController.mkResponse 200 (QueryController.ResearchBody aiResponse)
    /\ length (citations aiResponse) = 5%nat
    /\ last (citations aiResponse)
       = Some (mkCitation None None (Some "Document Analysis") None None).
Proof.
  intros req.
  destruct (snd (QueryController.handleResearchQuery offlineEnv req freshState))
    as [code [m|e|m e|aiResponse]] eqn:E; try (vm_compute in E; discriminate).
  assert (C : code = 200%nat) by (vm_compute in E; congruence). subst code.
  exists aiResponse. split; [reflexivity|].
  destruct (document_entry_last offlineEnv req freshState aiResponse
              eq_refl eq_refl E) as (rr & _ & _ & Hc & Hl).
  split; [exact Hl|]. rewrite Hc. reflexivity.
Defined.

(** ** The sample adapters *)

Lemma prefix_refl (s : string) : String.prefix s s = true.
Proof.
  induction s as [|c s IH]; simpl; [reflexivity|].
  destruct (ascii_dec c c); [exact IH | contradiction].
Qed.

Lemma includes_unfold (c : ascii) (s sub : string) :
  Js.includes (String c s) sub
  = if String.prefix sub (String c s) then true else Js.includes s sub.
Proof. reflexivity. Qed.

Lemma includes_refl (s : string) : Js.includes s s = true.
Proof.
  destruct s as [|c s]; [reflexivity|].
  now rewrite includes_unfold, prefix_refl.
Qed.

(** A string that ends with [s] includes [s]. *)
Lemma includes_suffix (p s : string) : Js.includes (p +:+ s) s = true.
Proof.
  induction p as [|c p IH].
  - apply includes_refl.
  - change (String c p +:+ s) with (String c (p +:+ s)).
    rewrite includes_unfold, IH.
    now destruct (String.prefix s (String c (p +:+ s))).
Qed.

Lemma sustainabilityRecords_length (env : Env) (query : string) :
  (1 <= length (sustainabilityRecords env query))%nat
  /\ (arxivRecords env query = []
      -> sustainabilityRecords env query = [SustainabilityService.leedRecord env]).
Proof.
  unfold sustainabilityRecords. cbv zeta. split.
  - destruct (Nat.ltb_spec (length (arxivRecords env query)) 3).
    + rewrite length_app. simpl. lia.
    + lia.
  - intros ->. reflexivity.
Qed.

(** C7, as stated, fails when arXiv answers: with one paper found, a
    general query without document context hands five records to the
    synthesis step. *)
Lemma five_records_with_one_paper :
  ~ fourRecords onePaperEnv "hello" "s1" freshState.
Proof.
  unfold fourRecords. intros H.
  destruct (QueryController.gather onePaperEnv "hello" "s1" None freshState)
    as [st' r] eqn:E.
  pose proof (gather_run onePaperEnv "hello" "s1" None freshState) as R.
  rewrite E in R. simpl in R. subst r.
  specialize (H _ _ eq_refl). clear E. vm_compute in H. discriminate H.
Qed.

(** The identifiers the adapters are called with are plain: the one of
    a session that has begun, and, while the session map has its first
    prototype, every identifier that the prototype does not define. *)
Lemma plain_cases (env : Env) (st : State) (sessionId : string) :
  plain env (began sessionId st) sessionId
  /\ (researchStatus st !! "__proto__" = None ->
      sessionId <> "__proto__" ->
      Session.inherited sessionId = false ->
      plain env st sessionId).
Proof.
  split.
  - left. unfold began; simpl. rewrite lookup_insert_eq. eauto.
  - intros P N I. unfold plain, Session.status.
    destruct (researchStatus st !! sessionId) as [log|]; [left; eauto | right].
    destruct (String.eqb_spec sessionId "__proto__"); [contradiction|].
    now rewrite P, I.
Qed.

(** C7, amended: called with a plain session identifier, as the handler
    does, the Leasing, Market and Fallback adapters send no request and
    return exactly one sample record whose summary ends with the query;
    a general query without document context hands to the synthesis
    step the records of the sustainability adapter, of which there is
    at least one, followed by these three records: at least four
    records, and exactly four when the arXiv search yields no record. *)
Theorem sample_adapters (env : Env) (query sessionId : string) (st : State) :
  (plain env st sessionId ->
   (snd (LeasingService.getResearch env query sessionId st)
    = Ok [LeasingService.sampleRecord env query]
    /\ effects (fst (LeasingService.getResearch env query sessionId st)) = effects st
    /\ summary (LeasingService.sampleRecord env query)
       = Some ("Sample leasing data for the query: " +:+ query)
    /\ Js.includes ("Sample leasing data for the query: " +:+ query) query = true)
   /\ (snd (MarketService.getResearch env query sessionId st)
       = Ok [MarketService.sampleRecord env query]
       /\ effects (fst (MarketService.getResearch env query sessionId st)) = effects st
       /\ summary (MarketService.sampleRecord env query)
          = Some ("Sample market data for the query: " +:+ query)
       /\ Js.includes ("Sample market data for the query: " +:+ query) query = true)
   /\ (snd (FallbackService.getResearch env query sessionId st)
       = Ok [FallbackService.sampleRecord env query]
       /\ effects (fst (FallbackService.getResearch env query sessionId st))
          = effects st
       /\ summary (FallbackService.sampleRecord env query)
          = Some ("Sample fallback data for the query: " +:+ query)
       /\ Js.includes ("Sample fallback data for the query: " +:+ query) query
          = true))
  /\ plain env (began sessionId st) sessionId
  /\ (QueryController.categorizeQuery query = "general" ->
      exists researchResults,
        snd (QueryController.gather env query sessionId None st) = Ok researchResults
        /\ AIService.filterBoolean (AIService.flat researchResults)
           = sustainabilityRecords env query
             ++ [ LeasingService.sampleRecord env query;
                  MarketService.sampleRecord env query;
                  FallbackService.sampleRecord env query ]
        /\ (4 <= length (AIService.filterBoolean (AIService.flat researchResults)))%nat
        /\ (arxivRecords env query = [] ->
            length (AIService.filterBoolean (AIService.flat researchResults)) = 4%nat)).
Proof.
  assert (R : forall st' : State, advances [] st st' -> effects st' = effects st).
  { intros st' (_ & E & _). now rewrite app_nil_r in E. }
  split; [|split; [exact (proj1 (plain_cases env st sessionId))|]].
  - intros P. split; [|split].
    + split; [|split; [|split]].
      * apply (leasing_getResearch_spec env query sessionId st (fun _ r => r = _) P).
        auto.
      * apply (leasing_getResearch_spec env query sessionId st
                 (fun st' _ => effects st' = _) P). auto.
      * reflexivity.
      * apply includes_suffix.
    + split; [|split; [|split]].
      * apply (market_getResearch_spec env query sessionId st (fun _ r => r = _) P).
        auto.
      * apply (market_getResearch_spec env query sessionId st
                 (fun st' _ => effects st' = _) P). auto.
      * reflexivity.
      * apply includes_suffix.
    + split; [|split; [|split]].
      * apply (fallback_getResearch_spec env query sessionId st (fun _ r => r = _) P).
        auto.
      * apply (fallback_getResearch_spec env query sessionId st
                 (fun st' _ => effects st' = _) P). auto.
      * reflexivity.
      * apply includes_suffix.
  - intros G. exists (gathered env query None).
    split; [apply gather_run|].
    rewrite flatten_gathered. unfold adapterRecords, runs. rewrite G.
    change (Js.truthy None) with false. cbv iota. rewrite app_nil_r.
    change (String.eqb "general" "sustainability" || String.eqb "general" "general")
      with true.
    change (String.eqb "general" "leasing" || String.eqb "general" "general")
      with true.
    change (String.eqb "general" "market" || String.eqb "general" "general")
      with true.
    cbv iota.
    destruct (sustainabilityRecords_length env query) as [L1 L4].
    split; [reflexivity|]. rewrite !length_app. cbn [length Nat.add].
    split; [lia|]. intros A. now rewrite (L4 A).
Qed.

Lemma sample_adapters_witness :
  snd (LeasingService.getResearch offlineEnv "hello" "s1" freshState)
  = Ok [LeasingService.sampleRecord offlineEnv "hello"]
  /\ exists researchResults,
       snd (QueryController.gather offlineEnv "hello" "s1" None freshState)
       = Ok researchResults
       /\ length (AIService.filterBoolean (AIService.flat researchResults)) = 4%nat.
Proof.
  destruct (sample_adapters offlineEnv "hello" "s1" freshState)
    as (A & _ & H).
  assert (P : plain offlineEnv freshState "s1") by (right; reflexivity).
  destruct (A P) as ((L & _) & _).
  split; [exact L|].
  destruct (H eq_refl) as (rr & H1 & _ & _ & H4).
  exists rr. split; [exact H1 | apply H4; reflexivity].
Defined.

(** ** Adapters never raise *)




(** ** News feeds *)

Section NewsSort.

Import RSSFeedService.

Lemma insertByScore_perm (x : Scored) (l : list Scored) :
  insertByScore x l ≡ₚ x :: l.
Proof.
  induction l as [|y l IH]; simpl; [reflexivity|].
  destruct (snd y <? snd x)%nat; [reflexivity|].
  rewrite IH. apply Permutation_swap.
Qed.

Lemma insertByScore_sorted (x : Scored) (l : list Scored) :
  StronglySorted byScore l -> StronglySorted byScore (insertByScore x l).
Proof.
  induction l as [|y l IH]; simpl; intros S.
  - repeat constructor.
  - apply StronglySorted_cons in S as [Hy Sl].
    destruct (Nat.ltb_spec (snd y) (snd x)) as [Lt|Ge].
    + apply StronglySorted_cons. split.
      * constructor; [unfold byScore; lia|].
        eapply Forall_impl; [exact Hy|]. unfold byScore. intros z Hz. lia.
      * apply StronglySorted_cons. auto.
    + apply StronglySorted_cons. split; [|auto].
      rewrite insertByScore_perm. constructor; [exact Ge | exact Hy].
Qed.

Lemma sortByScore_acc (l acc : list Scored) :
  StronglySorted byScore acc ->
  StronglySorted byScore (fold_left (fun sorted x => insertByScore x sorted) l acc)
  /\ fold_left (fun sorted x => insertByScore x sorted) l acc ≡ₚ acc ++ l.
Proof.
  revert acc. induction l as [|x l IH]; simpl; intros acc S.
  - split; [exact S | now rewrite app_nil_r].
  - destruct (IH (insertByScore x acc) (insertByScore_sorted x acc S)) as [S' P'].
    split; [exact S'|].
    rewrite P', insertByScore_perm. simpl. apply Permutation_middle.
Qed.


Lemma sortByScore_perm (l : list Scored) : sortByScore l ≡ₚ l.
Proof. apply (sortByScore_acc l []). constructor. Qed.

(** The sort is stable: an item goes behind the items of equal score
    that come before it. *)
Lemma insertByScore_behind (x : Scored) (l : list Scored) :
  Forall (fun y => snd x <= snd y)%nat l -> insertByScore x l = l ++ [x].
Proof.
  induction 1 as [|y l Hy _ IH]; simpl; [reflexivity|].
  destruct (Nat.ltb_spec (snd y) (snd x)); [lia | now rewrite IH].
Qed.

(** The relevance score: the number of query terms found in the text,
    and two more when the text names the domain. *)
Lemma scoreRelevance_count (queryTerms : list string) (t d : string) :
  let text := Js.toLowerCase (t +:+ " " +:+ d) in
  scoreRelevance queryTerms t d
  = (length (List.filter (Js.includes text) queryTerms)
     + (if Js.includes text "commercial real estate" || Js.includes text "cre"
        then 2 else 0))%nat.
Proof.
  intros text. unfold scoreRelevance. fold text.
  assert (F : forall l n,
             fold_left (fun score term =>
                          if Js.includes text term then (score + 1)%nat else score) l n
             = (n + length (List.filter (Js.includes text) l))%nat).
  { induction l as [|k l IH]; intros n; simpl; [lia|].
    rewrite IH. destruct (Js.includes text k); simpl; lia. }
  rewrite F. destruct (_ || _); lia.
Qed.


Lemma feedContribution_length (env : Env) (query : string) (feed : FeedSource) :
  (length (feedContribution env query feed) <= 2)%nat.
Proof.
  unfold feedContribution.
  destruct (rss_feed env _) as [items|message]; simpl; [|lia].
  rewrite length_map. unfold topItems. rewrite length_take. lia.
Qed.

End NewsSort.



(** The whole search returns at most two records for each of its three
    feeds. *)
Lemma newsRecords_length (env : Env) (query : string) :
  (length (newsRecords env query) <= 6)%nat.
Proof.
  unfold newsRecords, RSSFeedService.feedSources. simpl.
  rewrite !length_app. simpl.
  pose proof (feedContribution_length env query) as H.
  repeat match goal with
         | |- context [length (RSSFeedService.feedContribution env query ?f)] =>
             let L := fresh "L" in
             pose proof (H f) as L;
             generalize dependent (length (RSSFeedService.feedContribution env query f));
             intros
         end.
  lia.
Qed.

(** The news search never throws: it sends one request to each feed, in
    order, and returns what the feeds contribute. *)
Lemma searchFeeds_run (env : Env) (query : string)
    (feeds : list RSSFeedService.FeedSource) (results : list JsRecord) (st : State) :
  RSSFeedService.searchFeeds env query feeds results st
  = (mkState (researchStatus st) (researchComplete st)
             (effects st
              ++ map (fun feed => Http (RSSFeedService.feed_source feed)) feeds),
     Ok (results ++ flat_map (RSSFeedService.feedContribution env query) feeds)).
Proof.
  revert results st. induction feeds as [|feed feeds IH]; intros results st.
  - simpl. rewrite !app_nil_r. now destruct st.
  - simpl RSSFeedService.searchFeeds. unfold bind at 1, effect at 1.
    rewrite IH. simpl. now rewrite <- !app_assoc.
Qed.

Lemma searchNews_run (env : Env) (query : string) (st : State) :
  RSSFeedService.searchNews env query st
  = (mkState (researchStatus st) (researchComplete st) (effects st ++ newsRequests),
     Ok (newsRecords env query)).
Proof.
  unfold RSSFeedService.searchNews, try_catch. now rewrite searchFeeds_run.
Qed.

(** ** Economic indicators *)

Section NumberOrder.

Import FREDService.







End NumberOrder.







(** * Further properties of the code *)

(** ** The exact log of a request *)

Lemma logs_refl (sessionId : string) (st : State) :
  is_Some (researchStatus st !! sessionId) -> logs sessionId [] [] st st.
Proof.
  intros [log H]. exists log. rewrite !app_nil_r.
  repeat split; auto. symmetry. now apply insert_id.
Qed.

Lemma logs_trans (sessionId : string) (evs1 evs2 : list Event)
    (es1 es2 : list Effect) (st1 st2 st3 : State) :
  logs sessionId evs1 es1 st1 st2 -> logs sessionId evs2 es2 st2 st3 ->
  logs sessionId (evs1 ++ evs2) (es1 ++ es2) st1 st3.
Proof.
  intros (l1 & L1 & S1 & C1 & E1) (l2 & L2 & S2 & C2 & E2).
  rewrite S1, lookup_insert_eq in L2. injection L2 as <-.
  exists l1. repeat split; auto.
  - rewrite S2, S1, insert_insert_eq, app_assoc. reflexivity.
  - congruence.
  - rewrite E2, E1, app_assoc. reflexivity.
Qed.

Lemma logs_live (sessionId : string) (evs : list Event) (es : list Effect)
    (st st' : State) :
  logs sessionId evs es st st' -> is_Some (researchStatus st' !! sessionId).
Proof. intros (l & _ & S & _). rewrite S, lookup_insert_eq. eauto. Qed.

Lemma logs_eq (sessionId : string) (evs evs' : list Event) (es es' : list Effect)
    (st st' : State) :
  logs sessionId evs' es' st st' -> evs' = evs -> es' = es ->
  logs sessionId evs es st st'.
Proof. now intros H <- <-. Qed.

Lemma wp_push_logs (env : Env) (sessionId : string) (ev : Event) (st : State)
    (Q : State -> Result unit -> Prop) :
  is_Some (researchStatus st !! sessionId) ->
  (forall st', logs sessionId [ev] [] st st' -> Q st' (Ok tt)) ->
  wp (Session.push env sessionId ev) st Q.
Proof.
  intros [log Hl] H. unfold wp. rewrite (push_live _ _ _ _ _ Hl); simpl.
  apply H. exists log. simpl. rewrite app_nil_r. auto.
Qed.

Lemma wp_log_logs (env : Env) (sessionId : string) (ev : Event) (st : State)
    (Q : State -> Result unit -> Prop) :
  Js.truthy (Some sessionId) = true ->
  is_Some (researchStatus st !! sessionId) ->
  (forall st', logs sessionId [ev] [] st st' -> Q st' (Ok tt)) ->
  wp (Session.log env sessionId ev) st Q.
Proof.
  intros T [log Hl] H. unfold wp.
  rewrite (log_live _ _ _ _ _ T Hl), (push_live _ _ _ _ _ Hl); simpl.
  apply H. exists log. simpl. rewrite app_nil_r. auto.
Qed.

Lemma wp_effect_logs (sessionId : string) (e : Effect) (st : State)
    (Q : State -> Result unit -> Prop) :
  is_Some (researchStatus st !! sessionId) ->
  (forall st', logs sessionId [] [e] st st' -> Q st' (Ok tt)) ->
  wp (effect e) st Q.
Proof.
  intros [log Hl] H. unfold wp, effect; simpl. apply H.
  exists log. simpl. rewrite app_nil_r. repeat split; auto.
  symmetry. now apply insert_id.
Qed.

Ltac llive :=
  match goal with
  | H : logs ?s _ _ _ ?b |- is_Some (researchStatus ?b !! ?s) =>
      exact (logs_live _ _ _ _ _ H)
  | H : is_Some (researchStatus ?a !! ?s) |- is_Some (researchStatus ?a !! ?s) =>
      exact H
  end.

Ltac lg_chain :=
  match goal with
  | H : logs _ _ _ ?a ?b |- logs _ _ _ ?a ?b => exact H
  | H : logs _ _ _ ?b ?c |- logs _ _ _ ?a ?c =>
      refine (logs_trans _ _ _ _ _ a b c _ H); lg_chain
  | |- logs _ _ _ ?a ?a => apply logs_refl; llive
  end.

Ltac norm_app :=
  repeat first [ rewrite <- app_assoc | rewrite app_nil_r | progress simpl ].

Ltac lg :=
  match goal with
  | |- logs ?s ?evs ?es ?a ?c =>
      let H := fresh in
      eassert (H : logs s _ _ a c) by lg_chain;
      refine (logs_eq s evs _ es _ a c H _ _); norm_app; reflexivity
  end.

Ltac lstep :=
  cbv beta iota;
  lazymatch goal with
  | |- wp (ret _) _ _ => apply wp_ret
  | |- wp (throw _) _ _ => apply wp_throw
  | |- wp (bind _ _) _ _ => apply wp_bind
  | |- wp (try_catch _ _) _ _ => apply wp_try_catch
  | |- wp (Session.push _ _ _) _ _ => apply wp_push_logs; [ llive | intros ? ? ]
  | |- wp (Session.log _ ?s _) _ _ =>
      apply wp_log_logs; [ assumption | llive | intros ? ? ]
  | |- wp (effect _) _ _ =>
      match goal with
      | T : Js.truthy (Some ?s) = true |- _ =>
          apply (wp_effect_logs s); [ llive | intros ? ? ]
      end
  end.

Section LoggedCalls.

Variable env : Env.
Variables query sessionId : string.
Hypothesis T : Js.truthy (Some sessionId) = true.

Lemma leasing_getResearch_logs (st : State)
    (Q : State -> Result (list JsRecord) -> Prop) :
  is_Some (researchStatus st !! sessionId) ->
  (forall st',
     logs sessionId
       [event env "Searching for leasing market information" (Some "Leasing Service")]
       [] st st' ->
     Q st' (Ok [LeasingService.sampleRecord env query])) ->
  wp (LeasingService.getResearch env query sessionId) st Q.
Proof.
  intros L H. unfold LeasingService.getResearch. do 4 lstep. apply H. lg.
Qed.

Lemma market_getResearch_logs (st : State)
    (Q : State -> Result (list JsRecord) -> Prop) :
  is_Some (researchStatus st !! sessionId) ->
  (forall st',
     logs sessionId
       [event env "Analyzing market trend information" (Some "Market Service")]
       [] st st' ->
     Q st' (Ok [MarketService.sampleRecord env query])) ->
  wp (MarketService.getResearch env query sessionId) st Q.
Proof.
  intros L H. unfold MarketService.getResearch. do 4 lstep. apply H. lg.
Qed.

Lemma fallback_getResearch_logs (st : State)
    (Q : State -> Result (list JsRecord) -> Prop) :
  is_Some (researchStatus st !! sessionId) ->
  (forall st',
     logs sessionId
       [event env "Searching general knowledge sources" (Some "Fallback Service")]
       [] st st' ->
     Q st' (Ok [FallbackService.sampleRecord env query])) ->
  wp (FallbackService.getResearch env query sessionId) st Q.
Proof.
  intros L H. unfold FallbackService.getResearch. do 4 lstep. apply H. lg.
Qed.

Lemma searchArXiv_logs (st : State) (Q : State -> Result (list JsRecord) -> Prop) :
  is_Some (researchStatus st !! sessionId) ->
  (forall st', logs sessionId [] [Http "arXiv"] st st' ->
               Q st' (Ok (arxivRecords env query))) ->
  wp (SustainabilityService.searchArXiv env query) st Q.
Proof.
  unfold SustainabilityService.searchArXiv, arxivRecords.
  destruct (SustainabilityService.fetchArXiv env query) as [records|message];
    intros L H; do 3 lstep; apply wp_lift.
  - apply H. lg.
  - lstep. apply H. lg.
Qed.

Lemma sustainability_getResearch_logs (st : State)
    (Q : State -> Result (list JsRecord) -> Prop) :
  is_Some (researchStatus st !! sessionId) ->
  (forall st',
     logs sessionId (sustainabilityEvents env query) [Http "arXiv"] st st' ->
     Q st' (Ok (sustainabilityRecords env query))) ->
  wp (SustainabilityService.getResearch env query sessionId) st Q.
Proof.
  intros L H. unfold sustainabilityRecords, sustainabilityEvents in H. cbv zeta in H.
  unfold SustainabilityService.getResearch, SustainabilityService.getResearchWith.
  do 4 lstep. apply searchArXiv_logs; [llive|]. intros st2 A2. lstep.
  destruct (0 <? length (arxivRecords env query))%nat eqn:E.
  - do 3 lstep.
    destruct (length (arxivRecords env query) <? 3)%nat.
    + do 4 lstep. unfold SustainabilityService.searchLEED at 1. lstep. simpl.
      do 3 lstep.
      apply H. lg.
    + lstep. apply H. lg.
  - lstep. apply Nat.ltb_ge in E.
    destruct (arxivRecords env query) as [|r rs]; [|simpl in E; lia].
    simpl in H. simpl.
    do 4 lstep. unfold SustainabilityService.searchLEED at 1. lstep. simpl.
      do 3 lstep.
    apply H. lg.
Qed.

End LoggedCalls.

Section LoggedRequest.

Variable env : Env.
Variables query sessionId : string.
Hypothesis T : Js.truthy (Some sessionId) = true.

Ltac astep :=
  cbv beta iota;
  lazymatch goal with
  | |- wp (SustainabilityService.getResearch _ _ _) _ _ =>
      apply (sustainability_getResearch_logs env query sessionId T);
      [ llive | intros ? ? ]
  | |- wp (LeasingService.getResearch _ _ _) _ _ =>
      apply (leasing_getResearch_logs env query sessionId T); [ llive | intros ? ? ]
  | |- wp (MarketService.getResearch _ _ _) _ _ =>
      apply (market_getResearch_logs env query sessionId T); [ llive | intros ? ? ]
  | |- wp (FallbackService.getResearch _ _ _) _ _ =>
      apply (fallback_getResearch_logs env query sessionId T); [ llive | intros ? ? ]
  | |- _ => lstep
  end.

Lemma callAdapters_logs (category : string) (st : State)
    (Q : State -> Result (list JsEntry) -> Prop) :
  is_Some (researchStatus st !! sessionId) ->
  (forall st',
     logs sessionId (adapterEvents env category query) (adapterEffects category)
          st st' ->
     Q st' (Ok (adapterEntries env category query))) ->
  wp (QueryController.callAdapters env category query sessionId) st Q.
Proof.
  intros L H.
  unfold adapterEvents, adapterEffects, adapterEntries, runs in H.
  unfold QueryController.callAdapters.
  destruct (String.eqb category "sustainability" || String.eqb category "general");
    destruct (String.eqb category "leasing" || String.eqb category "general");
    destruct (String.eqb category "market" || String.eqb category "general");
    repeat astep; apply H; lg.
Qed.

Lemma processResearch_logs (researchResults : list JsEntry)
    (documentAnalysis : option string) (st : State) :
  is_Some (researchStatus st !! sessionId) ->
  wp (AIService.processResearch env query researchResults documentAnalysis sessionId)
     st
     (fun st' r =>
        logs sessionId
          (synthesisEvents env query researchResults documentAnalysis)
          (synthesisEffects env) st st'
        /\ r = synthesis env query researchResults documentAnalysis).
Proof.
  intros L.
  unfold AIService.processResearch, synthesis, completion, synthesisEvents,
    synthesisEffects, completion, selectedProvider.
  do 5 lstep. cbv zeta.
  destruct (negb (Js.truthy (AIService.getApiKey env
              (default "openai" (Js.or_else (AI_PROVIDER env) (Some "openai")))))).
  { do 4 lstep. split; [lg | reflexivity]. }
  do 3 lstep.
  destruct (String.eqb _ "openai").
  { unfold AIService.callOpenAI. do 2 lstep. apply wp_lift.
    destruct (openai_completion env _) as [text|message].
    - do 3 lstep. split; [lg | reflexivity].
    - do 3 lstep. split; [lg | reflexivity]. }
  destruct (String.eqb _ "anthropic").
  { unfold AIService.callAnthropic. do 2 lstep. apply wp_lift.
    destruct (anthropic_completion env _) as [text|message].
    - do 3 lstep. split; [lg | reflexivity].
    - do 3 lstep. split; [lg | reflexivity]. }
  destruct (String.eqb _ "local").
  { do 4 lstep. split; [lg | reflexivity]. }
  do 4 lstep. split; [lg | reflexivity].
Qed.

(** The state a validated request ends in: the log of its session is
    replaced by the events of the request, its completion flag tells
    whether the synthesis step returned, the effects are those of the
    adapters and of the synthesis step, and the result is that of the
    synthesis step. *)
Lemma research_logs (documentContext : option string) (st : State) :
  let r := synthesis env query (gathered env query documentContext) documentContext in
  QueryController.research env query sessionId documentContext st
  = (mkState
       (<[sessionId := requestEvents env query documentContext]> (researchStatus st))
       (Session.assign sessionId (match r with Ok _ => true | Throw _ => false end)
          (researchComplete st))
       (effects st ++ adapterEffects (QueryController.categorizeQuery query)
                   ++ synthesisEffects env),
     r).
Proof.
  cbv zeta.
  assert (W : wp (QueryController.research env query sessionId documentContext) st
                (fun st' r =>
                   (st', r)
                   = (mkState
                        (<[sessionId := requestEvents env query documentContext]>
                           (researchStatus st))
                        (Session.assign sessionId
                           (match synthesis env query
                                    (gathered env query documentContext)
                                    documentContext with
                            | Ok _ => true
                            | Throw _ => false
                            end) (researchComplete st))
                        (effects st
                         ++ adapterEffects (QueryController.categorizeQuery query)
                         ++ synthesisEffects env),
                      synthesis env query (gathered env query documentContext)
                        documentContext))).
  2: { unfold wp in W. now destruct (QueryController.research _ _ _ _ st). }
  unfold QueryController.research, QueryController.gather.
  lstep. lstep. unfold wp at 1. simpl.
  lstep. unfold wp at 1. simpl.
  fold (began sessionId st).
  pose proof (began_live sessionId st) as L.
  do 5 lstep.
  apply callAdapters_logs; [llive|]. intros st3 A3.
  assert (G : forall rr st4,
             rr = gathered env query documentContext ->
             logs sessionId
               (if Js.truthy documentContext
                then [event env "Analyzing uploaded document context" None] else [])
               [] st3 st4 ->
             wp (Session.push env sessionId
                   (event env "Processing research with AI analysis" (Some "OpenAI")) ;;
                 do aiResponse <-
                   AIService.processResearch env query rr documentContext sessionId;
                 Session.setComplete sessionId true ;; ret aiResponse) st4
                (fun st' r =>
                   (st', r)
                   = (mkState
                        (<[sessionId := requestEvents env query documentContext]>
                           (researchStatus st))
                        (Session.assign sessionId
                           (match synthesis env query
                                    (gathered env query documentContext)
                                    documentContext with
                            | Ok _ => true
                            | Throw _ => false
                            end) (researchComplete st))
                        (effects st
                         ++ adapterEffects (QueryController.categorizeQuery query)
                         ++ synthesisEffects env),
                      synthesis env query (gathered env query documentContext)
                        documentContext))).
  { intros rr st4 -> A4. do 3 lstep.
    eapply wp_mono; [apply processResearch_logs; llive|].
    intros st6 r [A6 ->].
    assert (A : logs sessionId (requestEvents env query documentContext)
                  (adapterEffects (QueryController.categorizeQuery query)
                   ++ synthesisEffects env)
                  (began sessionId st) st6).
    { unfold requestEvents. destruct (Js.truthy documentContext); lg. }
    destruct A as (l & Hl & S & C & E).
    unfold began in Hl, S, C, E. simpl in Hl, S, C, E.
    rewrite lookup_insert_eq in Hl. injection Hl as <-.
    rewrite insert_insert_eq in S. simpl in S.
    destruct (synthesis env query (gathered env query documentContext)
                documentContext) as [aiResponse|message].
    - lstep. unfold wp, Session.setComplete; simpl.
      rewrite S, C, E, assign_assign. reflexivity.
    - destruct st6 as [rs rc ef]. simpl in *. subst. reflexivity. }
  unfold QueryController.addDocument.
  destruct (Js.truthy documentContext) eqn:D.
  - do 3 lstep. apply G; [unfold gathered; now rewrite D | lg].
  - lstep. apply G; [unfold gathered; now rewrite D | lg].
Qed.

End LoggedRequest.

Lemma truthy_default (v : option string) :
  Js.truthy v = true -> Js.truthy (Some (default "" v)) = true.
Proof. destruct v as [s|]; simpl; [auto | discriminate]. Qed.

(** The final state and the answer of a validated request. *)
Lemma handleResearchQuery_run (env : Env) (req : QueryController.Request)
    (st : State) :
  valid req = true ->
  let query := default "" (QueryController.query req) in
  let sessionId := default "" (QueryController.sessionId req) in
  let documentContext := QueryController.documentContext req in
  let r := synthesis env query (gathered env query documentContext) documentContext in
  QueryController.handleResearchQuery env req st
  = (mkState
       (<[sessionId := requestEvents env query documentContext]> (researchStatus st))
       (Session.assign sessionId (match r with Ok _ => true | Throw _ => false end)
          (researchComplete st))
       (effects st ++ adapterEffects (QueryController.categorizeQuery query)
                   ++ synthesisEffects env),
     match r with
     | Ok aiResponse =>
         QueryController.mkResponse 200 (QueryController.ResearchBody aiResponse)
     | Throw message =>
         QueryController.mkResponse 500
           (QueryController.FailureBody "Error processing query" message)
     end).
Proof.
  intros V. destruct (valid_fields req V) as [Vq Vs]. cbv zeta.
  unfold QueryController.handleResearchQuery. rewrite Vq, Vs. simpl negb. cbv iota.
  rewrite (research_logs env _ _ (truthy_default _ Vs)). cbv zeta.
  destruct (synthesis env _ _ _); reflexivity.
Qed.

Lemma handleResearchQuery_invalid (env : Env) (req : QueryController.Request)
    (st : State) :
  valid req = false -> fst (QueryController.handleResearchQuery env req st) = st.
Proof.
  unfold valid, QueryController.handleResearchQuery. intros V.
  destruct (Js.truthy (QueryController.query req)); simpl in *;
    [rewrite V|]; reflexivity.
Qed.

(** X1: serving a request, accepted or rejected, changes what the
    status endpoint reports for no other session, as long as the
    session identifier of the request is not [__proto__]: that one
    replaces the prototype of the session map. *)
Theorem other_sessions_untouched (env : Env) (req : QueryController.Request)
    (st : State) (other : string) :
  other <> default "" (QueryController.sessionId req) ->
  default "" (QueryController.sessionId req) <> "__proto__" ->
  QueryController.getResearchStatus env other
    (fst (QueryController.handleResearchQuery env req st))
  = QueryController.getResearchStatus env other st.
Proof.
  intros N P. destruct (valid req) eqn:V.
  - rewrite (handleResearchQuery_run env req st V). cbv zeta. simpl.
    unfold QueryController.getResearchStatus, Session.steps, Session.complete,
      Session.status, Session.flag. simpl.
    rewrite !lookup_insert_ne by congruence.
    now rewrite assign_lookup_ne by exact N.
  - now rewrite (handleResearchQuery_invalid env req st V).
Qed.

Lemma other_sessions_untouched_witness :
  let first := QueryController.mkRequest (Some "office vacancy") (Some "s1") None in
  let second := QueryController.mkRequest (Some "green leases") (Some "s2") None in
  let st1 := fst (QueryController.handleResearchQuery offlineEnv first freshState) in
  QueryController.getResearchStatus offlineEnv "s1"
    (fst (QueryController.handleResearchQuery offlineEnv second st1))
  = QueryController.getResearchStatus offlineEnv "s1" st1.
Proof.
  intros first second st1.
  apply (other_sessions_untouched offlineEnv second st1 "s1");
    simpl; intros E; discriminate E.
Defined.

(** How the synthesis step ends: with a result and a last event that
    says so, or with an exception whose message the last event and the
    rethrown error both carry. *)
Lemma synthesis_outcome (env : Env) (query : string)
    (researchResults : list JsEntry) (documentAnalysis : option string) :
  (exists aiResponse,
     synthesis env query researchResults documentAnalysis = Ok aiResponse
     /\ last (synthesisEvents env query researchResults documentAnalysis)
        = Some (event env "AI analysis complete, generating final response"
                      (Some (AIService.providerLabel (selectedProvider env)))))
  \/ (exists message,
        synthesis env query researchResults documentAnalysis
        = Throw ("Failed to process research with AI: " +:+ message)
        /\ last (synthesisEvents env query researchResults documentAnalysis)
           = Some (event env ("Error in AI processing: " +:+ message)
                         (Some "AI Service"))).
Proof.
  unfold synthesis, synthesisEvents. cbv zeta.
  destruct (negb (Js.truthy (AIService.getApiKey env (selectedProvider env)))) eqn:K.
  - right. eexists. split; [|reflexivity].
    unfold completion. fold (selectedProvider env). rewrite K. reflexivity.
  - destruct (completion env _) as [text|message].
    + left. eexists. split; reflexivity.
    + right. exists message. split; reflexivity.
Qed.

Lemma requestEvents_last (env : Env) (query : string)
    (documentContext : option string) :
  last (requestEvents env query documentContext)
  = last (synthesisEvents env query (gathered env query documentContext)
            documentContext).
Proof.
  unfold requestEvents. rewrite !app_assoc, last_app.
  destruct (synthesis_outcome env query (gathered env query documentContext)
              documentContext) as [(a & _ & ->)|(m & _ & ->)]; reflexivity.
Qed.

Lemma steps_insert (env : Env) (sessionId : string) (log : list Event)
    (rs : gmap string (list Event)) (rc : gmap string bool) (es : list Effect) :
  Session.steps env (mkState (<[sessionId := log]> rs) rc es) sessionId
  = Session.Log log.
Proof.
  unfold Session.steps, Session.status. simpl. now rewrite lookup_insert_eq.
Qed.

Lemma complete_assign (sessionId : string) (flag : bool)
    (rs : gmap string (list Event)) (rc : gmap string bool) (es : list Effect) :
  Session.complete (mkState rs (Session.assign sessionId flag rc) es) sessionId
  = if String.eqb sessionId "__proto__" then Session.Root else Session.Flag flag.
Proof.
  unfold Session.complete, Session.flag, Session.assign. simpl.
  destruct (String.eqb sessionId "__proto__"); [reflexivity|].
  rewrite lookup_insert_eq. now destruct flag.
Qed.

(** X2: after every validated request the status endpoint reports, for
    its session, a log that holds the events of this request only: it
    starts with the categorisation events, whatever the session had
    logged before. Its last event tells the outcome: the completion
    event when the answer is 200, and otherwise the error event carrying
    the message of the 500 answer. The reported flag follows the
    outcome for every session identifier but [__proto__], for which the
    endpoint reports the prototype of the flag map instead. *)
Theorem status_after_request (env : Env) (req : QueryController.Request)
    (st : State) :
  valid req = true ->
  let query := default "" (QueryController.query req) in
  let sessionId := default "" (QueryController.sessionId req) in
  let res := snd (QueryController.handleResearchQuery env req st) in
  let report :=
    QueryController.getResearchStatus env sessionId
      (fst (QueryController.handleResearchQuery env req st)) in
  exists events,
    snd (fst report) = Session.Log events
    /\ take 2 events
       = [ event env "Starting research query categorization" None;
           event env ("Query categorized as: " +:+ QueryController.categorizeQuery query)
                 None ]
    /\ ((QueryController.status res = 200%nat
         /\ (sessionId <> "__proto__" -> snd report = Session.Flag true)
         /\ last events
            = Some (event env "AI analysis complete, generating final response"
                          (Some (AIService.providerLabel (selectedProvider env)))))
        \/ (exists message,
              res = QueryController.mkResponse 500
                      (QueryController.FailureBody "Error processing query"
                         ("Failed to process research with AI: " +:+ message))
              /\ (sessionId <> "__proto__" -> snd report = Session.Flag false)
              /\ last events
                 = Some (event env ("Error in AI processing: " +:+ message)
                               (Some "AI Service"))))
    /\ (sessionId = "__proto__" -> snd report = Session.Root).
Proof.
  intros V. cbv zeta. rewrite (handleResearchQuery_run env req st V). cbv zeta.
  unfold QueryController.getResearchStatus. cbn [fst snd].
  rewrite steps_insert, complete_assign.
  eexists. split; [reflexivity|]. split; [reflexivity|].
  rewrite requestEvents_last.
  split; [| now intros ->].
  assert (F : forall b : bool,
    default "" (QueryController.sessionId req) <> "__proto__" ->
    (if String.eqb (default "" (QueryController.sessionId req)) "__proto__"
     then Session.Root else Session.Flag b) = Session.Flag b).
  { intros b N. destruct (String.eqb_spec (default "" (QueryController.sessionId req))
                            "__proto__"); [contradiction | reflexivity]. }
  destruct (synthesis_outcome env (default "" (QueryController.query req))
              (gathered env (default "" (QueryController.query req))
                 (QueryController.documentContext req))
              (QueryController.documentContext req))
    as [(a & -> & ->)|(m & -> & ->)].
  - left. auto.
  - right. exists m. auto.
Qed.

Lemma status_after_request_witness :
  let req := QueryController.mkRequest (Some "office vacancy") (Some "s1") None in
  let st1 := fst (QueryController.handleResearchQuery offlineEnv req freshState) in
  let report :=
    QueryController.getResearchStatus offlineEnv "s1"
      (fst (QueryController.handleResearchQuery offlineEnv req st1)) in
  exists events,
    snd (fst report) = Session.Log events
    /\ map step (take 2 events)
       = [ "Starting research query categorization"; "Query categorized as: leasing" ]
    /\ length events = 11%nat.
Proof.
  intros req st1 report.
  destruct (status_after_request offlineEnv req st1 eq_refl) as (events & L & H & _).
  exists events. split; [exact L|]. split; [exact (f_equal (map step) H)|].
  assert (E : Session.Log events
              = Session.Log (requestEvents offlineEnv "office vacancy" None))
    by (rewrite <- L; vm_compute; reflexivity).
  injection E as ->. vm_compute. reflexivity.
Defined.

(** ** What a request calls *)

Lemma categorizeQuery_label (query : string) :
  QueryController.categorizeQuery query = "sustainability"
  \/ QueryController.categorizeQuery query = "leasing"
  \/ QueryController.categorizeQuery query = "market"
  \/ QueryController.categorizeQuery query = "general".
Proof.
  destruct (categorizeQuery_cases query) as [H|[H|[H|H]]];
    [ left | right; left | right; right; left | right; right; right ];
    apply H.
Qed.

Lemma synthesisEffects_cases (env : Env) :
  synthesisEffects env = []
  \/ synthesisEffects env = [Http "openai"]
  \/ synthesisEffects env = [Http "anthropic"].
Proof.
  unfold synthesisEffects. cbv zeta.
  destruct (negb _); [auto|].
  destruct (String.eqb _ "openai"); [auto|].
  destruct (String.eqb _ "anthropic"); auto.
Qed.

(** X3: a validated request invokes the fallback adapter always and
    last, after the adapter of the category of the query, or after all
    three topical adapters when the category is general: two adapters
    or four, never another number. The arXiv request is sent exactly
    when the sustainability adapter runs, and at most one request goes
    to a model provider, after all adapters. *)
Theorem adapters_invoked (env : Env) (req : QueryController.Request) (st : State) :
  valid req = true ->
  let category :=
    QueryController.categorizeQuery (default "" (QueryController.query req)) in
  exists adapterCalls modelCalls,
    effects (fst (QueryController.handleResearchQuery env req st))
    = effects st ++ adapterCalls ++ modelCalls
    /\ (modelCalls = [] \/ modelCalls = [Http "openai"]
        \/ modelCalls = [Http "anthropic"])
    /\ ((category = "sustainability"
         /\ adapterCalls = [ Invoke "SustainabilityService"; Http "arXiv";
                             Invoke "FallbackService" ])
        \/ (category = "leasing"
            /\ adapterCalls = [ Invoke "LeasingService"; Invoke "FallbackService" ])
        \/ (category = "market"
            /\ adapterCalls = [ Invoke "MarketService"; Invoke "FallbackService" ])
        \/ (category = "general"
            /\ adapterCalls = [ Invoke "SustainabilityService"; Http "arXiv";
                                Invoke "LeasingService"; Invoke "MarketService";
                                Invoke "FallbackService" ])).
Proof.
  intros V. cbv zeta. rewrite (handleResearchQuery_run env req st V). cbv zeta.
  simpl. eexists _, _. split; [reflexivity|]. split; [apply synthesisEffects_cases|].
  destruct (categorizeQuery_label (default "" (QueryController.query req)))
    as [E|[E|[E|E]]]; rewrite E;
    [ left | right; left | right; right; left | right; right; right ];
    split; reflexivity.
Qed.

Lemma adapters_invoked_witness :
  let req := QueryController.mkRequest (Some "tenant improvements") (Some "s1") None in
  exists modelCalls,
    effects (fst (QueryController.handleResearchQuery offlineEnv req freshState))
    = [ Invoke "LeasingService"; Invoke "FallbackService" ] ++ modelCalls.
Proof.
  intros req.
  destruct (adapters_invoked offlineEnv req freshState eq_refl)
    as (a & m & E & _ & [[C _]|[[_ A]|[[C _]|[C _]]]]);
    try (vm_compute in C; discriminate C).
  exists m. rewrite E, A. reflexivity.
Defined.

(** ** Provider selection *)

(** X4: with the local provider selected, in any letter case, every
    validated request is answered 200 with the text of the local
    response built from the prompt, its session (any identifier but
    [__proto__], which the flag map cannot hold) is marked complete and
    no request is sent to a model provider. *)
Theorem local_provider_answers (env : Env) (req : QueryController.Request)
    (st : State) :
  Js.toLowerCase (selectedProvider env) = "local" ->
  valid req = true ->
  let query := default "" (QueryController.query req) in
  let sessionId := default "" (QueryController.sessionId req) in
  let documentContext := QueryController.documentContext req in
  let records :=
    AIService.filterBoolean (AIService.flat (gathered env query documentContext)) in
  let st' := fst (QueryController.handleResearchQuery env req st) in
  snd (QueryController.handleResearchQuery env req st)
  = QueryController.mkResponse 200
      (QueryController.ResearchBody
         {| response :=
              AIService.getLocalResponse env
                (AIService.prepareMessages query records documentContext);
            citations := map AIService.citationOf records |})
  /\ (sessionId <> "__proto__" ->
      Session.complete st' sessionId = Session.Flag true)
  /\ effects st'
     = effects st ++ adapterEffects (QueryController.categorizeQuery query).
Proof.
  intros P V. cbv zeta. rewrite (handleResearchQuery_run env req st V). cbv zeta.
  cbn [fst snd]. rewrite complete_assign.
  assert (F : forall b : bool,
    default "" (QueryController.sessionId req) <> "__proto__" ->
    (if String.eqb (default "" (QueryController.sessionId req)) "__proto__"
     then Session.Root else Session.Flag b) = Session.Flag b).
  { intros b N. destruct (String.eqb_spec (default "" (QueryController.sessionId req))
                            "__proto__"); [contradiction | reflexivity]. }
  assert (K : AIService.getApiKey env (selectedProvider env) = Some "mock-key").
  { unfold AIService.getApiKey. rewrite P. reflexivity. }
  assert (C : forall messages,
             completion env messages = Ok (AIService.getLocalResponse env messages)).
  { intros messages. unfold completion. fold (selectedProvider env).
    rewrite K, P. reflexivity. }
  assert (E : synthesisEffects env = []).
  { unfold synthesisEffects. cbv zeta. rewrite K, P. reflexivity. }
  unfold synthesis. rewrite C, E, app_nil_r. auto.
Qed.

Lemma local_provider_answers_witness :
  let env := withProvider (Some "Local") None in
  let req := QueryController.mkRequest (Some "cap rate") (Some "s1") None in
  QueryController.status (snd (QueryController.handleResearchQuery env req freshState))
  = 200%nat
  /\ Session.complete (fst (QueryController.handleResearchQuery env req freshState))
       "s1" = Session.Flag true.
Proof.
  intros env req.
  destruct (local_provider_answers env req freshState eq_refl eq_refl)
    as (H1 & H2 & _).
  split; [rewrite H1; reflexivity | apply H2; intros E; discriminate E].
Defined.

(** X5: the key check comes before the provider call. When the selected
    provider has no key, which is the case of every provider other than
    openai, anthropic and local, every validated request is answered
    500 with the message that the key is not configured, its session
    (any identifier but [__proto__], which the flag map cannot hold) is
    reported incomplete and no request is sent to a model provider; the
    message for an unsupported provider is never produced. *)
Theorem missing_key_fails (env : Env) (req : QueryController.Request) (st : State) :
  (forall provider,
     Js.toLowerCase provider <> "openai" ->
     Js.toLowerCase provider <> "anthropic" ->
     Js.toLowerCase provider <> "local" ->
     AIService.getApiKey env provider = None)
  /\ (Js.truthy (AIService.getApiKey env (selectedProvider env)) = false ->
      valid req = true ->
      let query := default "" (QueryController.query req) in
      let sessionId := default "" (QueryController.sessionId req) in
      let st' := fst (QueryController.handleResearchQuery env req st) in
      snd (QueryController.handleResearchQuery env req st)
      = QueryController.mkResponse 500
          (QueryController.FailureBody "Error processing query"
             ("Failed to process research with AI: "
              +:+ "AI provider API key not configured for "
              +:+ selectedProvider env))
      /\ (sessionId <> "__proto__" ->
          Session.complete st' sessionId = Session.Flag false)
      /\ effects st'
         = effects st ++ adapterEffects (QueryController.categorizeQuery query)).
Proof.
  split.
  - intros provider H1 H2 H3. unfold AIService.getApiKey.
    destruct (String.eqb_spec (Js.toLowerCase provider) "openai"); [contradiction|].
    destruct (String.eqb_spec (Js.toLowerCase provider) "anthropic"); [contradiction|].
    destruct (String.eqb_spec (Js.toLowerCase provider) "local"); [contradiction|].
    reflexivity.
  - intros K V. cbv zeta. rewrite (handleResearchQuery_run env req st V). cbv zeta.
    cbn [fst snd]. rewrite complete_assign.
    assert (F : forall b : bool,
      default "" (QueryController.sessionId req) <> "__proto__" ->
      (if String.eqb (default "" (QueryController.sessionId req)) "__proto__"
       then Session.Root else Session.Flag b) = Session.Flag b).
    { intros b N. destruct (String.eqb_spec (default "" (QueryController.sessionId req))
                              "__proto__"); [contradiction | reflexivity]. }
    assert (C : forall messages,
               completion env messages
               = Throw ("AI provider API key not configured for "
                        +:+ selectedProvider env)).
    { intros messages. unfold completion. fold (selectedProvider env).
      now rewrite K. }
    assert (E : synthesisEffects env = []).
    { unfold synthesisEffects. cbv zeta. now rewrite K. }
    unfold synthesis. rewrite C, E, app_nil_r. auto.
Qed.

Lemma missing_key_fails_witness :
  let req := QueryController.mkRequest (Some "cap rate") (Some "s1") None in
  QueryController.status
    (snd (QueryController.handleResearchQuery (withProvider None None) req freshState))
  = 500%nat
  /\ Session.complete
       (fst (QueryController.handleResearchQuery (withProvider None None) req
               freshState)) "s1" = Session.Flag false
  /\ snd (QueryController.handleResearchQuery (withProvider (Some "gemini")
                                                  (Some "sk-test")) req freshState)
     = QueryController.mkResponse 500
         (QueryController.FailureBody "Error processing query"
            "Failed to process research with AI: AI provider API key not configured for gemini").
Proof.
  intros req.
  destruct (missing_key_fails (withProvider None None) req freshState) as [_ H].
  destruct (H eq_refl eq_refl) as (H1 & F1 & _).
  destruct (missing_key_fails (withProvider (Some "gemini") (Some "sk-test")) req
              freshState) as [U H'].
  assert (K : Js.truthy (AIService.getApiKey (withProvider (Some "gemini")
                                               (Some "sk-test"))
                           (selectedProvider (withProvider (Some "gemini")
                                                (Some "sk-test")))) = false).
  { rewrite U; [reflexivity | | |]; intros E; discriminate E. }
  destruct (H' K eq_refl) as (H2 & _).
  split; [rewrite H1; reflexivity|].
  split; [apply F1; intros E; discriminate E | exact H2].
Defined.


(** ** Knowledge base, web search and the two query processors *)

Lemma string_length_append (a b : string) :
  String.length (a +:+ b) = (String.length a + String.length b)%nat.
Proof. induction a as [|c a IH]; simpl; [reflexivity | now rewrite IH]. Qed.

Lemma string_length_substring (n : nat) (s : string) :
  String.length (String.substring 0 n s) = Nat.min n (String.length s).
Proof.
  revert s. induction n as [|n IH]; intros [|c s]; simpl; try reflexivity.
  now rewrite IH.
Qed.

Lemma clip_length (extract : string) :
  (String.length (WikipediaService.clip extract) <= 1000)%nat
  /\ (extract <> "" -> WikipediaService.clip extract <> "")
  /\ ((String.length extract <= 1000)%nat -> WikipediaService.clip extract = extract)
  /\ ((1000 < String.length extract)%nat ->
      WikipediaService.clip extract = String.substring 0 997 extract +:+ "..."
      /\ String.length (WikipediaService.clip extract) = 1000%nat).
Proof.
  unfold WikipediaService.clip.
  destruct (Nat.ltb_spec 1000 (String.length extract)) as [L|L].
  - assert (E : String.length (String.substring 0 997 extract +:+ "...") = 1000%nat).
    { rewrite string_length_append, string_length_substring.
      change (String.length "...") with 3%nat. lia. }
    repeat split; try lia; auto.
    intros _ Z. rewrite Z in E. discriminate E.
  - repeat split; auto; lia.
Qed.

(** Steps of the monad that do not look at the state. *)
Ltac wstep :=
  cbv beta iota zeta;
  lazymatch goal with
  | |- wp (ret _) _ _ => apply wp_ret
  | |- wp (throw _) _ _ => apply wp_throw
  | |- wp (bind _ _) _ _ => apply wp_bind
  | |- wp (try_catch _ _) _ _ => apply wp_try_catch
  | |- wp (effect _) _ _ => apply wp_effect; intros ? _
  | |- wp (lift _) _ _ => apply wp_lift
  end.

Lemma truthy_nonempty (v : option string) :
  Js.truthy v = true -> exists s, v = Some s /\ s <> "".
Proof.
  destruct v as [s|]; simpl; [|discriminate]. intros H. exists s. split; [reflexivity|].
  intros ->. discriminate H.
Qed.

Lemma searchWikipedia_spec (env : Env) (src : Sources) (query : string)
    (st : State) :
  exists records,
    snd (WikipediaService.searchWikipedia env src query st) = Ok records
    /\ (length records <= 1)%nat
    /\ Forall
         (fun r =>
            source r = Some "Wikipedia" /\ type r = Some "knowledge_base"
            /\ exists extract page,
                 wiki_extract page = Some extract
                 /\ title r = wiki_title page /\ link r = wiki_fullurl page
                 /\ summary r = Some (WikipediaService.clip extract)
                 /\ (0 < String.length (WikipediaService.clip extract) <= 1000)%nat
                 /\ ((String.length extract <= 1000)%nat ->
                     WikipediaService.clip extract = extract)
                 /\ ((1000 < String.length extract)%nat ->
                     WikipediaService.clip extract
                     = String.substring 0 997 extract +:+ "..."))
         records.
Proof.
  refine (_ : wp (WikipediaService.searchWikipedia env src query) st
                (fun _ r => exists records, r = Ok records /\ _)).
  unfold WikipediaService.searchWikipedia.
  do 5 wstep.
  destruct (wikipedia_search src _) as [[|pageId ids]|message].
  - wstep. exists []. repeat split; [simpl; lia | constructor].
  - do 4 wstep.
    destruct (wikipedia_page src pageId) as [[page|]|message].
    + destruct (Js.truthy (wiki_extract page)) eqn:X; simpl.
      * wstep. eexists. split; [reflexivity|]. split; [simpl; lia|].
        constructor; [|constructor]. simpl.
        destruct (truthy_nonempty _ X) as (extract & Hx & Hne).
        repeat split. exists extract, page. rewrite Hx. simpl.
        destruct (clip_length extract) as (L & N & S & B).
        repeat split; auto; try apply B.
        destruct (WikipediaService.clip extract) eqn:C; simpl; [|lia].
        now destruct (N Hne).
      * wstep. exists []. repeat split; [simpl; lia | constructor].
    + wstep. exists []. repeat split; [simpl; lia | constructor].
    + wstep. exists []. repeat split; [simpl; lia | constructor].
  - wstep. exists []. repeat split; [simpl; lia | constructor].
Qed.

(** X6: the knowledge-base search never throws and returns at most one
    record. A record is returned exactly when the search for the query
    followed by " commercial real estate" succeeds with at least one
    page, the request for the first page succeeds and that page has an
    extract that is not empty. The record is then built from that page:
    its title and link, and as summary the extract itself when it has
    at most 1000 characters, and otherwise its first 997 characters
    followed by three dots; the summary is not empty and has at most
    1000 characters. *)
Theorem wikipedia_summary_clipped (env : Env) (src : Sources) (query : string)
    (st : State) :
  let enhancedQuery := query +:+ " commercial real estate" in
  (exists records,
     snd (WikipediaService.searchWikipedia env src query st) = Ok records
     /\ (length records <= 1)%nat
     /\ forall r, In r records ->
          exists pageId ids page extract,
            wikipedia_search src enhancedQuery = Ok (pageId :: ids)
            /\ wikipedia_page src pageId = Ok (Some page)
            /\ wiki_extract page = Some extract
            /\ extract <> ""
            /\ r = wikipediaRecord env page extract
            /\ (0 < String.length (WikipediaService.clip extract) <= 1000)%nat
            /\ ((String.length extract <= 1000)%nat ->
                WikipediaService.clip extract = extract)
            /\ ((1000 < String.length extract)%nat ->
                WikipediaService.clip extract
                = String.substring 0 997 extract +:+ "..."))
  /\ (forall pageId ids page extract,
        wikipedia_search src enhancedQuery = Ok (pageId :: ids) ->
        wikipedia_page src pageId = Ok (Some page) ->
        wiki_extract page = Some extract ->
        extract <> "" ->
        snd (WikipediaService.searchWikipedia env src query st)
        = Ok [wikipediaRecord env page extract]).
Proof.
  cbv zeta.
  unfold WikipediaService.searchWikipedia, try_catch, bind, effect, lift. cbv zeta.
  destruct (wikipedia_search src (query +:+ " commercial real estate"))
    as [[|pageId0 ids0]|message] eqn:S; cbn [fst snd].
  - split; [|intros ? ? ? ? E; discriminate E].
    exists []. split; [reflexivity|]. split; [simpl; lia | intros r []].
  - destruct (wikipedia_page src pageId0) as [[page0|]|message] eqn:G; cbn [fst snd].
    + destruct (Js.truthy (wiki_extract page0)) eqn:X; cbn [negb fst snd].
      * destruct (truthy_nonempty _ X) as (extract0 & Hx & Hne).
        rewrite Hx. cbn [default]. split.
        -- eexists. split; [reflexivity|]. split; [simpl; lia|].
           intros r [<-|[]]. exists pageId0, ids0, page0, extract0.
           destruct (clip_length extract0) as (L & N & K & B).
           repeat split; auto; try apply B.
           destruct (WikipediaService.clip extract0) eqn:C; simpl; [|lia].
           now destruct (N Hne).
        -- intros pageId ids page extract E1 E2 E3 _.
           injection E1 as -> ->. rewrite G in E2. injection E2 as ->.
           rewrite Hx in E3. injection E3 as ->. reflexivity.
      * split.
        -- exists []. split; [reflexivity|]. split; [simpl; lia | intros r []].
        -- intros pageId ids page extract E1 E2 E3 N.
           injection E1 as -> ->. rewrite G in E2. injection E2 as ->.
           rewrite E3 in X. simpl in X.
           destruct (String.eqb_spec extract ""); [contradiction | discriminate X].
    + split.
      * exists []. split; [reflexivity|]. split; [simpl; lia | intros r []].
      * intros pageId ids page extract E1 E2 _ _.
        injection E1 as -> ->. rewrite G in E2. discriminate E2.
    + split.
      * exists []. split; [reflexivity|]. split; [simpl; lia | intros r []].
      * intros pageId ids page extract E1 E2 _ _.
        injection E1 as -> ->. rewrite G in E2. discriminate E2.
  - split; [|intros ? ? ? ? E; discriminate E].
    exists []. split; [reflexivity|]. split; [simpl; lia | intros r []].
Qed.

Lemma wikipedia_summary_clipped_witness :
  let page := mkWikiPage (Some "Cap rate") (Some "The capitalization rate.")
                (Some "https://en.wikipedia.org/wiki/Capitalization_rate") in
  snd (WikipediaService.searchWikipedia offlineEnv (wikiSources page) "cap rate"
         freshState)
  = Ok [ {| title := Some "Cap rate";
            authors := Some "Wikipedia Contributors";
            date := Some (today offlineEnv);
            source := Some "Wikipedia";
            link := Some "https://en.wikipedia.org/wiki/Capitalization_rate";
            summary := Some "The capitalization rate.";
            type := Some "knowledge_base";
            data := None |} ].
Proof.
  intros page.
  destruct (wikipedia_summary_clipped offlineEnv (wikiSources page) "cap rate"
              freshState) as [_ H].
  rewrite (H "42" ["7"] page "The capitalization rate." eq_refl eq_refl eq_refl);
    [reflexivity | intros E; discriminate E].
Defined.

Lemma attempt_run (search : M (list JsRecord)) (results : list JsRecord)
    (st : State) :
  attempt search results st
  = (fst (search st), Ok (results ++ yield (snd (search st)))).
Proof.
  unfold attempt, try_catch, bind, ret.
  destruct (search st) as [st1 [[|r found]|message]]; simpl;
    rewrite ?app_nil_r; reflexivity.
Qed.

Lemma bind_run {A B} (m : M A) (k : A -> M B) (st st' : State) (a : A) :
  m st = (st', Ok a) -> bind m k st = k a st'.
Proof. unfold bind. now intros ->. Qed.

(** X7: the general query processor never throws and never returns the
    empty sequence. It returns the knowledge-base record, if any, then
    the web pages when a search key is configured, then the scraped
    record unless three records were already found; so the scraped
    record is always there without a search key, and the stock
    information record is never used. *)
Theorem fallback_processQuery_records (env : Env) (src : Sources) (query : string)
    (st : State) :
  let found := yield (snd (WikipediaService.searchWikipedia env src query st)) in
  let st1 := fst (WikipediaService.searchWikipedia env src query st) in
  let pages :=
    if Js.truthy (BING_SEARCH_API_KEY src)
    then yield (snd (FallbackQuery.webSearch env src query st1)) else [] in
  snd (FallbackQuery.processQuery env src query st)
  = Ok (found ++ pages
        ++ (if (length (found ++ pages) <? 3)%nat
            then [FallbackQuery.scrapedRecord env] else []))
  /\ (length found <= 1)%nat
  /\ (Js.truthy (BING_SEARCH_API_KEY src) = false ->
      snd (FallbackQuery.processQuery env src query st)
      = Ok (found ++ [FallbackQuery.scrapedRecord env])).
Proof.
  cbv zeta.
  assert (L : (length (yield (snd (WikipediaService.searchWikipedia env src query st)))
               <= 1)%nat).
  { destruct (searchWikipedia_spec env src query st) as (records & -> & L & _).
    exact L. }
  assert (R : snd (FallbackQuery.processQuery env src query st)
              = Ok (yield (snd (WikipediaService.searchWikipedia env src query st))
                    ++ (if Js.truthy (BING_SEARCH_API_KEY src)
                        then yield (snd (FallbackQuery.webSearch env src query
                                           (fst (WikipediaService.searchWikipedia
                                                   env src query st))))
                        else [])
                    ++ (if (length
                              (yield (snd (WikipediaService.searchWikipedia
                                             env src query st))
                               ++ (if Js.truthy (BING_SEARCH_API_KEY src)
                                   then yield (snd (FallbackQuery.webSearch env src
                                                      query
                                                      (fst (WikipediaService.searchWikipedia
                                                              env src query st))))
                                   else [])) <? 3)%nat
                        then [FallbackQuery.scrapedRecord env] else []))).
  { unfold FallbackQuery.processQuery, try_catch. cbv zeta.
    rewrite (bind_run _ _ _ _ _ (attempt_run _ _ st)).
    set (found := yield (snd (WikipediaService.searchWikipedia env src query st)))
      in *.
    set (st1 := fst (WikipediaService.searchWikipedia env src query st)).
    change ([] ++ found) with found.
    assert (L3 : (length found <? 3)%nat = true) by (apply Nat.ltb_lt; lia).
    rewrite L3, andb_true_r.
    destruct (Js.truthy (BING_SEARCH_API_KEY src)).
    - rewrite (bind_run _ _ _ _ _ (attempt_run _ _ st1)).
      set (pages := yield (snd (FallbackQuery.webSearch env src query st1))).
      destruct (length (found ++ pages) <? 3)%nat eqn:E3.
      + rewrite (bind_run _ _ _ _ _ (attempt_run _ _ _)). simpl.
        rewrite <- app_assoc.
        destruct (length (found ++ pages ++ [FallbackQuery.scrapedRecord env]) =? 0)%nat
          eqn:Z; [|reflexivity].
        apply Nat.eqb_eq in Z. rewrite !length_app in Z. simpl in Z. lia.
      + unfold bind at 1, ret at 1. simpl. rewrite app_nil_r.
        destruct (length (found ++ pages) =? 0)%nat eqn:Z; [|reflexivity].
        apply Nat.eqb_eq in Z. apply Nat.ltb_ge in E3. lia.
    - unfold bind at 1, ret at 1. rewrite app_nil_r, L3.
      rewrite (bind_run _ _ _ _ _ (attempt_run _ _ _)). simpl.
      destruct (length (found ++ [FallbackQuery.scrapedRecord env]) =? 0)%nat
        eqn:Z; [|reflexivity].
      apply Nat.eqb_eq in Z. rewrite length_app in Z. simpl in Z. lia. }
  split; [exact R|]. split; [exact L|].
  intros K. rewrite R, K. simpl. rewrite app_nil_r.
  destruct (Nat.ltb_spec (length (yield (snd (WikipediaService.searchWikipedia env src
                                                query st)))) 3);
    [reflexivity | lia].
Qed.

Lemma fallback_processQuery_records_witness :
  snd (FallbackQuery.processQuery offlineEnv noSources "cap rate" freshState)
  = Ok [FallbackQuery.scrapedRecord offlineEnv].
Proof.
  destruct (fallback_processQuery_records offlineEnv noSources "cap rate" freshState)
    as (_ & _ & H).
  exact (H eq_refl).
Defined.

Lemma searchZillow_run (env : Env) (src : Sources) (query : string) (st : State) :
  (snd (LeasingQuery.searchZillow env src query st) = Ok []
   \/ snd (LeasingQuery.searchZillow env src query st)
      = Ok [LeasingQuery.zillowRecord env])
  /\ (Js.truthy (ZILLOW_API_KEY src) = false ->
      LeasingQuery.searchZillow env src query st = (st, Ok [])).
Proof.
  unfold LeasingQuery.searchZillow, try_catch.
  destruct (Js.truthy (ZILLOW_API_KEY src)); simpl.
  - unfold bind, effect, lift, ret; simpl.
    destruct (zillow_search src query); simpl; split; auto; discriminate.
  - split; auto.
Qed.

(** X8: the leasing query processor never throws and returns one or two
    records: the Zillow record when a key is configured and the request
    succeeds, then always the CoStar sample record, so its stock
    information record is never used; without a Zillow key no request
    is sent and the CoStar record is the whole answer. *)
Theorem leasing_processQuery_records (env : Env) (src : Sources) (query : string)
    (st : State) :
  let zillow := yield (snd (LeasingQuery.searchZillow env src query st)) in
  snd (LeasingQuery.processQuery env src query st)
  = Ok (zillow ++ [LeasingQuery.coStarRecord env])
  /\ (zillow = [] \/ zillow = [LeasingQuery.zillowRecord env])
  /\ (Js.truthy (ZILLOW_API_KEY src) = false ->
      LeasingQuery.processQuery env src query st
      = (st, Ok [LeasingQuery.coStarRecord env])).
Proof.
  cbv zeta.
  destruct (searchZillow_run env src query st) as [Z K].
  assert (Zy : yield (snd (LeasingQuery.searchZillow env src query st)) = []
               \/ yield (snd (LeasingQuery.searchZillow env src query st))
                  = [LeasingQuery.zillowRecord env]).
  { destruct Z as [-> | ->]; auto. }
  assert (R : LeasingQuery.processQuery env src query st
              = (fst (LeasingQuery.searchZillow env src query st),
                 Ok (yield (snd (LeasingQuery.searchZillow env src query st))
                     ++ [LeasingQuery.coStarRecord env]))).
  { unfold LeasingQuery.processQuery, try_catch. cbv zeta.
    rewrite (bind_run _ _ _ _ _ (attempt_run _ _ st)).
    change ([] ++ ?x) with x.
    destruct Zy as [-> | ->]; reflexivity. }
  rewrite R. split; [reflexivity|]. split; [exact Zy|].
  intros Hk. rewrite (K Hk). reflexivity.
Qed.

Lemma leasing_processQuery_records_witness :
  LeasingQuery.processQuery offlineEnv noSources "rent" freshState
  = (freshState, Ok [LeasingQuery.coStarRecord offlineEnv]).
Proof.
  destruct (leasing_processQuery_records offlineEnv noSources "rent" freshState)
    as (_ & _ & H).
  exact (H eq_refl).
Defined.

(** ** The economic data search *)

Lemma string_app_assoc (a b c : string) : (a +:+ b) +:+ c = a +:+ b +:+ c.
Proof.
  induction a as [|x a IH]; [reflexivity|].
  change (String x ((a +:+ b) +:+ c) = String x (a +:+ b +:+ c)). now rewrite IH.
Qed.

Lemma prefix_app (p s : string) :
  String.prefix p s = true <-> exists b, s = p +:+ b.
Proof.
  revert s. induction p as [|x p IH]; intros s.
  - split; [intros _; now exists s | intros _; now destruct s].
  - destruct s as [|y s]; simpl.
    + split; [discriminate | intros (b & H); discriminate H].
    + destruct (ascii_dec x y) as [->|N].
      * rewrite IH. split; intros (b & H); exists b.
        -- change (String y s = String y (p +:+ b)). now rewrite H.
        -- change (String y s = String y (p +:+ b)) in H. congruence.
      * split; [discriminate | intros (b & H)].
        change (String y s = String x (p +:+ b)) in H. congruence.
Qed.

Lemma includes_prefix (s sub : string) :
  String.prefix sub s = true -> Js.includes s sub = true.
Proof.
  intros H. destruct s as [|c s].
  - simpl. destruct sub; [reflexivity | discriminate H].
  - now rewrite includes_unfold, H.
Qed.

(** [s.includes(sub)] holds exactly when [sub] lies somewhere in [s]. *)
Lemma includes_app (s sub : string) :
  Js.includes s sub = true <-> exists a b, s = a +:+ sub +:+ b.
Proof.
  split.
  - induction s as [|c s IH].
    + simpl. destruct sub; [|discriminate]. intros _. now exists "", "".
    + rewrite includes_unfold.
      destruct (String.prefix sub (String c s)) eqn:P.
      * intros _. apply prefix_app in P as (b & ->). now exists "", b.
      * intros H. destruct (IH H) as (a & b & ->). now exists (String c a), b.
  - intros (a & b & ->). induction a as [|c a IH].
    + apply includes_prefix, prefix_app. now exists b.
    + change (String c a +:+ sub +:+ b) with (String c (a +:+ sub +:+ b)).
      rewrite includes_unfold, IH.
      now destruct (String.prefix sub (String c (a +:+ sub +:+ b))).
Qed.

(** A string that includes a keyword includes every part of it. *)
Lemma includes_part (s p t q : string) :
  Js.includes s (p +:+ t +:+ q) = true -> Js.includes s t = true.
Proof.
  rewrite !includes_app. intros (a & b & ->).
  exists (a +:+ p), (q +:+ b). now rewrite !string_app_assoc.
Qed.

Lemma relevantIndicators_cases (query : string) :
  let matching :=
    List.filter (fun entry => Js.includes (Js.toLowerCase query) (fst entry))
                FREDSearch.creIndicators in
  (matching = []
   /\ FREDSearch.relevantIndicators query
      = [ ("office", "OFFVACUSQ176N"); ("construction", "TTLCONS") ])
  \/ (matching <> [] /\ FREDSearch.relevantIndicators query = matching).
Proof.
  cbv zeta. unfold FREDSearch.relevantIndicators. cbv zeta.
  destruct (List.filter _ FREDSearch.creIndicators) as [|e l]; simpl.
  - now left.
  - right. split; [discriminate | reflexivity].
Qed.

Lemma relevantIndicators_bounds (query : string) :
  (1 <= length (FREDSearch.relevantIndicators query) <= 7)%nat.
Proof.
  destruct (relevantIndicators_cases query) as [[_ ->]|[N ->]].
  - simpl. lia.
  - split.
    + destruct (List.filter _ _); [contradiction | simpl; lia].
    + etransitivity; [apply List.filter_length_le|]. simpl. lia.
Qed.

(** X9: the indicators of a query. There are between one and seven, all
    from the table, in the order of the table. A query that mentions
    no keyword of the table gets the office and construction series. A
    query that mentions "commercial mortgage" also mentions "mortgage",
    so it gets the 30-year residential mortgage rate next to the
    commercial delinquency rate. *)
Theorem indicators_selected (query : string) :
  (1 <= length (FREDSearch.relevantIndicators query) <= 7)%nat
  /\ (forall entry, In entry (FREDSearch.relevantIndicators query) ->
      In entry FREDSearch.creIndicators)
  /\ ((forall entry, In entry FREDSearch.creIndicators ->
       Js.includes (Js.toLowerCase query) (fst entry) = false) ->
      FREDSearch.relevantIndicators query
      = [ ("office", "OFFVACUSQ176N"); ("construction", "TTLCONS") ])
  /\ (forall entry, In entry FREDSearch.creIndicators ->
      Js.includes (Js.toLowerCase query) (fst entry) = true ->
      FREDSearch.relevantIndicators query
      = List.filter (fun entry => Js.includes (Js.toLowerCase query) (fst entry))
                    FREDSearch.creIndicators)
  /\ (Js.includes (Js.toLowerCase query) "commercial mortgage" = true ->
      In ("mortgage", "MORTGAGE30US") (FREDSearch.relevantIndicators query)
      /\ In ("commercial mortgage", "DRTSCIS") (FREDSearch.relevantIndicators query)).
Proof.
  split; [apply relevantIndicators_bounds|].
  pose proof (relevantIndicators_cases query) as C. cbv zeta in C.
  split; [|split; [|split]].
  - intros entry H. destruct C as [[_ E]|[_ E]]; rewrite E in H.
    + simpl in H. unfold FREDSearch.creIndicators. simpl.
      destruct H as [<-|[<-|[]]]; auto 10.
    + apply filter_In in H. tauto.
  - intros H. destruct C as [[_ E]|[N E]]; [exact E|]. exfalso. apply N.
    destruct (List.filter _ FREDSearch.creIndicators) as [|e l] eqn:F; [reflexivity|].
    assert (I : In e (List.filter
                        (fun entry => Js.includes (Js.toLowerCase query) (fst entry))
                        FREDSearch.creIndicators)) by (rewrite F; now left).
    apply filter_In in I as [I J]. rewrite (H e I) in J. discriminate J.
  - intros entry I J. destruct C as [[E _]|[_ E]]; [|exact E]. exfalso.
    assert (K : In entry (List.filter
                        (fun entry => Js.includes (Js.toLowerCase query) (fst entry))
                        FREDSearch.creIndicators)) by (apply filter_In; tauto).
    rewrite E in K. destruct K.
  - intros H.
    assert (M : Js.includes (Js.toLowerCase query) "mortgage" = true)
      by exact (includes_part _ "commercial " "mortgage" "" H).
    assert (K : forall entry,
               In entry FREDSearch.creIndicators ->
               Js.includes (Js.toLowerCase query) (fst entry) = true ->
               In entry (FREDSearch.relevantIndicators query)).
    { intros entry I J. destruct C as [[E _]|[_ E]].
      - exfalso.
        assert (K : In entry
                      (List.filter
                         (fun entry => Js.includes (Js.toLowerCase query) (fst entry))
                         FREDSearch.creIndicators)) by (apply filter_In; tauto).
        rewrite E in K. destruct K.
      - rewrite E. apply filter_In. tauto. }
    split; apply K; simpl; auto 10.
Qed.

Lemma indicators_selected_witness :
  FREDSearch.relevantIndicators "Hotel demand"
  = [ ("office", "OFFVACUSQ176N"); ("construction", "TTLCONS") ]
  /\ FREDSearch.relevantIndicators "Retail and OFFICE construction"
     = [ ("office", "OFFVACUSQ176N"); ("retail", "RETAILIRSA");
         ("construction", "TTLCONS") ]
  /\ In ("mortgage", "MORTGAGE30US")
        (FREDSearch.relevantIndicators "Commercial mortgage delinquencies").
Proof.
  destruct (indicators_selected "Hotel demand") as (_ & _ & A & _).
  destruct (indicators_selected "Retail and OFFICE construction") as (_ & _ & _ & B & _).
  destruct (indicators_selected "Commercial mortgage delinquencies")
    as (_ & _ & _ & _ & D).
  split; [|split].
  - apply A. intros entry I. simpl in I.
    repeat (destruct I as [<-|I]; [reflexivity|]). destruct I.
  - rewrite (B ("office", "OFFVACUSQ176N")); [reflexivity | simpl; auto | reflexivity].
  - assert (H : Js.includes (Js.toLowerCase "Commercial mortgage delinquencies")
                            "commercial mortgage" = true) by (vm_compute; reflexivity).
    exact (proj1 (D H)).
Defined.

Section EconomicSearch.

Variable parseFloat : string -> FREDService.number.
Variable env : Env.
Variable src : Sources.

Lemma indicatorRecord_cases (seriesTitle keyword seriesId : string)
    (observations : list FREDService.Observation) :
  match FREDService.indicatorRecord parseFloat env seriesTitle keyword seriesId
          observations with
  | Ok r => observations <> [] /\ fredRecord r
            /\ link r = seriesLink (keyword, seriesId)
  | Throw _ => observations = []
  end.
Proof.
  unfold FREDService.indicatorRecord. cbv zeta.
  destruct observations as [|first rest]; simpl; [reflexivity|].
  repeat split. discriminate.
Qed.

(** One failing indicator ends the loop with an exception, whatever was
    collected before. *)
Lemma fetchIndicators_failing (indicators : list (string * string)) :
  existsb (failing src) indicators = true ->
  forall results st,
    wp (FREDSearch.fetchIndicators parseFloat env src indicators results) st
       (fun _ r => exists message, r = Throw message).
Proof.
  induction indicators as [|[keyword seriesId] rest IH]; [discriminate|].
  intros F results st. simpl in F. unfold failing at 1 in F. simpl in F.
  simpl FREDSearch.fetchIndicators.
  do 3 wstep.
  destruct (fred_series src seriesId) as [[seriesTitle|]|message].
  - do 3 wstep.
    destruct (fred_observations src seriesId) as [[observations|]|message].
    + wstep. wstep.
      pose proof (indicatorRecord_cases seriesTitle keyword seriesId observations)
        as C.
      destruct (FREDService.indicatorRecord _ _ _ _ _ _) as [r|message].
      * destruct C as (N & _). destruct observations; [contradiction|].
        simpl in F. now apply IH.
      * now exists message.
    + now apply IH.
    + now exists message.
  - now apply IH.
  - now exists message.
Qed.

(** Without a failing indicator the loop adds one record for each
    indicator whose series and observations are there, in order. *)
Lemma fetchIndicators_reported (indicators : list (string * string)) :
  existsb (failing src) indicators = false ->
  forall results st,
    wp (FREDSearch.fetchIndicators parseFloat env src indicators results) st
       (fun _ r =>
          exists added,
            r = Ok (results ++ added)
            /\ map link added = map seriesLink (List.filter (reported src) indicators)
            /\ Forall fredRecord added).
Proof.
  induction indicators as [|[keyword seriesId] rest IH]; intros F results st.
  - simpl. wstep. exists []. rewrite app_nil_r. repeat split. constructor.
  - simpl in F. apply orb_false_iff in F as [F1 F2].
    unfold failing in F1. simpl in F1.
    assert (Rp : reported src (keyword, seriesId)
                 = match fred_series src seriesId, fred_observations src seriesId with
                   | Ok (Some _), Ok (Some _) => true
                   | _, _ => false
                   end) by reflexivity.
    simpl FREDSearch.fetchIndicators. simpl List.filter. rewrite Rp. clear Rp.
    do 3 wstep.
    destruct (fred_series src seriesId) as [[seriesTitle|]|message];
      [| now apply IH | discriminate F1].
    do 3 wstep.
    destruct (fred_observations src seriesId) as [[observations|]|message];
      [| now apply IH | discriminate F1].
    wstep. wstep.
    pose proof (indicatorRecord_cases seriesTitle keyword seriesId observations)
      as C.
    destruct (FREDService.indicatorRecord _ _ _ _ _ _) as [r|message].
    + destruct C as (_ & R & L).
      eapply wp_mono; [apply (IH F2)|]. cbv beta.
      intros _ r' (added & -> & A & B). exists (r :: added).
      rewrite <- app_assoc. simpl. rewrite L, A. repeat split; auto.
    + subst observations. discriminate F1.
Qed.

Lemma searchEconomicData_spec (query : string) (st : State) :
  exists records,
    snd (FREDSearch.searchEconomicData parseFloat env src query st) = Ok records
    /\ (Js.truthy (FRED_API_KEY src) = false ->
        FREDSearch.searchEconomicData parseFloat env src query st
        = (st, Ok [FREDSearch.mockRecord env query]))
    /\ (Js.truthy (FRED_API_KEY src) = true ->
        (existsb (failing src) (FREDSearch.relevantIndicators query) = true ->
         records = [])
        /\ (existsb (failing src) (FREDSearch.relevantIndicators query) = false ->
            map link records
            = map seriesLink
                (List.filter (reported src) (FREDSearch.relevantIndicators query))
            /\ Forall fredRecord records)).
Proof.
  unfold FREDSearch.searchEconomicData. cbv zeta.
  destruct (Js.truthy (FRED_API_KEY src)); simpl negb; cbv iota.
  - destruct (existsb (failing src) (FREDSearch.relevantIndicators query)) eqn:F.
    + pose proof (fetchIndicators_failing _ F [] st) as H. unfold wp in H.
      destruct H as (message & H). unfold try_catch.
      destruct (FREDSearch.fetchIndicators _ _ _ _ _ st) as [st' r].
      simpl in H. subst r. exists []. split; [reflexivity|].
      split; [discriminate|]. intros _. split; [reflexivity | discriminate].
    + pose proof (fetchIndicators_reported _ F [] st) as H. unfold wp in H.
      destruct H as (added & H & A & B). unfold try_catch.
      destruct (FREDSearch.fetchIndicators _ _ _ _ _ st) as [st' r].
      simpl in H. subst r. exists added. split; [reflexivity|].
      split; [discriminate|]. intros _. split; [discriminate | auto].
  - exists [FREDSearch.mockRecord env query]. split; [reflexivity|].
    split; [reflexivity | discriminate].
Qed.

End EconomicSearch.

(** X10: the economic data search never throws. Without a FRED key it
    sends no request and answers the one stock record that quotes the
    query; with a key it answers at most one record per selected
    indicator, so at most seven. *)
Theorem economic_search_bounded (parseFloat : string -> FREDService.number)
    (env : Env) (src : Sources) (query : string) (st : State) :
  exists records,
    snd (FREDSearch.searchEconomicData parseFloat env src query st) = Ok records
    /\ (length records <= length (FREDSearch.relevantIndicators query) <= 7)%nat
    /\ (Js.truthy (FRED_API_KEY src) = false ->
        FREDSearch.searchEconomicData parseFloat env src query st
        = (st, Ok [FREDSearch.mockRecord env query])).
Proof.
  destruct (searchEconomicData_spec parseFloat env src query st)
    as (records & R & A & B).
  exists records. split; [exact R|]. split; [|exact A].
  pose proof (relevantIndicators_bounds query) as L.
  split; [|lia].
  destruct (Js.truthy (FRED_API_KEY src)) eqn:K.
  - destruct (B eq_refl) as (B1 & B2).
    destruct (existsb (failing src) (FREDSearch.relevantIndicators query)).
    + rewrite (B1 eq_refl). simpl. lia.
    + destruct (B2 eq_refl) as (B3 & _).
      apply (f_equal (@length _)) in B3. rewrite !length_map in B3. rewrite B3.
      apply List.filter_length_le.
  - rewrite (A eq_refl) in R. simpl in R. injection R as <-. simpl. lia.
Qed.

Lemma economic_search_bounded_witness :
  FREDSearch.searchEconomicData FREDService.parseInteger offlineEnv noSources
    "office rents" freshState
  = (freshState, Ok [FREDSearch.mockRecord offlineEnv "office rents"]).
Proof.
  destruct (economic_search_bounded FREDService.parseInteger offlineEnv noSources
              "office rents" freshState) as (records & _ & _ & H).
  exact (H eq_refl).
Defined.

(** X11: with a FRED key the economic data search is all or nothing. If
    for one selected indicator a request throws, or its series comes
    with an empty list of observations, the answer is empty, whatever
    the other indicators gave. Otherwise there is one FRED record, in
    the order of the table, for each indicator whose series and
    observations are both there; an indicator without series or
    without observations is skipped. *)
Theorem economic_search_all_or_nothing (parseFloat : string -> FREDService.number)
    (env : Env) (src : Sources) (query : string) (st : State) :
  Js.truthy (FRED_API_KEY src) = true ->
  exists records,
    snd (FREDSearch.searchEconomicData parseFloat env src query st) = Ok records
    /\ (existsb (failing src) (FREDSearch.relevantIndicators query) = true ->
        records = [])
    /\ (existsb (failing src) (FREDSearch.relevantIndicators query) = false ->
        map link records
        = map seriesLink
            (List.filter (reported src) (FREDSearch.relevantIndicators query))
        /\ Forall (fun r => source r = Some "FRED" /\ type r = Some "economic_data")
                  records).
Proof.
  intros K.
  destruct (searchEconomicData_spec parseFloat env src query st)
    as (records & R & _ & B).
  exists records. split; [exact R|]. destruct (B K) as (B1 & B2).
  split; [exact B1|]. intros F. destruct (B2 F) as (L & A). split; [exact L|].
  eapply Forall_impl; [exact A|]. unfold fredRecord. intros r. tauto.
Qed.

Lemma economic_search_all_or_nothing_witness :
  snd (FREDSearch.searchEconomicData FREDService.parseInteger offlineEnv
         (fredSources "OFFVACUSQ176N") "office construction" freshState)
  = Ok []
  /\ map link
       (yield (snd (FREDSearch.searchEconomicData FREDService.parseInteger
                      offlineEnv (fredSources "OFFVACUSQ176N") "office"
                      freshState)))
     = [ Some "https://fred.stlouisfed.org/series/OFFVACUSQ176N" ].
Proof.
  destruct (economic_search_all_or_nothing FREDService.parseInteger offlineEnv
              (fredSources "OFFVACUSQ176N") "office construction" freshState
              eq_refl) as (r1 & E1 & A1 & _).
  destruct (economic_search_all_or_nothing FREDService.parseInteger offlineEnv
              (fredSources "OFFVACUSQ176N") "office" freshState
              eq_refl) as (r2 & E2 & _ & B2).
  split.
  - rewrite E1. f_equal. apply A1. vm_compute. reflexivity.
  - rewrite E2. simpl yield.
    assert (F : existsb (failing (fredSources "OFFVACUSQ176N"))
                  (FREDSearch.relevantIndicators "office") = false)
      by (vm_compute; reflexivity).
    destruct (B2 F) as (L & _). rewrite L. vm_compute. reflexivity.
Defined.

(** ** The market query processor *)





Lemma searchGoogleTrends_spec (env : Env) (src : Sources) (query : string)
    (st : State) :
  exists records,
    snd (MarketQuery.searchGoogleTrends env src query st) = Ok records
    /\ (length records <= 1)%nat
    /\ Forall (fun r => source r = Some "Google Trends"
                        /\ type r = Some "market_report") records.
Proof.
  refine (_ : wp (MarketQuery.searchGoogleTrends env src query) st
                (fun _ r => exists records, r = Ok records /\ _)).
  unfold MarketQuery.searchGoogleTrends.
  do 4 wstep.
  destruct (trends_interest src _) as [interest|message];
    [|wstep; exists []; repeat split; [simpl; lia | constructor]].
  do 3 wstep.
  destruct (trends_related src _) as [rel|message];
    [|wstep; exists []; repeat split; [simpl; lia | constructor]].
  do 2 wstep.
  destruct (parse_timeline src _) as [timeline|message];
    [|wstep; exists []; repeat split; [simpl; lia | constructor]].
  do 2 wstep.
  destruct (parse_related src _) as [related|message];
    [|wstep; exists []; repeat split; [simpl; lia | constructor]].
  wstep. eexists. split; [reflexivity|]. split; [simpl; lia|].
  repeat constructor.
Qed.

(** X13: the market query processor never throws and never answers the
    empty sequence. It answers the Google Trends record, if any, then
    the news items, then the economic records; the news feeds are
    always searched, one request to each of the three feeds after the
    trends calls, since at most one record precedes them. The economic
    data search runs after the feed requests, exactly when the Quandl
    key is set and fewer than five records were found, whether or not
    a FRED key is set; without the Quandl key nothing is requested
    after the feeds. The stock overview is the answer only when all
    three gave nothing. *)
Theorem market_processQuery_records (parseFloat : string -> FREDService.number)
    (env : Env) (src : Sources) (query : string) (st : State) :
  let trends := yield (snd (MarketQuery.searchGoogleTrends env src query st)) in
  let st1 := fst (MarketQuery.searchGoogleTrends env src query st) in
  let news := newsRecords env query in
  let st2 :=
    mkState (researchStatus st1) (researchComplete st1)
            (effects st1 ++ newsRequests) in
  let economic :=
    if Js.truthy (QUANDL_API_KEY src) && (length (trends ++ news) <? 5)%nat
    then yield (snd (FREDSearch.searchEconomicData parseFloat env src query st2))
    else [] in
  snd (MarketQuery.processQuery parseFloat env src query st)
  = Ok (if (length (trends ++ news ++ economic) =? 0)%nat
        then [MarketQuery.getGeneralMarketInfo env]
        else trends ++ news ++ economic)
  /\ (length trends <= 1)%nat
  /\ (length news <= 6)%nat
  /\ RSSFeedService.searchNews env query st1 = (st2, Ok news)
  /\ (if Js.truthy (QUANDL_API_KEY src) && (length (trends ++ news) <? 5)%nat
      then fst (MarketQuery.processQuery parseFloat env src query st)
           = fst (FREDSearch.searchEconomicData parseFloat env src query st2)
      else fst (MarketQuery.processQuery parseFloat env src query st) = st2)
  /\ (Js.truthy (QUANDL_API_KEY src) = false ->
      fst (MarketQuery.processQuery parseFloat env src query st) = st2).
Proof.
  cbv zeta.
  assert (L : (length (yield (snd (MarketQuery.searchGoogleTrends env src query st)))
               <= 1)%nat).
  { destruct (searchGoogleTrends_spec env src query st) as (records & -> & L & _).
    exact L. }
  set (trends := yield (snd (MarketQuery.searchGoogleTrends env src query st)))
    in *.
  set (st1 := fst (MarketQuery.searchGoogleTrends env src query st)).
  set (news := newsRecords env query).
  set (st2 := mkState (researchStatus st1) (researchComplete st1)
                      (effects st1 ++ newsRequests)).
  assert (L4 : (length trends <? 4)%nat = true) by (apply Nat.ltb_lt; lia).
  assert (R : MarketQuery.processQuery parseFloat env src query st
              = (if Js.truthy (QUANDL_API_KEY src)
                    && (length (trends ++ news) <? 5)%nat
                 then fst (FREDSearch.searchEconomicData parseFloat env src query st2)
                 else st2,
                 Ok (let economic :=
                       if Js.truthy (QUANDL_API_KEY src)
                          && (length (trends ++ news) <? 5)%nat
                       then yield (snd (FREDSearch.searchEconomicData
                                          parseFloat env src query st2))
                       else [] in
                     if (length (trends ++ news ++ economic) =? 0)%nat
                     then [MarketQuery.getGeneralMarketInfo env]
                     else trends ++ news ++ economic))).
  { unfold MarketQuery.processQuery, try_catch. cbv zeta.
    rewrite (bind_run _ _ _ _ _ (attempt_run _ _ st)).
    fold trends st1. change ([] ++ trends) with trends. rewrite L4.
    rewrite (bind_run _ _ _ _ _ (attempt_run _ _ st1)).
    rewrite (searchNews_run env query st1). cbn [fst snd yield].
    fold news st2.
    destruct (Js.truthy (QUANDL_API_KEY src) && (length (trends ++ news) <? 5)%nat).
    - rewrite (bind_run _ _ _ _ _ (attempt_run _ _ st2)).
      rewrite <- app_assoc.
      set (all := trends ++ news ++ _).
      unfold ret. simpl.
      destruct (length all =? 0)%nat eqn:Z; [|reflexivity].
      apply Nat.eqb_eq in Z. destruct all; [reflexivity | discriminate Z].
    - unfold bind at 1, ret at 1. rewrite app_nil_r.
      unfold ret. simpl.
      destruct (length (trends ++ news) =? 0)%nat eqn:Z; [|reflexivity].
      apply Nat.eqb_eq in Z.
      destruct (trends ++ news); [reflexivity | discriminate Z]. }
  rewrite R. cbn [fst snd].
  split; [reflexivity|]. split; [exact L|].
  split; [apply newsRecords_length|].
  split; [apply searchNews_run|].
  split.
  - destruct (Js.truthy (QUANDL_API_KEY src) && (length (trends ++ news) <? 5)%nat);
      reflexivity.
  - intros K. now rewrite K.
Qed.

Lemma market_processQuery_records_witness :
  effects (fst (MarketQuery.processQuery FREDService.parseInteger offlineEnv noSources
                  "cap rate" freshState))
  = effects (fst (MarketQuery.searchGoogleTrends offlineEnv noSources "cap rate"
                    freshState))
    ++ [Http "CPE"; Http "GlobeSt"; Http "NAIOP"].
Proof.
  destruct (market_processQuery_records FREDService.parseInteger offlineEnv noSources
              "cap rate" freshState) as (_ & _ & _ & _ & _ & H).
  rewrite (H eq_refl). reflexivity.
Defined.

(** ** Keywords inside keywords *)

Section Hits.

Variable P : string -> bool.

Lemma one_hit (keywords : list string) (a : string) :
  In a keywords -> P a = true -> (1 <= length (List.filter P keywords))%nat.
Proof.
  induction keywords as [|k ks IH]; simpl; [contradiction|].
  intros [->|I] H.
  - rewrite H. simpl. lia.
  - specialize (IH I H). destruct (P k); simpl; lia.
Qed.

Lemma two_hits (keywords : list string) (a b : string) :
  a <> b -> In a keywords -> In b keywords -> P a = true -> P b = true ->
  (2 <= length (List.filter P keywords))%nat.
Proof.
  intros N. induction keywords as [|k ks IH]; simpl; [contradiction|].
  intros [->|Ia] [->|Ib] Ha Hb.
  - contradiction.
  - rewrite Ha. simpl. pose proof (one_hit ks b Ib Hb). lia.
  - rewrite Hb. simpl. pose proof (one_hit ks a Ia Ha). lia.
  - specialize (IH Ia Ib Ha Hb). destruct (P k); simpl; lia.
Qed.

End Hits.

(** X14: keywords are looked for anywhere in the lowercased query, so a
    keyword that lies inside another counts with it. In the controller
    a query that mentions "rental" also mentions "rent" and has at
    least two leasing matches. In the categorizer a query that mentions
    "economic", a market keyword, also mentions "eco", a sustainability
    keyword; it is then "market_trends" only with a second market
    keyword. *)
Theorem overlapping_keywords (query : string) :
  (Js.includes (Js.toLowerCase query) "rental" = true ->
   (2 <= QueryController.countMatches (Js.toLowerCase query)
           QueryController.leasingKeywords)%nat)
  /\ (Js.includes (Js.toLowerCase query) "economic" = true ->
      (1 <= QueryCategorizer.countKeywordMatches (Js.toLowerCase query)
              QueryCategorizer.sustainabilityKeywords)%nat
      /\ (QueryCategorizer.categorize query = "market_trends" ->
          (2 <= QueryCategorizer.countKeywordMatches (Js.toLowerCase query)
                  QueryCategorizer.marketTrendsKeywords)%nat)).
Proof.
  split.
  - intros H. rewrite countMatches_hits.
    apply (two_hits _ _ "rent" "rental"); [discriminate | simpl; auto 10 ..| | exact H].
    exact (includes_part _ "" "rent" "al" H).
  - intros H.
    assert (E : (1 <= QueryCategorizer.countKeywordMatches (Js.toLowerCase query)
                        QueryCategorizer.sustainabilityKeywords)%nat).
    { rewrite countKeywordMatches_hits.
      apply (one_hit _ _ "eco"); [simpl; auto 10|].
      exact (includes_part _ "" "eco" "nomic" H). }
    split; [exact E|].
    unfold QueryCategorizer.categorize. cbv zeta.
    set (s := QueryCategorizer.countKeywordMatches _ QueryCategorizer.sustainabilityKeywords) in *.
    set (l := QueryCategorizer.countKeywordMatches _ QueryCategorizer.leasingKeywords).
    set (m := QueryCategorizer.countKeywordMatches _ QueryCategorizer.marketTrendsKeywords).
    destruct ((l <? s)%nat && (m <? s)%nat); [discriminate|].
    destruct ((s <? l)%nat && (m <? l)%nat); [discriminate|].
    destruct (Nat.ltb_spec s m); simpl; [intros _; lia | discriminate].
Qed.

Lemma overlapping_keywords_witness :
  (2 <= QueryController.countMatches (Js.toLowerCase "Rental growth")
          QueryController.leasingKeywords)%nat
  /\ (1 <= QueryCategorizer.countKeywordMatches (Js.toLowerCase "Economic outlook")
             QueryCategorizer.sustainabilityKeywords)%nat
  /\ (2 <= QueryCategorizer.countKeywordMatches (Js.toLowerCase "Economic outlook")
             QueryCategorizer.marketTrendsKeywords)%nat.
Proof.
  destruct (overlapping_keywords "Rental growth") as (A & _).
  destruct (overlapping_keywords "Economic outlook") as (_ & B).
  assert (H1 : Js.includes (Js.toLowerCase "Rental growth") "rental" = true)
    by (vm_compute; reflexivity).
  assert (H2 : Js.includes (Js.toLowerCase "Economic outlook") "economic" = true)
    by (vm_compute; reflexivity).
  assert (H3 : QueryCategorizer.categorize "Economic outlook" = "market_trends")
    by (vm_compute; reflexivity).
  split; [exact (A H1)|]. destruct (B H2) as (C & D).
  split; [exact C | exact (D H3)].
Defined.

(** ** Ties in the news sort *)

Section NewsTies.

Import RSSFeedService.

Lemma insertByScore_filter (k : nat) (x : Scored) (l : list Scored) :
  StronglySorted byScore l ->
  List.filter (fun s => (snd s =? k)%nat) (insertByScore x l)
  = List.filter (fun s => (snd s =? k)%nat) l
    ++ (if (snd x =? k)%nat then [x] else []).
Proof.
  induction l as [|y l IH]; intros S; simpl.
  - now destruct (snd x =? k)%nat.
  - apply StronglySorted_cons in S as [Hy Sl].
    destruct (Nat.ltb_spec (snd y) (snd x)) as [Lt|Ge].
    + simpl. destruct (Nat.eqb_spec (snd x) k) as [E|N].
      * destruct (Nat.eqb_spec (snd y) k); [lia|].
        replace (List.filter (fun s => (snd s =? k)%nat) l) with (@nil Scored);
          [reflexivity|].
        symmetry.
        clear IH Sl. induction Hy as [|z l Hz _ IHl]; simpl; [reflexivity|].
        unfold byScore in Hz.
        destruct (Nat.eqb_spec (snd z) k); [lia | exact IHl].
      * now rewrite app_nil_r.
    + simpl. rewrite (IH Sl). now destruct (snd y =? k)%nat.
Qed.

Lemma sortByScore_filter_acc (k : nat) (l acc : list Scored) :
  StronglySorted byScore acc ->
  List.filter (fun s => (snd s =? k)%nat)
    (fold_left (fun sorted x => insertByScore x sorted) l acc)
  = List.filter (fun s => (snd s =? k)%nat) acc
    ++ List.filter (fun s => (snd s =? k)%nat) l.
Proof.
  revert acc. induction l as [|x l IH]; simpl; intros acc S.
  - now rewrite app_nil_r.
  - rewrite (IH _ (insertByScore_sorted x acc S)), (insertByScore_filter k x acc S).
    rewrite <- app_assoc. now destruct (snd x =? k)%nat.
Qed.

Lemma filter_all_scoring (k : nat) (l : list Scored) :
  Forall (fun s => snd s = k) l ->
  List.filter (fun s => (snd s =? k)%nat) l = l.
Proof.
  induction 1 as [|s l Hs _ IH]; simpl; [reflexivity|].
  destruct (Nat.eqb_spec (snd s) k); [now rewrite IH | contradiction].
Qed.

Lemma sortByScore_stable (k : nat) (l : list Scored) :
  List.filter (fun s => (snd s =? k)%nat) (sortByScore l)
  = List.filter (fun s => (snd s =? k)%nat) l.
Proof. apply (sortByScore_filter_acc k l []). constructor. Qed.

Lemma sortByScore_ties (k : nat) (l : list Scored) :
  Forall (fun s => snd s = k) l -> sortByScore l = l.
Proof.
  intros H.
  rewrite <- (filter_all_scoring k l H) at 2.
  rewrite <- (sortByScore_stable k l).
  symmetry. apply filter_all_scoring.
  apply Forall_forall. intros s I.
  apply (proj1 (Forall_forall _ _) H). now rewrite <- (sortByScore_perm l).
Qed.

End NewsTies.

(** X15: the sort of the scored items is stable. For every score, the
    items of that score come out in the order of the feed; so when all
    the scored items of a feed score the same, the two that are kept
    are the first two of the feed that matched. *)
Theorem news_ties_keep_feed_order (queryTerms : list string) (items : list RssItem)
    (k : nat) :
  List.filter (fun s => (snd s =? k)%nat)
    (RSSFeedService.sortByScore (RSSFeedService.scoredItemsOf queryTerms items))
  = List.filter (fun s => (snd s =? k)%nat)
      (RSSFeedService.scoredItemsOf queryTerms items)
  /\ (Forall (fun s => snd s = k) (RSSFeedService.scoredItemsOf queryTerms items) ->
      RSSFeedService.topItems queryTerms items
      = take 2 (RSSFeedService.scoredItemsOf queryTerms items)).
Proof.
  split; [apply sortByScore_stable|].
  intros H. unfold RSSFeedService.topItems. now rewrite (sortByScore_ties k _ H).
Qed.

Lemma news_ties_keep_feed_order_witness :
  RSSFeedService.topItems (RSSFeedService.queryTermsOf "vacancy")
    [ newsItem "Office leasing slows" "Vacancy is up downtown";
      newsItem "Retail rebounds" "Shoppers return";
      newsItem "Office vacancy eases" "Tenants come back";
      newsItem "Vacancy at a low" "Landlords gain" ]
  = take 2
      (RSSFeedService.scoredItemsOf (RSSFeedService.queryTermsOf "vacancy")
         [ newsItem "Office leasing slows" "Vacancy is up downtown";
           newsItem "Retail rebounds" "Shoppers return";
           newsItem "Office vacancy eases" "Tenants come back";
           newsItem "Vacancy at a low" "Landlords gain" ]).
Proof.
  apply (news_ties_keep_feed_order (RSSFeedService.queryTermsOf "vacancy") _ 1).
  vm_compute. repeat constructor.
Defined.

(** ** Blank query terms *)

Lemma includes_empty (s : string) : Js.includes s "" = true.
Proof. apply includes_prefix. now destruct s. Qed.

Lemma toLowerCase_app (a b : string) :
  Js.toLowerCase (a +:+ b) = Js.toLowerCase a +:+ Js.toLowerCase b.
Proof.
  induction a as [|c a IH]; [reflexivity|].
  change (String (Js.lower_ascii c) (Js.toLowerCase (a +:+ b))
          = String (Js.lower_ascii c) (Js.toLowerCase a +:+ Js.toLowerCase b)).
  now rewrite IH.
Qed.

Lemma split_space_trailing (s cur : string) :
  In "" (Js.split_space_aux cur (s +:+ " ")).
Proof.
  revert cur. induction s as [|c s IH]; intros cur.
  - simpl. auto.
  - change (String c s +:+ " ") with (String c (s +:+ " ")).
    simpl. destruct (Ascii.eqb c " "); [right|]; apply IH.
Qed.

Lemma scoredItemsOf_all (queryTerms : list string) (items : list RssItem) :
  In "" queryTerms ->
  RSSFeedService.scoredItemsOf queryTerms items
  = map (RSSFeedService.scoreItem queryTerms) items.
Proof.
  intros I. unfold RSSFeedService.scoredItemsOf.
  induction items as [|item items IH]; [reflexivity|].
  simpl map. rewrite filter_cons_True.
  - f_equal. exact IH.
  - unfold RSSFeedService.scoreItem. simpl snd.
    rewrite scoreRelevance_count. cbv zeta.
    pose proof (one_hit (Js.includes
                           (Js.toLowerCase
                              (default "" (Js.or_else (item_title item) (Some ""))
                               +:+ " "
                               +:+ default ""
                                     (Js.or_else
                                        (Js.or_else (item_description item)
                                                    (item_summary item))
                                        (Some ""))))) queryTerms "" I
                  (includes_empty _)).
    lia.
Qed.

(** X16: a blank in the wrong place matches everything. The query is
    split at single spaces, so a query that ends with a space has the
    empty string among its terms, and every text includes the empty
    string. Then every item of a feed scores at least one, nothing is
    filtered out, and a feed that answers contributes two items as soon
    as it has two, whatever they are about. *)
Theorem blank_term_keeps_every_item (env : Env) (query : string)
    (feed : RSSFeedService.FeedSource) (items : list RssItem) :
  In "" (RSSFeedService.queryTermsOf (query +:+ " "))
  /\ (In "" (RSSFeedService.queryTermsOf query) ->
      rss_feed env (RSSFeedService.feed_url feed) = Ok items ->
      RSSFeedService.scoredItemsOf (RSSFeedService.queryTermsOf query) items
      = map (RSSFeedService.scoreItem (RSSFeedService.queryTermsOf query)) items
      /\ length (RSSFeedService.feedContribution env query feed)
         = Nat.min 2 (length items)).
Proof.
  split.
  - unfold RSSFeedService.queryTermsOf, Js.split_space.
    rewrite toLowerCase_app. apply split_space_trailing.
  - intros I F. split; [now apply scoredItemsOf_all|].
    unfold RSSFeedService.feedContribution. rewrite F.
    rewrite length_map. unfold RSSFeedService.topItems.
    rewrite length_take, (Permutation_length (sortByScore_perm _)).
    now rewrite scoredItemsOf_all, length_map.
Qed.

Lemma blank_term_keeps_every_item_witness :
  length (RSSFeedService.feedContribution newsEnv "zoning "
            (RSSFeedService.mkFeedSource "Commercial Property Executive"
               "https://www.commercialsearch.com/news/feed/" "CPE"))
  = 2%nat.
Proof.
  destruct (blank_term_keeps_every_item newsEnv "zoning"
              (RSSFeedService.mkFeedSource "Commercial Property Executive"
                 "https://www.commercialsearch.com/news/feed/" "CPE") newsItems)
    as (I & _).
  destruct (blank_term_keeps_every_item newsEnv "zoning "
              (RSSFeedService.mkFeedSource "Commercial Property Executive"
                 "https://www.commercialsearch.com/news/feed/" "CPE") newsItems)
    as (_ & H).
  destruct (H I eq_refl) as (_ & L). exact L.
Defined.

(** ** The citation manager *)







(** ** Documents *)

Lemma substring_all (s : string) : String.substring 0 (String.length s) s = s.
Proof. induction s as [|c s IH]; simpl; [reflexivity | now rewrite IH]. Qed.

(** A run of white space with two line feeds is a run of white space:
    the paragraph breaks are among the runs, the current run counting
    for one while it has not given its break. *)
Lemma paragraphBreaks_spaceRuns (s : string) (inRun : bool) (lineFeeds : nat) :
  (inRun = false -> lineFeeds = 0%nat) ->
  (DocumentAnalyzer.paragraphBreaks lineFeeds s
   <= DocumentAnalyzer.spaceRuns inRun s
      + (if inRun then (if (lineFeeds <? 2)%nat then 1 else 0) else 0))%nat.
Proof.
  revert inRun lineFeeds. induction s as [|c s IH]; intros inRun lineFeeds H; simpl.
  - lia.
  - destruct (DocumentAnalyzer.is_line_feed c) eqn:LF.
    + assert (SP : Js.is_space c = true).
      { unfold DocumentAnalyzer.is_line_feed in LF. unfold Js.is_space.
        apply Nat.eqb_eq in LF. rewrite LF. reflexivity. }
      rewrite SP.
      pose proof (IH true (S lineFeeds) (fun E => ltac:(discriminate E))) as I.
      cbv iota in I.
      destruct inRun.
      * destruct lineFeeds as [|[|k]]; simpl in *; lia.
      * rewrite (H eq_refl) in *. simpl in *. lia.
    + destruct (Js.is_space c).
      * pose proof (IH true lineFeeds (fun E => ltac:(discriminate E))) as I.
        cbv iota in I. destruct inRun.
        -- simpl. lia.
        -- rewrite (H eq_refl) in *. simpl in *. lia.
      * pose proof (IH false 0%nat (fun _ => eq_refl)) as I. cbv iota in I.
        destruct inRun; [destruct (lineFeeds <? 2)%nat|]; lia.
Qed.

Lemma extractTopics_sublist (text : string) :
  sublist (DocumentAnalyzer.extractTopics text)
          [ "Sustainability"; "Leasing"; "Market Trends" ].
Proof.
  unfold DocumentAnalyzer.extractTopics. cbv zeta.
  repeat match goal with
         | |- context [if ?b then _ else _] => destruct b
         end; simpl; repeat first [apply sublist_skip | apply sublist_cons | constructor].
Qed.

(** X18: the analysis of a document text never fails. The paragraph
    count is at least one and at most the word count, which counts the
    pieces between runs of white space and is one for the empty text.
    The summary is the text itself up to 500 characters, and otherwise
    its first 500 characters followed by three dots. The topics are
    among Sustainability, Leasing and Market Trends, in this order and
    without repetition. *)
Theorem analysis_counts (text : string) :
  exists analysis,
    DocumentAnalyzer.analyze (Some text) = Ok analysis
    /\ (1 <= DocumentAnalyzer.paragraphCount analysis
        <= DocumentAnalyzer.wordCount analysis)%nat
    /\ (DocumentAnalyzer.wordCount analysis <= 1 + String.length text)%nat
    /\ (String.length (DocumentAnalyzer.summary analysis) <= 503)%nat
    /\ ((String.length text <= 500)%nat -> DocumentAnalyzer.summary analysis = text)
    /\ ((500 < String.length text)%nat ->
        DocumentAnalyzer.summary analysis = String.substring 0 500 text +:+ "...")
    /\ sublist (DocumentAnalyzer.topics analysis)
               [ "Sustainability"; "Leasing"; "Market Trends" ].
Proof.
  eexists. split; [reflexivity|].
  cbn [DocumentAnalyzer.summary DocumentAnalyzer.wordCount
       DocumentAnalyzer.paragraphCount DocumentAnalyzer.topics].
  split; [|split; [|split; [|split; [|split]]]].
  - pose proof (paragraphBreaks_spaceRuns text false 0 (fun _ => eq_refl)) as P.
    cbv iota in P. lia.
  - assert (R : forall s b, (DocumentAnalyzer.spaceRuns b s <= String.length s)%nat).
    { induction s as [|c s IH]; intros b; simpl; [lia|].
      destruct (Js.is_space c); [destruct b|];
        [pose proof (IH true) | pose proof (IH true) | pose proof (IH false)]; lia. }
    pose proof (R text false). lia.
  - destruct (Nat.ltb_spec (Nat.min 500 (String.length text)) (String.length text)).
    + rewrite string_length_append, string_length_substring.
      change (String.length "...") with 3%nat. lia.
    + rewrite string_length_substring. lia.
  - intros L. replace (Nat.min 500 (String.length text)) with (String.length text) by lia.
    rewrite Nat.ltb_irrefl. apply substring_all.
  - intros L. replace (Nat.min 500 (String.length text)) with 500%nat by lia.
    destruct (Nat.ltb_spec 500 (String.length text)); [reflexivity | lia].
  - apply extractTopics_sublist.
Qed.

Lemma analysis_counts_witness :
  exists analysis,
    DocumentAnalyzer.analyze (Some "Lease terms") = Ok analysis
    /\ DocumentAnalyzer.summary analysis = "Lease terms".
Proof.
  destruct (analysis_counts "Lease terms") as (analysis & A & _ & _ & _ & S & _).
  exists analysis. split; [exact A|]. apply S. simpl. lia.
Defined.

(** X19: the uploaded file is removed only when the document is
    processed. The answer is 200, 400 or 500. It is 200 exactly when
    the extension, in any letter case, is that of a PDF or Word file,
    the extraction succeeds and gives a text; then the file is removed
    and the analysis of the extracted text is returned. In every other
    case, an unsupported extension included, the upload directory is
    left as it was, so the file stays. *)
Theorem upload_removed_on_success (docs : DocumentController.Documents)
    (file : option string) (uploads : gset string) :
  let uploads' := fst (DocumentController.processDocument docs file uploads) in
  let res := snd (DocumentController.processDocument docs file uploads) in
  (DocumentController.status res = 200%nat
   \/ DocumentController.status res = 400%nat
   \/ DocumentController.status res = 500%nat)
  /\ (DocumentController.status res = 200%nat ->
      exists filePath text analysis,
        file = Some filePath
        /\ DocumentController.extractText docs filePath = Some (Ok (Some text))
        /\ DocumentAnalyzer.analyze (Some text) = Ok analysis
        /\ res = DocumentController.mkResponse 200
                   (DocumentController.AnalysisBody "Document processed successfully"
                      analysis)
        /\ uploads' = uploads ∖ {[ filePath ]})
  /\ (DocumentController.status res <> 200%nat -> uploads' = uploads)
  /\ (forall filePath,
        file = Some filePath ->
        Js.toLowerCase (DocumentController.extname docs filePath) <> ".pdf" ->
        Js.toLowerCase (DocumentController.extname docs filePath) <> ".docx" ->
        Js.toLowerCase (DocumentController.extname docs filePath) <> ".doc" ->
        res = DocumentController.mkResponse 400
                (DocumentController.ErrorBody "Unsupported file format")
        /\ uploads' = uploads).
Proof.
  cbv zeta. unfold DocumentController.processDocument.
  destruct file as [filePath|].
  - split; [|split; [|split]].
    + destruct (DocumentController.extractText docs filePath) as [[[text|]|m]|];
        simpl; auto.
    + destruct (DocumentController.extractText docs filePath) as [[[text|]|m]|] eqn:E;
        simpl; try discriminate.
      intros _. exists filePath, text. eexists.
      repeat match goal with |- _ /\ _ => split end; try reflexivity. exact E.
    + destruct (DocumentController.extractText docs filePath) as [[[text|]|m]|];
        simpl; try reflexivity. intros H. now contradict H.
    + intros p [= <-] N1 N2 N3. unfold DocumentController.extractText. cbv zeta.
      destruct (String.eqb_spec (Js.toLowerCase (DocumentController.extname docs filePath))
                  ".pdf"); [contradiction|].
      destruct (String.eqb_spec (Js.toLowerCase (DocumentController.extname docs filePath))
                  ".docx"); [contradiction|].
      destruct (String.eqb_spec (Js.toLowerCase (DocumentController.extname docs filePath))
                  ".doc"); [contradiction|].
      simpl. auto.
  - simpl. split; [auto|]. split; [discriminate|]. split; [reflexivity|].
    intros p H. discriminate H.
Qed.

Lemma upload_removed_on_success_witness :
  fst (DocumentController.processDocument sampleDocuments (Some "uploads/2-notes.txt")
         {[ "uploads/2-notes.txt" ]})
  = {[ "uploads/2-notes.txt" ]}
  /\ fst (DocumentController.processDocument sampleDocuments
            (Some "uploads/1-lease.PDF") {[ "uploads/1-lease.PDF" ]})
     = {[ "uploads/1-lease.PDF" ]} ∖ {[ "uploads/1-lease.PDF" ]}.
Proof.
  destruct (upload_removed_on_success sampleDocuments (Some "uploads/2-notes.txt")
              {[ "uploads/2-notes.txt" ]}) as (_ & _ & _ & A).
  destruct (upload_removed_on_success sampleDocuments (Some "uploads/1-lease.PDF")
              {[ "uploads/1-lease.PDF" ]}) as (_ & B & _).
  split.
  - apply (A "uploads/2-notes.txt" eq_refl); vm_compute; discriminate.
  - destruct (B eq_refl) as (filePath & text & analysis & [= <-] & _ & _ & _ & U).
    exact U.
Defined.

(** ** The report store *)

Section Reports.

Import ReportController.

Lemma delete_all_lookup (due : list (Z * string)) (store : gmap string (list Byte.byte))
    (id : string) :
  fold_left (fun store timer => delete (snd timer) store) due store !! id
  = if bool_decide (id ∈ map snd due) then None else store !! id.
Proof.
  revert store. induction due as [|[t i] due IH]; intros store; simpl.
  - reflexivity.
  - rewrite IH. destruct (decide (id = i)) as [->|N].
    + rewrite lookup_delete_eq.
      rewrite (bool_decide_eq_true_2 (i ∈ i :: map snd due)) by left.
      now destruct (bool_decide _).
    + rewrite lookup_delete_ne by congruence.
      destruct (bool_decide (id ∈ map snd due)) eqn:B.
      * apply bool_decide_eq_true_1 in B.
        now rewrite (bool_decide_eq_true_2 (id ∈ i :: map snd due)) by now right.
      * apply bool_decide_eq_false_1 in B.
        rewrite (bool_decide_eq_false_2 (id ∈ i :: map snd due)); [reflexivity|].
        intros [E|E]%elem_of_cons; [congruence | contradiction].
Qed.

Lemma runTimers_due (now : Z) (st : Store) (id : string) :
  id ∈ map snd (List.filter (fun timer => (fst timer <=? now)%Z) (timers st))
  <-> exists due, (due, id) ∈ timers st /\ (due <= now)%Z.
Proof.
  rewrite list_elem_of_fmap. split.
  - intros ([due i] & -> & I). apply list_elem_of_In, filter_In in I as [I L].
    exists due. split; [now apply list_elem_of_In | now apply Z.leb_le].
  - intros (due & I & L). exists (due, id). split; [reflexivity|].
    apply list_elem_of_In, filter_In. split; [now apply list_elem_of_In|].
    now apply Z.leb_le.
Qed.

Lemma runTimers_deleted (now : Z) (st : Store) (id : string) :
  (exists due, (due, id) ∈ timers st /\ (due <= now)%Z) ->
  reportStore (runTimers now st) !! id = None.
Proof.
  intros H. unfold runTimers. cbv zeta. simpl reportStore. rewrite delete_all_lookup.
  rewrite bool_decide_eq_true_2; [reflexivity|]. now apply runTimers_due.
Qed.

Lemma runTimers_kept (now : Z) (st : Store) (id : string) :
  ~ (exists due, (due, id) ∈ timers st /\ (due <= now)%Z) ->
  reportStore (runTimers now st) !! id = reportStore st !! id.
Proof.
  intros H. unfold runTimers. cbv zeta. simpl reportStore. rewrite delete_all_lookup.
  rewrite bool_decide_eq_false_2; [reflexivity|]. intros I. now apply H, runTimers_due.
Qed.

Lemma runTimers_lookup (now : Z) (st : Store) (id : string) :
  reportStore (runTimers now st) !! id = None
  \/ (reportStore (runTimers now st) !! id = reportStore st !! id
      /\ ~ (exists due, (due, id) ∈ timers st /\ (due <= now)%Z)).
Proof.
  unfold runTimers. cbv zeta. simpl reportStore. rewrite delete_all_lookup.
  destruct (bool_decide _) eqn:B; [now left|]. right. split; [reflexivity|].
  apply bool_decide_eq_false_1 in B. intros I. now apply B, runTimers_due.
Qed.

Lemma generateReport_cases (render : ReportBody -> Result (list Byte.byte))
    (reportId : string) (now : Z) (req : ReportBody) (st : Store) :
  (exists pdfBytes,
     render req = Ok pdfBytes
     /\ (Js.truthy (queryResults req) = true \/ Js.truthy (documentAnalysis req) = true)
     /\ generateReport render reportId now req st
        = (mkStore (<[reportId := pdfBytes]> (reportStore st))
                   (timers st ++ [ ((now + 1800000)%Z, reportId) ]),
           mkResponse 200 (GeneratedBody "Report generated successfully" reportId)))
  \/ (fst (generateReport render reportId now req st) = st
      /\ (status (snd (generateReport render reportId now req st)) = 400%nat
          \/ status (snd (generateReport render reportId now req st)) = 500%nat)).
Proof.
  unfold generateReport.
  destruct (Js.truthy (queryResults req)) eqn:Q;
    destruct (Js.truthy (documentAnalysis req)) eqn:D; simpl;
    try (right; split; [reflexivity | left; reflexivity]);
    (destruct (render req) as [pdfBytes|message];
     [left; exists pdfBytes; repeat split; auto
     | right; split; [reflexivity | right; reflexivity]]).
Qed.

End Reports.

(** X20: a generated report can be downloaded until its timer runs. A
    request that is answered 200 stores the rendered bytes under the
    identifier it returns, and a download of that identifier answers
    200 with these very bytes and their length, at once and, when no
    older timer carries the same identifier, at any time before 30
    minutes have passed; once the timers due after 30 minutes have run
    the download answers 404. The other reports in the store are left
    as they were, and a request answered 400 or 500 changes nothing. *)
Theorem report_round_trip (render : ReportController.ReportBody -> Result (list Byte.byte))
    (reportId : string) (now : Z) (req : ReportController.ReportBody)
    (st : ReportController.Store) :
  let st' := fst (ReportController.generateReport render reportId now req st) in
  let res := snd (ReportController.generateReport render reportId now req st) in
  (ReportController.status res = 200%nat ->
   exists pdfBytes,
     render req = Ok pdfBytes
     /\ res = ReportController.mkResponse 200
                (ReportController.GeneratedBody "Report generated successfully"
                   reportId)
     /\ (forall later,
           (later < now + 1800000)%Z ->
           (forall due, (due, reportId) ∈ ReportController.timers st ->
                        (later < due)%Z) ->
           ReportController.downloadReport reportId
             (ReportController.runTimers later st')
           = (ReportController.runTimers later st',
              ReportController.mkResponse 200
                (ReportController.Download "application/pdf"
                   ("attachment; filename=" +:+ quoted "cre-research-report.pdf")
                   (length pdfBytes) pdfBytes)))
     /\ (forall later,
           (now + 1800000 <= later)%Z ->
           snd (ReportController.downloadReport reportId
                  (ReportController.runTimers later st'))
           = ReportController.mkResponse 404
               (ReportController.ErrorBody "Report not found or expired"))
     /\ (forall id, id <> reportId ->
           ReportController.reportStore st' !! id
           = ReportController.reportStore st !! id))
  /\ (ReportController.status res <> 200%nat -> st' = st).
Proof.
  cbv zeta.
  destruct (generateReport_cases render reportId now req st)
    as [(pdfBytes & R & _ & E)|(E & S)].
  - rewrite E. simpl fst. simpl snd. split; [|intros H; now contradict H].
    intros _. exists pdfBytes. split; [exact R|]. split; [reflexivity|].
    split; [|split].
    + intros later L F. unfold ReportController.downloadReport.
      rewrite runTimers_kept.
      * simpl ReportController.reportStore. now rewrite lookup_insert_eq.
      * simpl ReportController.timers.
        intros (due & I & D). apply elem_of_app in I as [I|I].
        -- specialize (F due I). lia.
        -- apply list_elem_of_singleton in I. injection I as ->. lia.
    + intros later L. unfold ReportController.downloadReport.
      rewrite runTimers_deleted; [reflexivity|]. simpl ReportController.timers.
      exists (now + 1800000)%Z. split; [|exact L].
      apply elem_of_app. right. now apply list_elem_of_singleton.
    + intros id N. simpl. now rewrite lookup_insert_ne by congruence.
  - split.
    + intros H. destruct S as [S|S]; rewrite S in H; discriminate H.
    + intros _. exact E.
Qed.

Lemma report_round_trip_witness :
  snd (ReportController.downloadReport "r-1"
         (ReportController.runTimers 1000
            (fst (ReportController.generateReport sampleRender "r-1" 0 sampleReport
                    emptyStore))))
  = ReportController.mkResponse 200
      (ReportController.Download "application/pdf"
         ("attachment; filename=" +:+ quoted "cre-research-report.pdf")
         3 [ Byte.x25; Byte.x50; Byte.x44 ])
  /\ snd (ReportController.downloadReport "r-1"
            (ReportController.runTimers 1800000
               (fst (ReportController.generateReport sampleRender "r-1" 0
                       sampleReport emptyStore))))
     = ReportController.mkResponse 404
         (ReportController.ErrorBody "Report not found or expired").
Proof.
  destruct (report_round_trip sampleRender "r-1" 0 sampleReport emptyStore)
    as (H & _).
  destruct (H eq_refl) as (pdfBytes & R & _ & A & B & _).
  injection R as <-.
  split.
  - rewrite (A 1000%Z); [reflexivity | lia |].
    intros due I. simpl in I. now apply elem_of_nil in I.
  - apply B. lia.
Defined.

(** X21: no report stays in the store for ever. That every stored
    report has a deletion scheduled holds of the empty store and is
    kept by generating, by downloading and by running timers; and
    under it the store is empty once all scheduled timers have run. *)
Theorem reports_expire (render : ReportController.ReportBody -> Result (list Byte.byte))
    (reportId id : string) (now later : Z) (req : ReportController.ReportBody)
    (st : ReportController.Store) :
  scheduled emptyStore
  /\ (scheduled st ->
      scheduled (fst (ReportController.generateReport render reportId now req st))
      /\ scheduled (fst (ReportController.downloadReport id st))
      /\ scheduled (ReportController.runTimers later st)
      /\ (Forall (fun timer => (fst timer <= later)%Z) (ReportController.timers st) ->
          ReportController.reportStore (ReportController.runTimers later st) = ∅
          /\ ReportController.timers (ReportController.runTimers later st) = [])).
Proof.
  split.
  - intros i [b H]. simpl in H. now rewrite lookup_empty in H.
  - intros S. split; [|split; [|split]].
    + destruct (generateReport_cases render reportId now req st)
        as [(pdfBytes & _ & _ & E)|(E & _)]; rewrite E; [|exact S].
      intros i H. simpl in *.
      destruct (decide (i = reportId)) as [->|N].
      * exists (now + 1800000)%Z. apply in_or_app. right. now left.
      * rewrite lookup_insert_ne in H by congruence.
        destruct (S i H) as (due & I). exists due. apply in_or_app. now left.
    + unfold ReportController.downloadReport.
      now destruct (ReportController.reportStore st !! id).
    + intros i H.
      destruct (runTimers_lookup later st i) as [E|[E B]]; rewrite E in H;
        [now destruct H|].
      destruct (S i H) as (due & I). exists due.
      unfold ReportController.runTimers. simpl. apply filter_In. split; [exact I|].
      simpl. destruct (Z.leb_spec due later); [|reflexivity].
      exfalso. apply B. exists due. split; [now apply list_elem_of_In | assumption].
    + intros F. split.
      * apply map_eq. intros i. rewrite lookup_empty.
        destruct (runTimers_lookup later st i) as [E|[E B]]; rewrite E;
          [reflexivity|].
        destruct (ReportController.reportStore st !! i) eqn:L; [|reflexivity].
        exfalso. destruct (S i (mk_is_Some _ _ L)) as (due & I).
        apply B. exists due. split; [now apply list_elem_of_In|].
        apply (proj1 (Forall_forall _ _) F (due, i)). now apply list_elem_of_In.
      * unfold ReportController.runTimers. simpl.
        induction F as [|[due i] l H _ IH]; simpl; [reflexivity|].
        simpl in H. destruct (Z.leb_spec due later); [exact IH | lia].
Qed.

Lemma reports_expire_witness :
  ReportController.reportStore
    (ReportController.runTimers 1800000
       (fst (ReportController.generateReport sampleRender "r-1" 0 sampleReport
               emptyStore)))
  = ∅.
Proof.
  destruct (reports_expire sampleRender "r-1" "r-1" 0 0 sampleReport emptyStore)
    as (E & _).
  destruct (reports_expire sampleRender "r-1" "r-1" 0 1800000 sampleReport emptyStore)
    as (_ & G).
  destruct (G E) as (S & _).
  destruct (reports_expire sampleRender "r-2" "r-1" 0 1800000 sampleReport
              (fst (ReportController.generateReport sampleRender "r-1" 0 sampleReport
                      emptyStore))) as (_ & H).
  destruct (H S) as (_ & _ & _ & X).
  apply X. simpl. constructor; [simpl; lia | constructor].
Defined.

(** ** The session named [__proto__] *)

Lemma requestEvents_first (env : Env) (query : string)
    (documentContext : option string) :
  exists rest,
    requestEvents env query documentContext
    = event env "Starting research query categorization" None :: rest.
Proof. unfold requestEvents. simpl. eauto. Qed.

(** X22: a validated request whose session identifier is [__proto__] is
    served like any other, but its log becomes the prototype of the
    session map and its flag is not stored. Afterwards the status
    endpoint reports for [__proto__] the events of the request and, as
    the flag, [Object.prototype]; every identifier without an entry of
    its own is read through the log, so [length] reads the number of
    events, and an adapter called with it throws. *)
Theorem proto_session (env : Env) (req : QueryController.Request) (st : State) :
  valid req = true ->
  QueryController.sessionId req = Some "__proto__" ->
  let query := default "" (QueryController.query req) in
  let events := requestEvents env query (QueryController.documentContext req) in
  let st' := fst (QueryController.handleResearchQuery env req st) in
  researchComplete st' = researchComplete st
  /\ QueryController.getResearchStatus env "__proto__" st'
     = ("__proto__", Session.Log events, Session.Root)
  /\ (forall other,
        other <> "__proto__" ->
        researchStatus st !! other = None ->
        Session.status env st' other = Session.throughArray env events other)
  /\ (researchStatus st !! "length" = None ->
      Session.status env st' "length" = Session.Count (length events)
      /\ forall q, ~ returns (FallbackService.getResearch env q "length") st').
Proof.
  intros V S. cbv zeta. rewrite (handleResearchQuery_run env req st V). cbv zeta.
  rewrite S. change (default "" (Some "__proto__")) with "__proto__". cbn [fst].
  set (events := requestEvents env _ _).
  set (flags := Session.assign _ _ _).
  assert (T : forall other,
             other <> "__proto__" ->
             researchStatus st !! other = None ->
             Session.status env
               (mkState (<["__proto__" := events]> (researchStatus st)) flags
                        (effects st ++ adapterEffects
                                         (QueryController.categorizeQuery
                                            (default "" (QueryController.query req)))
                                    ++ synthesisEffects env)) other
             = Session.throughArray env events other).
  { intros other N A. unfold Session.status. simpl.
    rewrite lookup_insert_ne by congruence. rewrite A.
    destruct (String.eqb_spec other "__proto__"); [contradiction|].
    now rewrite lookup_insert_eq. }
  split; [reflexivity|]. split; [|split; [exact T|]].
  - unfold QueryController.getResearchStatus. now rewrite steps_insert.
  - intros A.
    assert (C : Session.status env
                  (mkState (<["__proto__" := events]> (researchStatus st)) flags
                     (effects st ++ adapterEffects
                                      (QueryController.categorizeQuery
                                         (default "" (QueryController.query req)))
                                 ++ synthesisEffects env)) "length"
                = Session.Count (length events)).
    { rewrite (T "length") by (try discriminate; exact A). reflexivity. }
    split; [exact C|].
    intros q [records R]. revert R.
    unfold FallbackService.getResearch, bind, Session.log, Session.push.
    cbv beta. rewrite C.
    destruct (requestEvents_first env (default "" (QueryController.query req))
                (QueryController.documentContext req)) as [rest E].
    unfold events. rewrite E. simpl. discriminate.
Qed.

Lemma proto_session_witness :
  let req := QueryController.mkRequest (Some "office vacancy") (Some "__proto__") None in
  let st' := fst (QueryController.handleResearchQuery offlineEnv req freshState) in
  QueryController.status (snd (QueryController.handleResearchQuery offlineEnv req
                                 freshState)) = 200%nat
  /\ researchComplete st' = researchComplete freshState
  /\ Session.status offlineEnv st' "length" = Session.Count 11
  /\ ~ returns (FallbackService.getResearch offlineEnv "office vacancy" "length") st'.
Proof.
  intros req st'.
  destruct (proto_session offlineEnv req freshState eq_refl eq_refl)
    as (H1 & _ & _ & H4).
  destruct (H4 eq_refl) as [H5 H6].
  split; [vm_compute; reflexivity|]. split; [exact H1|].
  split; [etransitivity; [exact H5 | vm_compute; reflexivity] | apply H6].
Defined.
